(** * guiascr-backend: the OAuth/HMAC core, the two auth middlewares,
      the record store and the webhook receiver of [server.js] and
      [database.js], embedded as executable Rocq functions.

    Conventions of the embedding.
    - A JavaScript string is held as the bytes of its UTF-8 encoding, which
      is what [crypto] digests and what a Buffer holds; for ASCII text, all
      that the handlers themselves write, that is the text itself.
    - [Date.now()], [new Date()], [crypto.randomBytes] and the answers of
      the upstream platform are inputs of the handler that consumes them.
    - The Sequelize tables are finite maps: [shops] and [sender_configs]
      are keyed by their primary key [shop], [extension_keys] by its unique
      column [accessKey].  The columns [createdAt] and [updatedAt] that
      [timestamps: true] maintains are left out where no handler reads
      them.  The store itself never fails; only the constraints the models
      declare (not-null, primary key, unique, foreign key, column type)
      raise.  The store is the PostgreSQL one that [DATABASE_URL] selects
      (the SQLite fallback writes a boolean into a STRING column as 1 or 0).
    - Node's [crypto.createHmac] and [jsonwebtoken.decode] are library
      code: handlers take them as section variables, and [Sha256] gives the
      real HMAC-SHA256 for concrete runs. *)

From Stdlib Require Import ZArith List String Ascii Lia.
From stdpp Require Import strings gmap sorting.
Import ListNotations.

Local Open Scope string_scope.
Set Warnings "-register-all".

(* ===================================================================== *)
(** ** Node's [crypto]: SHA-256, HMAC, and the two digest encodings       *)
(* ===================================================================== *)

Module Sha256.
Local Open Scope list_scope.
Local Open Scope Z_scope.

Definition mask32 : Z := 0xffffffff.
Definition wrap (x : Z) : Z := Z.land x mask32.
Definition add32 (x y : Z) : Z := wrap (x + y).
Definition rotr (n x : Z) : Z :=
  Z.lor (Z.shiftr x n) (wrap (Z.shiftl x (32 - n))).
Definition not32 (x : Z) : Z := Z.lxor x mask32.

Definition ch (x y z : Z) : Z := Z.lxor (Z.land x y) (Z.land (not32 x) z).
Definition maj (x y z : Z) : Z :=
  Z.lxor (Z.lxor (Z.land x y) (Z.land x z)) (Z.land y z).
Definition bsig0 (x : Z) : Z := Z.lxor (Z.lxor (rotr 2 x) (rotr 13 x)) (rotr 22 x).
Definition bsig1 (x : Z) : Z := Z.lxor (Z.lxor (rotr 6 x) (rotr 11 x)) (rotr 25 x).
Definition ssig0 (x : Z) : Z := Z.lxor (Z.lxor (rotr 7 x) (rotr 18 x)) (Z.shiftr x 3).
Definition ssig1 (x : Z) : Z := Z.lxor (Z.lxor (rotr 17 x) (rotr 19 x)) (Z.shiftr x 10).

Definition primes64 : list Z :=
  [2; 3; 5; 7; 11; 13; 17; 19; 23; 29; 31; 37; 41; 43; 47; 53;
   59; 61; 67; 71; 73; 79; 83; 89; 97; 101; 103; 107; 109; 113; 127; 131;
   137; 139; 149; 151; 157; 163; 167; 173; 179; 181; 191; 193; 197; 199;
   211; 223; 227; 229; 233; 239; 241; 251; 257; 263; 269; 271; 277; 281;
   283; 293; 307; 311].

(* Integer cube root by bisection: lo^3 <= n < hi^3 throughout. *)
Fixpoint cbrt_bisect (fuel : nat) (n lo hi : Z) : Z :=
  match fuel with
  | O => lo
  | S fuel' =>
      let mid := (lo + hi) / 2 in
      if mid * mid * mid <=? n
      then cbrt_bisect fuel' n mid hi
      else cbrt_bisect fuel' n lo mid
  end.

(* First 32 bits of the fractional part of the cube (square) root of p. *)
Definition frac_cbrt32 (p : Z) : Z := wrap (cbrt_bisect 40 (p * 2 ^ 96) 0 (2 ^ 36)).
Definition frac_sqrt32 (p : Z) : Z := wrap (Z.sqrt (p * 2 ^ 64)).

Definition K : list Z := Eval vm_compute in map frac_cbrt32 primes64.
Definition H0 : list Z := Eval vm_compute in map frac_sqrt32 (firstn 8 primes64).

Definition be_bytes (count : nat) (x : Z) : list Z :=
  map (fun i => Z.land (Z.shiftr x (8 * Z.of_nat i)) 0xff) (rev (seq 0 count)).

Definition pad (msg : list Z) : list Z :=
  let len := Z.of_nat (length msg) in
  msg ++ [0x80] ++ repeat 0 (Z.to_nat ((55 - len) mod 64)) ++ be_bytes 8 (8 * len).

Fixpoint be_words (bytes : list Z) : list Z :=
  match bytes with
  | b0 :: b1 :: b2 :: b3 :: rest =>
      (Z.shiftl b0 24 + Z.shiftl b1 16 + Z.shiftl b2 8 + b3) :: be_words rest
  | _ => []
  end.

(* The message schedule, most recent word first. *)
Fixpoint extend (n : nat) (recent : list Z) : list Z :=
  match n with
  | O => recent
  | S n' =>
      let w := add32 (add32 (ssig1 (nth 1 recent 0)) (nth 6 recent 0))
                     (add32 (ssig0 (nth 14 recent 0)) (nth 15 recent 0)) in
      extend n' (w :: recent)
  end.

Definition schedule (block : list Z) : list Z := rev (extend 48 (rev block)).

Record regs := Regs { ra : Z; rb : Z; rc : Z; rd : Z; re : Z; rf : Z; rg : Z; rh : Z }.

Definition round (s : regs) (kw : Z * Z) : regs :=
  let t1 := add32 (add32 (add32 (rh s) (bsig1 (re s))) (ch (re s) (rf s) (rg s)))
                  (add32 (fst kw) (snd kw)) in
  let t2 := add32 (bsig0 (ra s)) (maj (ra s) (rb s) (rc s)) in
  Regs (add32 t1 t2) (ra s) (rb s) (rc s) (add32 (rd s) t1) (re s) (rf s) (rg s).

Definition add_regs (s t : regs) : regs :=
  Regs (add32 (ra s) (ra t)) (add32 (rb s) (rb t)) (add32 (rc s) (rc t))
       (add32 (rd s) (rd t)) (add32 (re s) (re t)) (add32 (rf s) (rf t))
       (add32 (rg s) (rg t)) (add32 (rh s) (rh t)).

Definition compress (s : regs) (block : list Z) : regs :=
  add_regs s (fold_left round (combine K (schedule block)) s).

Fixpoint blocks (fuel : nat) (ws : list Z) (s : regs) : regs :=
  match fuel, ws with
  | S fuel', _ :: _ => blocks fuel' (skipn 16 ws) (compress s (firstn 16 ws))
  | _, _ => s
  end.

Definition init : regs :=
  Regs (nth 0 H0 0) (nth 1 H0 0) (nth 2 H0 0) (nth 3 H0 0)
       (nth 4 H0 0) (nth 5 H0 0) (nth 6 H0 0) (nth 7 H0 0).

Definition sha256 (msg : list Z) : list Z :=
  let ws := be_words (pad msg) in
  let s := blocks (length ws) ws init in
  flat_map (be_bytes 4) [ra s; rb s; rc s; rd s; re s; rf s; rg s; rh s].

Definition hmac (key msg : list Z) : list Z :=
  let k0 := if 64 <? Z.of_nat (length key) then sha256 key else key in
  let k := k0 ++ repeat 0 (64 - length k0) in
  sha256 (map (Z.lxor 0x5c) k ++ sha256 (map (Z.lxor 0x36) k ++ msg)).

(** The bytes digested for a text or a Buffer: a text is held as the bytes
    of its UTF-8 encoding. *)
Definition bytes_of_string (s : string) : list Z :=
  map (fun c => Z.of_N (N_of_ascii c)) (list_ascii_of_string s).

(** [crypto.createHmac('sha256', key).update(data)] before [.digest]. *)
Definition hmac_sha256 (key data : string) : list Z :=
  hmac (bytes_of_string key) (bytes_of_string data).
End Sha256.

(** [.digest('hex')] and [.digest('base64')]. *)
Module Digest.
Local Open Scope Z_scope.

Definition alphabet_char (alphabet : string) (i : Z) : ascii :=
  match String.get (Z.to_nat i) alphabet with
  | Some c => c
  | None => "?"%char
  end.

Definition hex_alphabet : string := "0123456789abcdef".
Definition base64_alphabet : string :=
  "ABCDEFGHIJKLMNOPQRSTUVWXYZabcdefghijklmnopqrstuvwxyz0123456789+/".

Fixpoint hex (bytes : list Z) : string :=
  match bytes with
  | [] => EmptyString
  | b :: rest =>
      String (alphabet_char hex_alphabet (Z.shiftr b 4))
        (String (alphabet_char hex_alphabet (Z.land b 15)) (hex rest))
  end.

Definition sextet (x : Z) (shift : Z) : ascii :=
  alphabet_char base64_alphabet (Z.land (Z.shiftr x shift) 63).

Fixpoint base64 (bytes : list Z) : string :=
  match bytes with
  | b0 :: b1 :: b2 :: rest =>
      let x := Z.shiftl b0 16 + Z.shiftl b1 8 + b2 in
      String (sextet x 18) (String (sextet x 12)
        (String (sextet x 6) (String (sextet x 0) (base64 rest))))
  | [b0; b1] =>
      let x := Z.shiftl b0 16 + Z.shiftl b1 8 in
      String (sextet x 18) (String (sextet x 12) (String (sextet x 6) "="))
  | [b0] =>
      let x := Z.shiftl b0 16 in
      String (sextet x 18) (String (sextet x 12) "==")
  | [] => EmptyString
  end.
End Digest.

(* ===================================================================== *)
(** ** Exceptions                                                         *)
(* ===================================================================== *)

Inductive error :=
| TypeError (msg : string)
| SyntaxError
| Error (msg : string)
| ValidationError (column : string)
| UniqueConstraintError (column : string)
| ForeignKeyConstraintError (column : string)
| AxiosError.

(** A computation that returns or throws. *)
Inductive result (A : Type) :=
| Ok (a : A)
| Throw (e : error).
Arguments Ok {A} a.
Arguments Throw {A} e.

#[export] Instance result_ret : MRet result := fun A a => Ok a.
#[export] Instance result_bind : MBind result := fun A B f r =>
  match r with
  | Ok a => f a
  | Throw e => Throw e
  end.

(** [items.map(f)] for an [f] that may throw: the first exception ends it. *)
Definition traverse {A B : Type} (f : A → result B) : list A → result (list B) :=
  fix go (items : list A) : result (list B) :=
    match items with
    | [] => Ok []
    | item :: rest =>
        y ← f item;
        ys ← go rest;
        Ok (y :: ys)
    end.

(* ===================================================================== *)
(** ** JavaScript strings and values                                      *)
(* ===================================================================== *)

Module Js.

(** The double quote, for the texts [JSON.stringify] produces. *)
Definition dq : string := String "034"%char EmptyString.

(** [s.startsWith(p)], returning what follows the prefix. *)
Fixpoint strip_prefix (p s : string) : option string :=
  match p, s with
  | EmptyString, _ => Some s
  | String a p', String b s' => if Ascii.eqb a b then strip_prefix p' s' else None
  | String _ _, EmptyString => None
  end.

Definition startsWith (s p : string) : bool :=
  match strip_prefix p s with Some _ => true | None => false end.

(** [s.replace(pat, repl)] with a string pattern: the first occurrence
    only, wherever it is. *)
Fixpoint replace (s pat repl : string) : string :=
  match strip_prefix pat s with
  | Some rest => repl ++ rest
  | None =>
      match s with
      | EmptyString => EmptyString
      | String c s' => String c (replace s' pat repl)
      end
  end.

(** [parts.join(sep)]. *)
Fixpoint join (sep : string) (parts : list string) : string :=
  match parts with
  | [] => ""
  | [p] => p
  | p :: rest => p ++ sep ++ join sep rest
  end.

(** Decimal text of a natural number ([String(i)] for an index or a byte). *)
Definition digit (n : nat) : ascii := ascii_of_nat (48 + n).

Fixpoint decimal_go (fuel n : nat) (acc : string) : string :=
  match fuel with
  | O => acc
  | S fuel' =>
      let acc' := String (digit (n mod 10)) acc in
      if Nat.ltb n 10 then acc' else decimal_go fuel' (n / 10) acc'
  end.

Definition decimal (n : nat) : string := decimal_go (S n) n "".

(** A JavaScript value, as far as query strings and JSON produce them.
    A number is held as its [String(n)] text (zero is ["0"]). *)
Inductive value :=
| VUndefined
| VNull
| VBool (b : bool)
| VNum (text : string)
| VStr (s : string)
| VArr (items : list value)
| VObj (props : list (string * value)).

(** [k] is an own property of the object. *)
Definition own (props : list (string * value)) (k : string) : bool :=
  existsb (fun kv => String.eqb kv.1 k) props.

(** [String(v)], the coercion that template literals, [+] with a string
    and [RegExp.test] apply.  An array joins the texts of its elements.  An
    object gives [[object Object]] through [Object.prototype.toString],
    unless it has an own property [toString]: what JSON or a query string
    put there is not callable, [valueOf] gives no primitive either, and
    the coercion throws. *)
Fixpoint toString (v : value) : result string :=
  match v with
  | VUndefined => Ok "undefined"
  | VNull => Ok "null"
  | VBool true => Ok "true"
  | VBool false => Ok "false"
  | VNum text => Ok text
  | VStr s => Ok s
  | VArr items =>
      parts ← traverse (fun item =>
                          match item with
                          | VUndefined | VNull => Ok ""
                          | _ => toString item
                          end) items;
      Ok (join "," parts)
  | VObj props =>
      if own props "toString"
      then Throw (TypeError "Cannot convert object to primitive value")
      else Ok "[object Object]"
  end.

(** [!!v]. *)
Definition truthy (v : value) : bool :=
  match v with
  | VUndefined | VNull => false
  | VBool b => b
  | VNum text => negb (String.eqb text "0")
  | VStr s => negb (String.eqb s "")
  | VArr _ | VObj _ => true
  end.

Fixpoint assoc (props : list (string * value)) (k : string) : value :=
  match props with
  | [] => VUndefined
  | (k', v) :: rest => if String.eqb k' k then v else assoc rest k
  end.

(** [v.k] on a value that came out of JSON: [None] is the [TypeError] of
    reading a property of [null] or [undefined]. *)
Definition prop (v : value) (k : string) : option value :=
  match v with
  | VUndefined | VNull => None
  | VObj props => Some (assoc props k)
  | _ => Some VUndefined
  end.

(** The own enumerable properties [{...v}] copies. *)
Definition spread (v : value) : list (string * value) :=
  match v with
  | VObj props => props
  | VArr items => imap (fun i item => (decimal i, item)) items
  | _ => []
  end.

End Js.

(* ===================================================================== *)
(** ** database.js: the three models                                      *)
(* ===================================================================== *)

(** [Shop]: the primary key [shop] is the key of the table. *)
Module Shop.
Record row := Row {
  accessToken : string;
  scope : option string;
  installedAt : Z;
  uninstalledAt : option Z;
  isActive : bool
}.
End Shop.

(** [ExtensionKey]: [accessKey] is declared unique and is the key of the
    table; [id] is the UUID primary key. *)
Module ExtensionKey.
Record row := Row {
  id : string;
  shop : string;
  name : option string;
  lastUsedAt : option Z;
  isActive : bool;
  createdAt : Z
}.
End ExtensionKey.

(** [SenderConfig]: the primary key [shop] is the key of the table. *)
Module SenderConfig.
Record row := Row {
  senderIdentificationType : option string;
  senderId : option string;
  senderName : option string;
  senderPhone : option string;
  senderMail : option string;
  provinciaSender : option string;
  cantonSender : option string;
  distritoSender : option string;
  senderPostalCode : option string;
  senderDirection : option string
}.

(** The [defaultValue]s of the model; a column without one starts NULL. *)
Definition defaults : row :=
  Row (Some "1") None None None None (Some "1") (Some "1") (Some "1") None None.
End SenderConfig.

Record database := Database {
  shops : gmap string Shop.row;
  extension_keys : gmap string ExtensionKey.row;
  sender_configs : gmap string SenderConfig.row
}.

#[export] Instance shop_row_eq_dec : EqDecision Shop.row.
Proof. solve_decision. Defined.
#[export] Instance extension_key_row_eq_dec : EqDecision ExtensionKey.row.
Proof. solve_decision. Defined.
#[export] Instance sender_config_row_eq_dec : EqDecision SenderConfig.row.
Proof. solve_decision. Defined.
#[export] Instance database_eq_dec : EqDecision database.
Proof. solve_decision. Defined.

(** What a STRING column takes from a supplied value: [undefined] leaves
    the column out of the statement, [null] stores NULL, a string stores
    itself, a number or a boolean the text PostgreSQL casts it to, an array
    or an object fails the model's validation. *)
Inductive supplied :=
| Omitted
| Cell (c : option string).

Definition string_column (column : string) (v : Js.value) : result supplied :=
  match v with
  | Js.VUndefined => Ok Omitted
  | Js.VNull => Ok (Cell None)
  | Js.VStr s => Ok (Cell (Some s))
  | Js.VNum text => Ok (Cell (Some text))
  | Js.VBool b => Ok (Cell (Some (if b then "true" else "false")))
  | Js.VArr _ | Js.VObj _ => Throw (ValidationError column)
  end.

(** A column declared [allowNull: false] (or a primary key). *)
Definition required_column (column : string) (v : Js.value) : result string :=
  s ← string_column column v;
  match s with
  | Cell (Some text) => Ok text
  | Cell None | Omitted => Throw (ValidationError column)
  end.

(** A nullable column of an upsert: an omitted column keeps [current]. *)
Definition nullable_column (column : string) (v : Js.value)
    (current : option string) : result (option string) :=
  s ← string_column column v;
  match s with
  | Cell c => Ok c
  | Omitted => Ok current
  end.

(* --------------------------------------------------------------------- *)
(** *** SHOPS                                                             *)
(* --------------------------------------------------------------------- *)

Definition saveShopSession (shop accessToken scope : Js.value) (now : Z)
    (d : database) : result database :=
  let scope := match scope with Js.VUndefined => Js.VNull | _ => scope end in
  shop' ← required_column "shop" shop;
  accessToken' ← required_column "accessToken" accessToken;
  scope' ← nullable_column "scope" scope None;
  Ok (Database
        (<[shop' := Shop.Row accessToken' scope' now None true]> (shops d))
        (extension_keys d) (sender_configs d)).

Definition getShopSession (shop : string) (d : database) : option Shop.row :=
  match shops d !! shop with
  | Some r => if Shop.isActive r then Some r else None
  | None => None
  end.

Definition uninstall_shop (now : Z) (r : Shop.row) : Shop.row :=
  Shop.Row (Shop.accessToken r) (Shop.scope r) (Shop.installedAt r) (Some now) false.

Definition deactivate_key (r : ExtensionKey.row) : ExtensionKey.row :=
  ExtensionKey.Row (ExtensionKey.id r) (ExtensionKey.shop r) (ExtensionKey.name r)
    (ExtensionKey.lastUsedAt r) false (ExtensionKey.createdAt r).

(** [shop] is [None] when the caller passes [undefined]: Sequelize refuses
    the [where] clause, and the function's own [catch] swallows that. *)
Definition deleteShopSession (shop : option string) (now : Z) (d : database) : database :=
  match shop with
  | None => d
  | Some shop =>
      Database
        (alter (uninstall_shop now) shop (shops d))
        ((fun r => if String.eqb (ExtensionKey.shop r) shop then deactivate_key r else r)
           <$> extension_keys d)
        (sender_configs d)
  end.

Definition getActiveShopsCount (d : database) : nat :=
  size (filter (fun kr => Shop.isActive kr.2 = true) (shops d)).

(* --------------------------------------------------------------------- *)
(** *** EXTENSION ACCESS KEYS                                             *)
(* --------------------------------------------------------------------- *)

(** [random] is the hex text of [crypto.randomBytes(32)]. *)
Definition generateAccessKey (random : string) : string := "sk_" ++ random.

(** Some stored key has this [id]. *)
Definition id_taken (uuid : string) (d : database) : bool :=
  bool_decide (map_Exists (fun _ key => ExtensionKey.id key = uuid) (extension_keys d)).

(** [uuid] is the UUIDV4 the model draws for [id].  The insert fails on
    an [id] that is already stored (the primary key) and on an [accessKey]
    that is already stored (declared unique). *)
Definition createExtensionKey (shop : string) (name : option string)
    (random uuid : string) (now : Z) (d : database)
    : result (string * ExtensionKey.row * database) :=
  match getShopSession shop d with
  | None => Throw (Error "Shop not found")
  | Some _ =>
      let accessKey := generateAccessKey random in
      if id_taken uuid d then Throw (UniqueConstraintError "id")
      else
        match extension_keys d !! accessKey with
        | Some _ => Throw (UniqueConstraintError "accessKey")
        | None =>
            let key := ExtensionKey.Row uuid shop name None true now in
            Ok (accessKey, key,
                Database (shops d) (<[accessKey := key]> (extension_keys d))
                         (sender_configs d))
        end
  end.

Definition touch_key (now : Z) (r : ExtensionKey.row) : ExtensionKey.row :=
  ExtensionKey.Row (ExtensionKey.id r) (ExtensionKey.shop r) (ExtensionKey.name r)
    (Some now) (ExtensionKey.isActive r) (ExtensionKey.createdAt r).

(** Returns [{shop, accessToken}] or [null]. *)
Definition validateExtensionKey (accessKey : string) (now : Z) (d : database)
    : option (string * string) * database :=
  match extension_keys d !! accessKey with
  | Some key =>
      if ExtensionKey.isActive key then
        match shops d !! ExtensionKey.shop key with
        | Some s =>
            if Shop.isActive s then
              (Some (ExtensionKey.shop key, Shop.accessToken s),
               Database (shops d)
                        (<[accessKey := touch_key now key]> (extension_keys d))
                        (sender_configs d))
            else (None, d)
        | None => (None, d)
        end
      else (None, d)
  | None => (None, d)
  end.

Definition revokeExtensionKey (accessKey shop : string) (d : database) : database :=
  Database
    (shops d)
    (alter (fun r => if String.eqb (ExtensionKey.shop r) shop then deactivate_key r else r)
           accessKey (extension_keys d))
    (sender_configs d).

(* --------------------------------------------------------------------- *)
(** *** SENDER CONFIG                                                     *)
(* --------------------------------------------------------------------- *)

(** [SenderConfig.upsert({ shop, ...config })]: the properties of
    [config] come after [shop] in the literal and win over it.  On a new
    row an omitted column takes its default, on an existing row it keeps
    what is stored; the foreign key needs the target shop to exist. *)
Definition saveSenderConfig (shop : string) (config : Js.value) (d : database)
    : result database :=
  let values := (Js.spread config ++ [("shop", Js.VStr shop)])%list in
  let given := Js.assoc values in
  target ← required_column "shop" (given "shop");
  let old := default SenderConfig.defaults (sender_configs d !! target) in
  c1 ← nullable_column "senderIdentificationType" (given "senderIdentificationType")
         (SenderConfig.senderIdentificationType old);
  c2 ← nullable_column "senderId" (given "senderId") (SenderConfig.senderId old);
  c3 ← nullable_column "senderName" (given "senderName") (SenderConfig.senderName old);
  c4 ← nullable_column "senderPhone" (given "senderPhone") (SenderConfig.senderPhone old);
  c5 ← nullable_column "senderMail" (given "senderMail") (SenderConfig.senderMail old);
  c6 ← nullable_column "provinciaSender" (given "provinciaSender")
         (SenderConfig.provinciaSender old);
  c7 ← nullable_column "cantonSender" (given "cantonSender") (SenderConfig.cantonSender old);
  c8 ← nullable_column "distritoSender" (given "distritoSender")
         (SenderConfig.distritoSender old);
  c9 ← nullable_column "senderPostalCode" (given "senderPostalCode")
         (SenderConfig.senderPostalCode old);
  c10 ← nullable_column "senderDirection" (given "senderDirection")
          (SenderConfig.senderDirection old);
  match shops d !! target with
  | None => Throw (ForeignKeyConstraintError "shop")
  | Some _ =>
      Ok (Database (shops d) (extension_keys d)
            (<[target := SenderConfig.Row c1 c2 c3 c4 c5 c6 c7 c8 c9 c10]>
               (sender_configs d)))
  end.

Definition getSenderConfig (shop : string) (d : database) : option SenderConfig.row :=
  sender_configs d !! shop.

(** The property names of [module.exports]. *)
Definition module_exports : list string :=
  ["sequelize"; "Shop"; "ExtensionKey"; "SenderConfig";
   "initDatabase";
   "saveShopSession"; "getShopSession"; "deleteShopSession"; "getActiveShopsCount";
   "generateAccessKey"; "createExtensionKey"; "validateExtensionKey";
   "getShopExtensionKeys"; "revokeExtensionKey";
   "saveSenderConfig"; "getSenderConfig"].

(* ===================================================================== *)
(** ** server.js                                                          *)
(* ===================================================================== *)

(** What a handler sends: [res.status(c).send(text)], [res.json(v)]
    (status 200 unless set), [res.redirect(url)] (status 302). *)
Inductive body :=
| Text (text : string)
| Json (v : Js.value)
| Location (url : string).

Record response := Response { status : Z; payload : body }.

Definition send (code : Z) (text : string) : response := Response code (Text text).
Definition json (code : Z) (v : Js.value) : response := Response code (Json v).
Definition redirect (url : string) : response := Response 302 (Location url).

(** A handler either answers or throws: an async handler then leaves a
    rejected promise behind, a synchronous one leaves the exception to the
    framework. *)
Inductive outcome :=
| Responded (r : response)
| Rejected (e : error).

(** A request sent to the platform with [axios.post(url, data)]. *)
Inductive upstream :=
| AxiosPost (url : string) (data : Js.value).

(** An entry of the [temporaryStates] map. *)
Record pending := Pending { state : string; timestamp : Z }.

#[export] Instance pending_eq_dec : EqDecision pending.
Proof. solve_decision. Defined.

(** The process state: the in-memory map and the store. *)
Record world := World {
  temporaryStates : gmap string pending;
  db : database
}.

(** What a middleware does: answer itself, or set [req.shop],
    [req.accessToken], [req.authMethod] and call [next()]. *)
Inductive gate :=
| Deny (r : response)
| Next (shop accessToken authMethod : string).

(** [req.body] under [/api/webhooks]: the Buffer [express.raw] leaves for
    an [application/json] request, or the empty object the body parsers
    leave when none of them read the request. *)
Inductive raw_body :=
| Buffer (bytes : string)
| NotParsed.

Definition byte_values (bytes : string) : list nat :=
  map nat_of_ascii (list_ascii_of_string bytes).

(** [JSON.stringify(req.body)]: a Buffer serialises through its [toJSON]. *)
Definition JSON_stringify (b : raw_body) : string :=
  match b with
  | Buffer bytes =>
      "{" ++ Js.dq ++ "type" ++ Js.dq ++ ":" ++ Js.dq ++ "Buffer" ++ Js.dq ++ ","
          ++ Js.dq ++ "data" ++ Js.dq ++ ":["
          ++ Js.join "," (map Js.decimal (byte_values bytes)) ++ "]}"
  | NotParsed => "{}"
  end.

(** [a === b] for a string [a]. *)
Definition strict_eq (a : string) (b : Js.value) : bool :=
  match b with
  | Js.VStr s => String.eqb a s
  | _ => false
  end.

(** [req.query.k], [undefined] when the parameter is absent. *)
Definition param (query : gmap string Js.value) (k : string) : Js.value :=
  default Js.VUndefined (query !! k).

(** [Object.keys(o)]. *)
Definition Object_keys (o : gmap string Js.value) : list string :=
  (map_to_list o).*1.

(** [keys.sort()]: ascending, byte by byte.  That is the order of code
    points, which is the order of code units except between a character
    outside the Basic Multilingual Plane and one from U+E000 up. *)
Definition sort (keys : list string) : list string := merge_sort String.le keys.

(** [/^[a-zA-Z0-9][a-zA-Z0-9\-]*\.myshopify\.com$/]. *)
Definition alnum (c : ascii) : bool :=
  let n := nat_of_ascii c in
  (Nat.leb 48 n && Nat.leb n 57) || (Nat.leb 65 n && Nat.leb n 90)
  || (Nat.leb 97 n && Nat.leb n 122).

Fixpoint label_rest (s : string) : bool :=
  match s with
  | EmptyString => false
  | String c s' =>
      if alnum c || Ascii.eqb c "-" then label_rest s'
      else String.eqb s ".myshopify.com"
  end.

Definition shopRegex_test (s : string) : bool :=
  match s with
  | EmptyString => false
  | String c s' => alnum c && label_rest s'
  end.

Definition SCOPES : string := "read_orders,read_fulfillments".

(** The sweep callback of [setInterval], run at time [now]. *)
Definition sweep (now : Z) (states : gmap string pending) : gmap string pending :=
  filter (fun kv => ¬ (now - timestamp kv.2 > 300000)%Z) states.

(** [deleteShopData] is destructured from [require('./database')], whose
    [module.exports] has no property of that name, and no function of that
    name is defined anywhere: the binding holds [undefined]. *)
Definition deleteShopData : option (Js.value → database → database) := None.

Section Server.

(** [crypto.createHmac('sha256', key).update(data)], as digest bytes. *)
Variable hmac_sha256 : string → string → list Z.
(** [jwt.decode(token)]: the payload, [null], or a parse error. *)
Variable jwt_decode : string → result Js.value.
(** [JSON.parse(text)]. *)
Variable JSON_parse : string → result Js.value.
(** The configuration read from the environment. *)
Variables SHOPIFY_API_KEY SHOPIFY_API_SECRET APP_URL : string.

Definition verifyShopifyWebhook (data : raw_body) (hmacHeader : option string)
    : result bool :=
  match data with
  | Buffer bytes =>
      let hash := Digest.base64 (hmac_sha256 SHOPIFY_API_SECRET bytes) in
      Ok (bool_decide (Some hash = hmacHeader))
  | NotParsed => Throw (TypeError "The data argument must be of type string or Buffer")
  end.

(* ------------------------------------------------------------------- *)
(** *** OAUTH 2.0                                                       *)
(* ------------------------------------------------------------------- *)

(** [random] is the hex text of [crypto.randomBytes(16)].  The handler is
    synchronous and has no [try]: when [shopRegex.test(shop)] cannot turn
    [shop] into text, the exception leaves the handler.  Past the test the
    template literals coerce the same value again, to the same text. *)
Definition auth (query : gmap string Js.value) (random : string) (now : Z)
    (w : world) : outcome * world :=
  let shop := param query "shop" in
  if negb (Js.truthy shop) then (Responded (send 400 "Missing shop parameter"), w)
  else
    match Js.toString shop with
    | Throw e => (Rejected e, w)
    | Ok shop' =>
        if negb (shopRegex_test shop')
        then (Responded (send 400 "Invalid shop parameter"), w)
        else
          let state := random in
          let redirectUri := APP_URL ++ "/api/auth/callback" in
          let w' := World (<["state_" ++ shop' := Pending state now]>
                             (temporaryStates w)) (db w) in
          let authUrl := "https://" ++ shop' ++ "/admin/oauth/authorize?"
                         ++ "client_id=" ++ SHOPIFY_API_KEY ++ "&"
                         ++ "scope=" ++ SCOPES ++ "&"
                         ++ "redirect_uri=" ++ redirectUri ++ "&"
                         ++ "state=" ++ state in
          (Responded (redirect authUrl), w')
    end.

(** The text the callback signs: the query without [hmac], keys sorted,
    each value coerced by the template literal. *)
Definition queryString (query : gmap string Js.value) : result string :=
  let queryParams := delete "hmac" query in
  pairs ← traverse (fun key =>
                      text ← Js.toString (param queryParams key);
                      Ok (key ++ "=" ++ text))
                   (sort (Object_keys queryParams));
  Ok (Js.join "&" pairs).

(** [shop] is the text the callback has for the shop by then; the
    function catches what its request throws. *)
Definition registerWebhooks (shop : string) : list upstream :=
  [AxiosPost ("https://" ++ shop ++ "/admin/api/2024-01/webhooks.json")
     (Js.VObj [("webhook",
                Js.VObj [("topic", Js.VStr "app/uninstalled");
                         ("address", Js.VStr (APP_URL ++ "/api/webhooks/app/uninstalled"));
                         ("format", Js.VStr "json")])])].

(** [exchange] is what the token request yields: [None] when axios
    rejects, else [tokenResponse.data]. [random] and [uuid] feed the
    initial extension key.  The lookup of the pending state and the build
    of the signed text come before the [try]: a parameter that has no text
    makes the handler throw there, before any answer and any change.  Once
    [shop] has been coerced for the lookup, the later template literals
    give the same text [shop']. *)
Definition callback (query : gmap string Js.value) (exchange : option Js.value)
    (random uuid : string) (now : Z) (w : world)
    : outcome * world * list upstream :=
  let shop := param query "shop" in
  let code := param query "code" in
  let state' := param query "state" in
  let hmac := param query "hmac" in
  match Js.toString shop with
  | Throw e => (Rejected e, w, [])
  | Ok shop' =>
      let key := "state_" ++ shop' in
      match temporaryStates w !! key with
      | None => (Responded (send 403 "Invalid state parameter"), w, [])
      | Some savedState =>
          if negb (strict_eq (state savedState) state')
          then (Responded (send 403 "Invalid state parameter"), w, [])
          else
            match queryString query with
            | Throw e => (Rejected e, w, [])
            | Ok text =>
                let hash := Digest.hex (hmac_sha256 SHOPIFY_API_SECRET text) in
                if negb (strict_eq hash hmac)
                then (Responded (send 403 "HMAC validation failed"), w, [])
                else
                  let states := delete key (temporaryStates w) in
                  let post :=
                    AxiosPost ("https://" ++ shop' ++ "/admin/oauth/access_token")
                      (Js.VObj [("client_id", Js.VStr SHOPIFY_API_KEY);
                                ("client_secret", Js.VStr SHOPIFY_API_SECRET);
                                ("code", code)]) in
                  let failed := Responded (send 500 "Error during authentication") in
                  match exchange with
                  | None => (failed, World states (db w), [post])
                  | Some data =>
                      match Js.prop data "access_token", Js.prop data "scope" with
                      | Some accessToken, Some scope =>
                          match saveShopSession shop accessToken scope now (db w) with
                          | Throw _ => (failed, World states (db w), [post])
                          | Ok d1 =>
                              match createExtensionKey shop'
                                      (Some "Access Key Inicial") random uuid now d1 with
                              | Throw _ => (failed, World states d1, [post])
                              | Ok (_, _, d2) =>
                                  (Responded
                                     (redirect ("https://" ++ shop' ++ "/admin/apps/"
                                                ++ SHOPIFY_API_KEY)),
                                   World states d2,
                                   post :: registerWebhooks shop')
                              end
                          end
                      | _, _ => (failed, World states (db w), [post])
                      end
                  end
            end
      end
  end.

(* ------------------------------------------------------------------- *)
(** *** MIDDLEWARE                                                      *)
(* ------------------------------------------------------------------- *)

Definition unauthorized (message : string) : response :=
  json 401 (Js.VObj [("error", Js.VStr message)]).

(** The token after ['Bearer '], when the header starts with it. *)
Definition bearer (authorization : option string) : option string :=
  match authorization with
  | Some authHeader =>
      if Js.startsWith authHeader "Bearer "
      then Some (Js.replace authHeader "Bearer " "")
      else None
  | None => None
  end.

Definition verifySessionToken (authorization : option string) (d : database) : gate :=
  match bearer authorization with
  | None => Deny (unauthorized "Missing authorization header")
  | Some sessionToken =>
      match jwt_decode sessionToken with
      | Throw _ => Deny (unauthorized "Invalid session token")
      | Ok payload =>
          if negb (Js.truthy payload)
          then Deny (unauthorized "Invalid token format")
          else
            let dest := default Js.VUndefined (Js.prop payload "dest") in
            if negb (Js.truthy dest)
            then Deny (unauthorized "Invalid token format")
            else
              match dest with
              | Js.VStr dest =>
                  let shop := Js.replace dest "https://" "" in
                  match getShopSession shop d with
                  | None => Deny (unauthorized "Shop not installed")
                  | Some shopData =>
                      if negb (Shop.isActive shopData)
                      then Deny (unauthorized "Shop not installed")
                      else Next shop (Shop.accessToken shopData) "session_token"
                  end
              | _ =>
                  (* dest.replace is not a function: caught below *)
                  Deny (unauthorized "Invalid session token")
              end
      end
  end.

Definition verifyExtensionKey (authorization : option string) (now : Z)
    (d : database) : gate * database :=
  match bearer authorization with
  | None => (Deny (unauthorized "Missing authorization header"), d)
  | Some accessKey =>
      if negb (Js.startsWith accessKey "sk_")
      then (Deny (unauthorized "Invalid access key format"), d)
      else
        match validateExtensionKey accessKey now d with
        | (None, d') => (Deny (unauthorized "Invalid or revoked access key"), d')
        | (Some (shop, accessToken), d') => (Next shop accessToken "extension_key", d')
        end
  end.

(* ------------------------------------------------------------------- *)
(** *** ENDPOINTS                                                       *)
(* ------------------------------------------------------------------- *)

Definition failure (code : Z) (message : string) : response :=
  json code (Js.VObj [("success", Js.VBool false); ("error", Js.VStr message)]).

(** DELETE /api/app/extension-keys/:accessKey *)
Definition delete_extension_key (authorization : option string) (accessKey : string)
    (d : database) : response * database :=
  match verifySessionToken authorization d with
  | Deny r => (r, d)
  | Next shop _ _ =>
      (json 200 (Js.VObj [("success", Js.VBool true);
                          ("message", Js.VStr "Access key revocado")]),
       revokeExtensionKey accessKey shop d)
  end.

(** POST /api/sender-config; [config] is [req.body]. *)
Definition post_sender_config (authorization : option string) (config : Js.value)
    (now : Z) (d : database) : response * database :=
  match verifyExtensionKey authorization now d with
  | (Deny r, d') => (r, d')
  | (Next shop _ _, d') =>
      match saveSenderConfig shop config d' with
      | Ok d'' =>
          (json 200 (Js.VObj [("success", Js.VBool true);
                              ("message", Js.VStr "Configuración guardada")]),
           d'')
      | Throw _ => (failure 500 "Error guardando configuración", d')
      end
  end.

Definition cell (c : option string) : Js.value :=
  match c with
  | Some s => Js.VStr s
  | None => Js.VNull
  end.

(** The [config] object GET /api/sender-config answers with. *)
Definition sender_projection (config : SenderConfig.row) : list (string * Js.value) :=
  [("senderIdentificationType", cell (SenderConfig.senderIdentificationType config));
   ("senderId", cell (SenderConfig.senderId config));
   ("senderName", cell (SenderConfig.senderName config));
   ("senderPhone", cell (SenderConfig.senderPhone config));
   ("senderMail", cell (SenderConfig.senderMail config));
   ("provinciaSender", cell (SenderConfig.provinciaSender config));
   ("cantonSender", cell (SenderConfig.cantonSender config));
   ("distritoSender", cell (SenderConfig.distritoSender config));
   ("senderPostalCode", cell (SenderConfig.senderPostalCode config));
   ("senderDirection", cell (SenderConfig.senderDirection config))].

(** GET /api/sender-config *)
Definition get_sender_config (authorization : option string) (now : Z)
    (d : database) : response * database :=
  match verifyExtensionKey authorization now d with
  | (Deny r, d') => (r, d')
  | (Next shop _ _, d') =>
      match getSenderConfig shop d' with
      | None =>
          (failure 404
             "Configuración no encontrada. Configura el remitente en la app de Shopify.",
           d')
      | Some config =>
          (json 200 (Js.VObj [("success", Js.VBool true);
                              ("config", Js.VObj (sender_projection config))]),
           d')
      end
  end.

(* ------------------------------------------------------------------- *)
(** *** WEBHOOKS                                                        *)
(* ------------------------------------------------------------------- *)

(** POST /api/webhooks/app/uninstalled; [hmac] and [shop] are the
    [x-shopify-hmac-sha256] and [x-shopify-shop-domain] headers. *)
Definition webhook_app_uninstalled (hmac shop : option string) (body : raw_body)
    (now : Z) (d : database) : response * database :=
  let hash := Digest.base64 (hmac_sha256 SHOPIFY_API_SECRET (JSON_stringify body)) in
  if negb (bool_decide (Some hash = hmac))
  then (send 403 "HMAC validation failed", d)
  else (send 200 "OK", deleteShopSession shop now d).

(** POST /api/webhooks/customers/redact *)
Definition webhook_customers_redact (hmac : option string) (body : raw_body)
    (d : database) : outcome * database :=
  match verifyShopifyWebhook body hmac with
  | Throw e => (Rejected e, d)
  | Ok false => (Responded (send 401 "Unauthorized"), d)
  | Ok true =>
      let text := match body with Buffer bytes => bytes | NotParsed => "[object Object]" end in
      match JSON_parse text with
      | Throw e => (Rejected e, d)
      | Ok webhook =>
          match Js.prop webhook "shop_domain" with
          | None => (Rejected (TypeError "Cannot read properties of null"), d)
          | Some shopDomain =>
              match deleteShopData with
              | None => (Rejected (TypeError "deleteShopData is not a function"), d)
              | Some f => (Responded (send 200 "OK"), f shopDomain d)
              end
          end
      end
  end.

End Server.

(* ===================================================================== *)
(** ** Names for what the callback computes on the way                    *)
(* ===================================================================== *)

Section Reading.

Variable hmac_sha256 : string → string → list Z.
Variables SHOPIFY_API_KEY SHOPIFY_API_SECRET : string.

(** The key under which the callback looks for the pending state of the
    shop whose text is [shop]. *)
Definition state_key (shop : string) : string := "state_" ++ shop.

(** The hex digest the handler compares [req.query.hmac] with, when the
    signed text can be built. *)
Definition expected_hmac (query : gmap string Js.value) : result string :=
  text ← queryString query;
  Ok (Digest.hex (hmac_sha256 SHOPIFY_API_SECRET text)).

(** The request [axios.post] sends for the token of the shop whose text is
    [shop]. *)
Definition token_request (shop : string) (query : gmap string Js.value) : upstream :=
  AxiosPost ("https://" ++ shop ++ "/admin/oauth/access_token")
    (Js.VObj [("client_id", Js.VStr SHOPIFY_API_KEY);
              ("client_secret", Js.VStr SHOPIFY_API_SECRET);
              ("code", param query "code")]).

End Reading.

(** An active shop record is stored for the domain. *)
Definition active_shop (d : database) (domain : string) : Prop :=
  ∃ s, shops d !! domain = Some s ∧ Shop.isActive s = true.

(** A middleware that answered 401 itself. *)
Definition denied (g : gate) : Prop := ∃ r, g = Deny r ∧ status r = 401%Z.

(** The fields GET /api/sender-config projects, in the order it lists them. *)
Definition sender_fields : list string :=
  ["senderIdentificationType"; "senderId"; "senderName"; "senderPhone"; "senderMail";
   "provinciaSender"; "cantonSender"; "distritoSender"; "senderPostalCode";
   "senderDirection"].

(** A value a STRING column takes. *)
Definition storable (v : Js.value) : Prop :=
  match v with
  | Js.VArr _ | Js.VObj _ => False
  | _ => True
  end.

(** The body of a successful GET /api/sender-config. *)
Definition config_body (fields : list (string * Js.value)) : Js.value :=
  Js.VObj [("success", Js.VBool true); ("config", Js.VObj fields)].

(** The same process state with every pending entry's timestamp changed. *)
Definition retime (age : Z → Z) (w : world) : world :=
  World ((fun e => Pending (state e) (age (timestamp e))) <$> temporaryStates w) (db w).

(* ===================================================================== *)
(** ** The process over time                                              *)
(* ===================================================================== *)

Section Process.

Variable hmac_sha256 : string → string → list Z.
Variables SHOPIFY_API_KEY SHOPIFY_API_SECRET APP_URL : string.

(** Milliseconds since the module was loaded, the time at which the
    [setInterval] timer fires next, and the process state. *)
Record process := Process { clock : Z; next_sweep : Z; memory : world }.

(** Module load: the map is empty and the timer is armed for 300000 ms. *)
Definition boot (d : database) : process := Process 0 300000 (World ∅ d).

(** One turn of the event loop: the timer fires when its time has come,
    or a request is handled at some time before the timer is next served.
    Handlers other than the two OAuth ones never touch the map. *)
Inductive step : process → process → Prop :=
| step_sweep p :
    step p (Process (next_sweep p) (next_sweep p + 300000)
              (World (sweep (next_sweep p) (temporaryStates (memory p))) (db (memory p))))
| step_auth p query random now :
    (clock p ≤ now ≤ next_sweep p)%Z →
    step p (Process now (next_sweep p)
              (auth SHOPIFY_API_KEY APP_URL query random now (memory p)).2)
| step_callback p query exchange random uuid now :
    (clock p ≤ now ≤ next_sweep p)%Z →
    step p (Process now (next_sweep p)
              (callback hmac_sha256 SHOPIFY_API_KEY SHOPIFY_API_SECRET APP_URL
                 query exchange random uuid now (memory p)).1.2)
| step_other p d' now :
    (clock p ≤ now ≤ next_sweep p)%Z →
    step p (Process now (next_sweep p) (World (temporaryStates (memory p)) d')).

Definition reachable (p : process) : Prop := ∃ d, rtc step (boot d) p.

(** Between two firings of the timer, every stored entry was created in
    the past, and the timer fires again no later than 600000 ms after its
    creation. *)
Definition timely (p : process) : Prop :=
  (clock p ≤ next_sweep p ≤ clock p + 300000)%Z
  ∧ ∀ k e, temporaryStates (memory p) !! k = Some e →
           (timestamp e ≤ clock p)%Z ∧ (next_sweep p - timestamp e ≤ 600000)%Z.

End Process.

(* ===================================================================== *)
(** ** Concrete collaborators for running the handlers                    *)
(* ===================================================================== *)

Module Run.

Definition SECRET : string := "shpss_4e1f".
Definition API_KEY : string := "0f3a9c".
Definition URL : string := "https://guiascr.example".

(** A decoder that knows two tokens. *)
Definition jwt_decode (token : string) : result Js.value :=
  if String.eqb token "t.foo.sig"
  then Ok (Js.VObj [("dest", Js.VStr "https://foo.myshopify.com"); ("exp", Js.VNum "1")])
  else if String.eqb token "t.bar.sig"
  then Ok (Js.VObj [("dest", Js.VStr "https://bar.myshopify.com")])
  else Ok Js.VNull.

Definition foo : string := "foo.myshopify.com".
Definition bar : string := "bar.myshopify.com".

Definition foo_key : string := "sk_00ff".
Definition bar_key : string := "sk_11ee".

(** Two installed shops, one extension key each, no sender config. *)
Definition store : database :=
  Database
    {[ foo := Shop.Row "shpat_foo" (Some SCOPES) 10 None true;
       bar := Shop.Row "shpat_bar" (Some SCOPES) 20 None true ]}
    {[ foo_key := ExtensionKey.Row "id-1" foo (Some "Access Key Inicial") None true 10;
       bar_key := ExtensionKey.Row "id-2" bar (Some "Access Key Inicial") None true 20 ]}
    ∅.

(** The parameters the platform sends back to the callback, unsigned. *)
Definition params : gmap string Js.value :=
  {[ "shop" := Js.VStr foo; "code" := Js.VStr "c0de"; "state" := Js.VStr "5ca1ab1e";
     "timestamp" := Js.VStr "1700000000" ]}.

(** The text the callback signs for them. *)
Definition signed_text : string :=
  "code=c0de&shop=foo.myshopify.com&state=5ca1ab1e&timestamp=1700000000".

Definition signature : string := Digest.hex (Sha256.hmac_sha256 SECRET signed_text).

Definition signed : gmap string Js.value := <["hmac" := Js.VStr signature]> params.

(** The process after [/api/auth?shop=foo.myshopify.com] at time 1000. *)
Definition awaiting : world :=
  World {[ "state_foo.myshopify.com" := Pending "5ca1ab1e" 1000 ]} store.

(** A sender config with all ten fields, as the extension posts it. *)
Definition sender_body : Js.value :=
  Js.VObj [("senderIdentificationType", Js.VStr "2"); ("senderId", Js.VStr "155800");
           ("senderName", Js.VStr "Ana"); ("senderPhone", Js.VStr "88887777");
           ("senderMail", Js.VStr "ana@example.com"); ("provinciaSender", Js.VStr "4");
           ("cantonSender", Js.VStr "3"); ("distritoSender", Js.VStr "2");
           ("senderPostalCode", Js.VStr "40302"); ("senderDirection", Js.VStr "Calle 8")].

(** A body that names another shop. *)
Definition foreign_body : Js.value :=
  Js.VObj [("shop", Js.VStr bar); ("senderName", Js.VStr "Eve")].

(** A webhook payload naming shop [foo], as raw bytes. *)
Definition payload : string :=
  "{" ++ Js.dq ++ "shop_domain" ++ Js.dq ++ ":" ++ Js.dq ++ foo ++ Js.dq ++ "}".

(** The [x-shopify-hmac-sha256] header the platform computes for it. *)
Definition payload_hmac : string := Digest.base64 (Sha256.hmac_sha256 SECRET payload).

(** What the token endpoint answers. *)
Definition token_data : Js.value :=
  Js.VObj [("access_token", Js.VStr "shpat_new"); ("scope", Js.VStr SCOPES)].

(** What the query parser makes of [junk[toString]=1]: an object whose own
    [toString] is a string. *)
Definition unprintable : Js.value := Js.VObj [("toString", Js.VStr "1")].

(** The callback of the pending install with a forged [hmac] and one
    more parameter, [junk[toString]=1]. *)
Definition forged : gmap string Js.value :=
  <["junk" := unprintable]> (<["hmac" := Js.VStr "00"]> params).

(** A callback whose [shop] is [shop[toString]=1]. *)
Definition shopless : gmap string Js.value :=
  {[ "shop" := unprintable; "state" := Js.VStr "5ca1ab1e"; "hmac" := Js.VStr "00" ]}.

End Run.

(* ===================================================================== *)
(** ** database.js and server.js: the remaining functions                 *)
(* ===================================================================== *)

(** [ORDER BY createdAt DESC]: [a] may come before [b]. *)
Definition newer_first (a b : string * ExtensionKey.row) : Prop :=
  (ExtensionKey.createdAt b.2 ≤ ExtensionKey.createdAt a.2)%Z.

#[export] Instance newer_first_dec : RelDecision newer_first.
Proof. intros a b. unfold newer_first. apply _. Defined.

(** [ExtensionKey.findAll({ where: { shop, isActive: true }, order })].
    The store leaves the order of rows created at the same instant open;
    the sort here fixes one. *)
Definition getShopExtensionKeys (shop : string) (d : database)
    : list (string * ExtensionKey.row) :=
  merge_sort newer_first
    (filter (fun kr => ExtensionKey.shop kr.2 = shop ∧ ExtensionKey.isActive kr.2 = true)
            (map_to_list (extension_keys d))).

(** [o.k], throwing on [null] and [undefined]. *)
Definition get (v : Js.value) (k : string) : result Js.value :=
  match Js.prop v k with
  | Some x => Ok x
  | None => Throw (TypeError "Cannot read properties of null or undefined")
  end.

(** [a || b]. *)
Definition or_else (a b : Js.value) : Js.value := if Js.truthy a then a else b.

(** [attrs.find(a => a.name === name)], [undefined] when none matches. *)
Fixpoint find_named (name : string) (attrs : list Js.value) : result Js.value :=
  match attrs with
  | [] => Ok Js.VUndefined
  | a :: rest =>
      n ← get a "name";
      if strict_eq name n then Ok a else find_named name rest
  end.

(** [attrs?.find(a => a.name === name)?.value]. *)
Definition note_value (attrs : Js.value) (name : string) : result Js.value :=
  match attrs with
  | Js.VUndefined | Js.VNull => Ok Js.VUndefined
  | Js.VArr items =>
      a ← find_named name items;
      match a with
      | Js.VUndefined => Ok Js.VUndefined
      | _ => get a "value"
      end
  | _ => Throw (TypeError "order.note_attributes?.find is not a function")
  end.

(** One element of [order.line_items.map(...)]. *)
Definition reshape_item (item : Js.value) : result Js.value :=
  title ← get item "title";
  quantity ← get item "quantity";
  price ← get item "price";
  Ok (Js.VObj [("title", title); ("quantity", quantity); ("price", price)]).

(** The [customer] property of a reshaped order; the template literal of
    [name] coerces the two names. *)
Definition reshape_customer (customer : Js.value) : result Js.value :=
  if Js.truthy customer then
    first_name ← get customer "first_name";
    first ← Js.toString (or_else first_name (Js.VStr ""));
    last_name ← get customer "last_name";
    last ← Js.toString (or_else last_name (Js.VStr ""));
    email ← get customer "email";
    phone ← get customer "phone";
    Ok (Js.VObj
          [("name", Js.VStr (first ++ " " ++ last));
           ("email", or_else email (Js.VStr ""));
           ("phone", or_else phone (Js.VStr ""))])
  else Ok Js.VNull.

(** One element of [response.data.orders.map(...)]. *)
Definition reshape_order (order : Js.value) : result Js.value :=
  id ← get order "id";
  order_number ← get order "order_number";
  name ← get order "name";
  created_at ← get order "created_at";
  total_price ← get order "total_price";
  currency ← get order "currency";
  note ← get order "note";
  note_attributes ← get order "note_attributes";
  customer ← get order "customer";
  customer' ← reshape_customer customer;
  shipping_address ← get order "shipping_address";
  line_items ← get order "line_items";
  line_items' ← match line_items with
                | Js.VArr items => traverse reshape_item items
                | Js.VUndefined | Js.VNull =>
                    Throw (TypeError "Cannot read properties of undefined (reading 'map')")
                | _ => Throw (TypeError "order.line_items.map is not a function")
                end;
  province_id ← note_value note_attributes "province_id";
  province_name ← note_value note_attributes "province_name";
  county_id ← note_value note_attributes "county_id";
  county_name ← note_value note_attributes "county_name";
  district_id ← note_value note_attributes "district_id";
  district_name ← note_value note_attributes "district_name";
  Ok (Js.VObj
        [("id", id); ("order_number", order_number); ("name", name);
         ("created_at", created_at); ("total_price", total_price);
         ("currency", currency); ("note", note);
         ("note_attributes", or_else note_attributes (Js.VArr []));
         ("customer", customer');
         ("shipping_address", shipping_address);
         ("line_items", Js.VArr line_items');
         ("province_id", province_id); ("province_name", province_name);
         ("county_id", county_id); ("county_name", county_name);
         ("district_id", district_id); ("district_name", district_name)]).

(** [response.data.orders.map(...)]. *)
Definition reshape_orders (data : Js.value) : result (list Js.value) :=
  orders ← get data "orders";
  match orders with
  | Js.VArr items => traverse reshape_order items
  | Js.VUndefined | Js.VNull =>
      Throw (TypeError "Cannot read properties of undefined (reading 'map')")
  | _ => Throw (TypeError "response.data.orders.map is not a function")
  end.

(** What an axios call to the platform yields: the response's [data], or a
    rejection with [error.response?.data] and [error.message]. *)
Inductive reply :=
| Replied (data : Js.value)
| Refused (data : Js.value) (message : string).

(** A request of the order proxy, with the [X-Shopify-Access-Token] it
    carries. *)
Inductive proxied :=
| AxiosGet (url : string) (params : list (string * Js.value)) (token : string)
| AxiosPostAs (url : string) (data : Js.value) (token : string).

Section Endpoints.

Variable hmac_sha256 : string → string → list Z.
Variable jwt_decode : string → result Js.value.
Variable JSON_parse : string → result Js.value.
Variable SHOPIFY_API_SECRET : string.
(** [date.toISOString()], as [res.json] writes a date. *)
Variable toISOString : Z → string.
(** [error.message] of an exception thrown inside a handler. *)
Variable message_of : error → string.

Definition date (t : Z) : Js.value := Js.VStr (toISOString t).

(** The element of [keys.map(...)] in GET /api/app/extension-keys. *)
Definition listed_key (kr : string * ExtensionKey.row) : Js.value :=
  Js.VObj [("id", Js.VStr (ExtensionKey.id kr.2));
           ("accessKey", Js.VStr kr.1);
           ("name", cell (ExtensionKey.name kr.2));
           ("createdAt", date (ExtensionKey.createdAt kr.2));
           ("lastUsedAt", match ExtensionKey.lastUsedAt kr.2 with
                          | Some t => date t
                          | None => Js.VNull
                          end)].

(** GET /api/app/extension-keys *)
Definition get_extension_keys (authorization : option string) (d : database) : response :=
  match verifySessionToken jwt_decode authorization d with
  | Deny r => r
  | Next shop _ _ =>
      json 200 (Js.VObj [("success", Js.VBool true);
                         ("keys", Js.VArr (map listed_key (getShopExtensionKeys shop d)))])
  end.

(** POST /api/app/extension-keys; [body] is [req.body].  Every exception
    of the [try] block ends in the same 500, so the order in which the
    name is validated and the key drawn does not show. *)
Definition post_extension_key (authorization : option string) (body : Js.value)
    (random uuid : string) (now : Z) (d : database) : response * database :=
  match verifySessionToken jwt_decode authorization d with
  | Deny r => (r, d)
  | Next shop _ _ =>
      let failed := failure 500 "Error creando access key" in
      match Js.prop body "name" with
      | None => (failed, d)
      | Some name =>
          match string_column "name" (or_else name (Js.VStr "Nuevo Access Key")) with
          | Ok (Cell name') =>
              match createExtensionKey shop name' random uuid now d with
              | Ok (accessKey, key, d') =>
                  (json 200
                     (Js.VObj [("success", Js.VBool true);
                               ("key", Js.VObj
                                  [("id", Js.VStr (ExtensionKey.id key));
                                   ("accessKey", Js.VStr accessKey);
                                   ("name", cell (ExtensionKey.name key));
                                   ("createdAt", date (ExtensionKey.createdAt key))])]),
                   d')
              | Throw _ => (failed, d)
              end
          | _ => (failed, d)
          end
      end
  end.

(** The [details] of a 500 from the order proxy:
    [error.response?.data || error.message]. *)
Definition details (data : Js.value) (message : string) : Js.value :=
  or_else data (Js.VStr message).

(** GET /api/orders/pending; [upstream] is what the platform's order
    listing yields. *)
Definition orders_pending (authorization : option string) (now : Z) (upstream : reply)
    (d : database) : response * database * list proxied :=
  match verifyExtensionKey authorization now d with
  | (Deny r, d') => (r, d', [])
  | (Next shop accessToken _, d') =>
      let request :=
        AxiosGet ("https://" ++ shop ++ "/admin/api/2024-01/orders.json")
          [("status", Js.VStr "any"); ("financial_status", Js.VStr "paid");
           ("fulfillment_status", Js.VStr "unfulfilled"); ("limit", Js.VNum "50")]
          accessToken in
      let failed details' :=
        json 500 (Js.VObj [("success", Js.VBool false);
                           ("error", Js.VStr "Error al obtener pedidos");
                           ("details", details')]) in
      match upstream with
      | Refused data message => (failed (details data message), d', [request])
      | Replied data =>
          match reshape_orders data with
          | Ok orders =>
              (json 200 (Js.VObj [("success", Js.VBool true);
                                  ("shop", Js.VStr shop);
                                  ("count", Js.VNum (Js.decimal (length orders)));
                                  ("orders", Js.VArr orders)]),
               d', [request])
          | Throw e => (failed (details Js.VUndefined (message_of e)), d', [request])
          end
      end
  end.

(** POST /api/orders/update-tracking; [body] is [req.body], [upstream]
    what the platform's fulfillment call yields.  The URL is a template
    literal over [order_id], built inside the [try]. *)
Definition update_tracking (authorization : option string) (body : Js.value) (now : Z)
    (upstream : reply) (d : database) : response * database * list proxied :=
  match verifyExtensionKey authorization now d with
  | (Deny r, d') => (r, d', [])
  | (Next shop accessToken _, d') =>
      let failed details' :=
        json 500 (Js.VObj [("success", Js.VBool false);
                           ("error", Js.VStr "Error al actualizar tracking");
                           ("details", details')]) in
      match get body "order_id", get body "tracking_number", get body "tracking_company" with
      | Ok order_id, Ok tracking_number, Ok company =>
          let tracking_company :=
            match company with
            | Js.VUndefined => Js.VStr "Correos de Costa Rica"
            | _ => company
            end in
          if negb (Js.truthy order_id) || negb (Js.truthy tracking_number)
          then (json 400 (Js.VObj [("success", Js.VBool false);
                                   ("error", Js.VStr "order_id y tracking_number son requeridos")]),
                d', [])
          else
            match Js.toString order_id with
            | Throw e => (failed (details Js.VUndefined (message_of e)), d', [])
            | Ok id =>
                let request :=
                  AxiosPostAs ("https://" ++ shop ++ "/admin/api/2024-01/orders/"
                               ++ id ++ "/fulfillments.json")
                    (Js.VObj [("fulfillment",
                               Js.VObj [("location_id", Js.VNull);
                                        ("tracking_number", tracking_number);
                                        ("tracking_company", tracking_company);
                                        ("notify_customer", Js.VBool true)])])
                    accessToken in
                match upstream with
                | Refused data message => (failed (details data message), d', [request])
                | Replied data =>
                    match get data "fulfillment" with
                    | Ok fulfillment =>
                        (json 200
                           (Js.VObj [("success", Js.VBool true);
                                     ("message", Js.VStr "Tracking actualizado exitosamente");
                                     ("fulfillment", fulfillment)]),
                         d', [request])
                    | Throw e =>
                        (failed (details Js.VUndefined (message_of e)), d', [request])
                    end
                end
            end
      | Throw e, _, _ | _, Throw e, _ | _, _, Throw e =>
          (failed (details Js.VUndefined (message_of e)), d', [])
      end
  end.

(** POST /api/webhooks: a synchronous handler, so an exception leaves it
    for the framework. *)
Definition webhook_probe (hmac : option string) (body : raw_body) : outcome :=
  match verifyShopifyWebhook hmac_sha256 SHOPIFY_API_SECRET body hmac with
  | Throw e => Rejected e
  | Ok false => Responded (send 401 "Unauthorized")
  | Ok true => Responded (send 200 "OK")
  end.

(** POST /api/webhooks/customers/data_request and
    POST /api/webhooks/shop/redact: verify, parse, log, answer. *)
Definition webhook_logged (hmac : option string) (body : raw_body) : outcome :=
  match verifyShopifyWebhook hmac_sha256 SHOPIFY_API_SECRET body hmac with
  | Throw e => Rejected e
  | Ok false => Responded (send 401 "Unauthorized")
  | Ok true =>
      let text := match body with Buffer bytes => bytes | NotParsed => "[object Object]" end in
      match JSON_parse text with
      | Throw e => Rejected e
      | Ok _ => Responded (send 200 "OK")
      end
  end.

(** GET /api/health; [now] is the time of the request. *)
Definition health (now : Z) (d : database) : response :=
  json 200 (Js.VObj [("success", Js.VBool true);
                     ("message", Js.VStr "API funcionando");
                     ("stores", Js.VNum (Js.decimal (getActiveShopsCount d)));
                     ("timestamp", date now)]).

End Endpoints.

(** More data for concrete runs. *)
Module Sample.

(** Two note attributes with the same name, and one other. *)
Definition attributes : Js.value :=
  Js.VArr [Js.VObj [("name", Js.VStr "county_id"); ("value", Js.VStr "3")];
           Js.VObj [("name", Js.VStr "province_id"); ("value", Js.VStr "4")];
           Js.VObj [("name", Js.VStr "province_id"); ("value", Js.VStr "9")]].

Definition item : Js.value :=
  Js.VObj [("title", Js.VStr "Taza"); ("quantity", Js.VNum "2"); ("price", Js.VStr "3500.00");
           ("sku", Js.VStr "TZ-1")].

(** An order as the platform lists it. *)
Definition order : Js.value :=
  Js.VObj [("id", Js.VNum "5001"); ("order_number", Js.VNum "1001");
           ("name", Js.VStr "#1001"); ("created_at", Js.VStr "2024-01-05T10:00:00-06:00");
           ("total_price", Js.VStr "7000.00"); ("currency", Js.VStr "CRC");
           ("note", Js.VNull); ("note_attributes", attributes);
           ("customer", Js.VObj [("first_name", Js.VStr "Ana"); ("last_name", Js.VNull);
                                 ("email", Js.VStr "ana@example.com")]);
           ("shipping_address", Js.VObj [("city", Js.VStr "Heredia")]);
           ("line_items", Js.VArr [item])].

(** An order without [line_items]. *)
Definition broken_order : Js.value := Js.VObj [("id", Js.VNum "5002")].

(** An order whose customer's first name is an object with a [toString]
    of its own. *)
Definition nameless_order : Js.value :=
  Js.VObj [("id", Js.VNum "5003");
           ("customer", Js.VObj [("first_name", Run.unprintable);
                                 ("last_name", Js.VStr "Mora")]);
           ("line_items", Js.VArr [item])].

Definition iso (t : Z) : string := "T" ++ Js.decimal (Z.to_nat t).
Definition message (e : error) : string :=
  match e with
  | TypeError msg | Error msg => msg
  | _ => "error"
  end.

(** The process right after boot, with the two shops installed. *)
Definition idle : world := World ∅ Run.store.

(** The query of [/api/auth?shop=foo.myshopify.com]. *)
Definition start : gmap string Js.value := {[ "shop" := Js.VStr Run.foo ]}.

(** The process after the install of [foo] was started at 1000 with state
    [5ca1ab1e] and started again at 1500 with state [d00d]. *)
Definition restarted : world :=
  (auth Run.API_KEY Run.URL start "d00d" 1500
     (auth Run.API_KEY Run.URL start "5ca1ab1e" 1000 idle).2).2.

(** The store after the middleware has stamped [foo]'s key at 50. *)
Definition stamped : database := (validateExtensionKey Run.foo_key 50 Run.store).2.

(** A token answer without a token. *)
Definition no_token : Js.value := Js.VObj [("error", Js.VStr "invalid_request")].

(** A tracking update with the carrier explicitly null. *)
Definition tracking : list (string * Js.value) :=
  [("order_id", Js.VNum "5001"); ("tracking_number", Js.VStr "CR123");
   ("tracking_company", Js.VNull)].

(** The store after [foo] has saved its full sender config at 50. *)
Definition configured : database :=
  (post_sender_config (Some "Bearer sk_00ff") Run.sender_body 50 Run.store).2.

End Sample.

(* ===================================================================== *)
(** ** The models of the libraries, checked on known values            *)
(* ===================================================================== *)

(** FIPS 180-4 and RFC 4231 test vectors pin the model of the library. *)
Example sha256_abc :
  Digest.hex (Sha256.sha256 (Sha256.bytes_of_string "abc"))
  = "ba7816bf8f01cfea414140de5dae2223b00361a396177a9cb410ff61f20015ad".
Proof. vm_compute. reflexivity. Qed.

Example sha256_empty :
  Digest.hex (Sha256.sha256 [])
  = "e3b0c44298fc1c149afbf4c8996fb92427ae41e4649b934ca495991b7852b855".
Proof. vm_compute. reflexivity. Qed.

Example hmac_rfc4231_case2 :
  Digest.hex (Sha256.hmac_sha256 "Jefe" "what do ya want for nothing?")
  = "5bdcc146bf60754e6a042426089575c75a003f089d2739839dec58b964ec3843".
Proof. vm_compute. reflexivity. Qed.

Example decimal_samples :
  map Js.decimal [0; 7; 10; 125; 255]%nat = ["0"; "7"; "10"; "125"; "255"].
Proof. reflexivity. Qed.

Example replace_first_only :
  Js.replace "a-b-c" "-" "" = "ab-c".
Proof. reflexivity. Qed.

Example toString_nested :
  Js.toString (Js.VArr [Js.VStr "a"; Js.VNull; Js.VArr [Js.VStr "b"; Js.VStr "c"]])
  = Ok "a,,b,c".
Proof. reflexivity. Qed.

(** An object has a text unless it carries a [toString] of its own, and an
    array has one unless an element has none. *)
Example toString_objects :
  Js.toString (Js.VObj [("valueOf", Js.VStr "1")]) = Ok "[object Object]"
  ∧ Js.toString Run.unprintable
    = Throw (TypeError "Cannot convert object to primitive value")
  ∧ Js.toString (Js.VArr [Js.VStr "a"; Run.unprintable])
    = Throw (TypeError "Cannot convert object to primitive value").
Proof. repeat split; reflexivity. Qed.

Example queryString_params : queryString Run.params = Ok Run.signed_text.
Proof. vm_compute. reflexivity. Qed.

Example base64_samples :
  map (fun s => Digest.base64 (Sha256.bytes_of_string s)) ["Man"; "Ma"; "M"; ""]
  = ["TWFu"; "TWE="; "TQ=="; ""].
Proof. vm_compute. reflexivity. Qed.

Example shopRegex_samples :
  map shopRegex_test
    ["foo.myshopify.com"; "f-9.myshopify.com"; "-foo.myshopify.com";
     "f.o.myshopify.com"; "foo.myshopify.com.evil"; ".myshopify.com"; "foomyshopify.com"]
  = [true; true; false; false; false; false; false].
Proof. vm_compute. reflexivity. Qed.

Example JSON_stringify_buffer :
  JSON_stringify (Buffer "{}")
  = "{" ++ Js.dq ++ "type" ++ Js.dq ++ ":" ++ Js.dq ++ "Buffer" ++ Js.dq ++ ","
        ++ Js.dq ++ "data" ++ Js.dq ++ ":[123,125]}".
Proof. vm_compute. reflexivity. Qed.

Example deleteShopData_not_exported : "deleteShopData" ∉ module_exports.
Proof. intros H. by apply (bool_decide_pack _) in H. Qed.

(* ===================================================================== *)
(** ** String and value lemmas                                            *)
(* ===================================================================== *)

Lemma strip_prefix_app (p s : string) : Js.strip_prefix p (p ++ s) = Some s.
Proof.
  induction p as [|c p IH]; [reflexivity|].
  change (String c p ++ s) with (String c (p ++ s)). simpl.
  rewrite Ascii.eqb_refl. exact IH.
Qed.

Lemma strip_prefix_Some (p s rest : string) :
  Js.strip_prefix p s = Some rest → s = p ++ rest.
Proof.
  revert s. induction p as [|c p IH]; intros s H; simpl in H.
  - by injection H as ->.
  - destruct s as [|b s]; [discriminate|].
    destruct (Ascii.eqb c b) eqn:E; [|discriminate].
    apply Ascii.eqb_eq in E. subst b.
    change (String c p ++ rest) with (String c (p ++ rest)). f_equal. auto.
Qed.

Lemma startsWith_spec (s p : string) :
  Js.startsWith s p = true ↔ ∃ rest, s = p ++ rest.
Proof.
  unfold Js.startsWith. split.
  - destruct (Js.strip_prefix p s) eqn:E; [|discriminate].
    intros _. eexists. eauto using strip_prefix_Some.
  - intros [rest ->]. by rewrite strip_prefix_app.
Qed.

(** On a string that starts with the pattern, [replace] strips the prefix. *)
Lemma replace_prefix (p s repl : string) :
  Js.replace (p ++ s) p repl = repl ++ s.
Proof.
  assert (Js.strip_prefix p (p ++ s) = Some s) as H by apply strip_prefix_app.
  destruct (p ++ s); simpl; by rewrite H.
Qed.

Lemma strict_eq_spec (a : string) (v : Js.value) :
  strict_eq a v = true ↔ v = Js.VStr a.
Proof.
  destruct v; simpl; try (split; [discriminate|intros [=]]).
  rewrite String.eqb_eq. split; [by intros ->|by intros [= ->]].
Qed.

Lemma strict_eq_false (a : string) (v : Js.value) :
  v ≠ Js.VStr a → strict_eq a v = false.
Proof.
  intros H. destruct (strict_eq a v) eqn:E; [|done].
  by apply strict_eq_spec in E.
Qed.

Lemma bearer_token (k : string) : bearer (Some ("Bearer " ++ k)) = Some k.
Proof.
  unfold bearer.
  replace (Js.startsWith ("Bearer " ++ k) "Bearer ") with true
    by (symmetry; apply startsWith_spec; eauto).
  by rewrite (replace_prefix "Bearer " k "").
Qed.

Lemma bearer_Some (authorization : option string) (k : string) :
  bearer authorization = Some k → authorization = Some ("Bearer " ++ k).
Proof.
  unfold bearer. destruct authorization as [h|]; [|done].
  destruct (Js.startsWith h "Bearer ") eqn:E; [|done].
  apply startsWith_spec in E as [rest ->].
  rewrite (replace_prefix "Bearer " rest ""). by intros [= <-].
Qed.

Lemma bearer_None (authorization : option string) :
  bearer authorization = None ↔
  authorization = None ∨ ∃ h, authorization = Some h ∧ ¬ ∃ k, h = "Bearer " ++ k.
Proof.
  unfold bearer. destruct authorization as [h|]; [|by split; [left|]].
  destruct (Js.startsWith h "Bearer ") eqn:E.
  - split; [done|]. intros [|(h' & [= <-] & Hn)]; [done|].
    apply startsWith_spec in E. by destruct Hn.
  - split; [|done]. intros _. right. exists h. split; [done|].
    intros Hk. apply startsWith_spec in Hk. congruence.
Qed.

(* ===================================================================== *)
(** ** Mapping a function that may throw                                  *)
(* ===================================================================== *)

Lemma traverse_cons {A B : Type} (f : A → result B) (x : A) (items : list A) :
  traverse f (x :: items) = (y ← f x; ys ← traverse f items; Ok (y :: ys)).
Proof. reflexivity. Qed.

Lemma traverse_ext_in {A B : Type} (f g : A → result B) (items : list A) :
  (∀ x, x ∈ items → f x = g x) → traverse f items = traverse g items.
Proof.
  induction items as [|x items IH]; intros H; [reflexivity|].
  rewrite !traverse_cons, (H x) by left.
  rewrite IH; [reflexivity|]. intros y Hy. apply H. by right.
Qed.

(** The map returns exactly when every element does, with the results in
    order. *)
Lemma traverse_Ok {A B : Type} (f : A → result B) (items : list A) (out : list B) :
  traverse f items = Ok out ↔ Forall2 (fun x y => f x = Ok y) items out.
Proof.
  revert out. induction items as [|x items IH]; intros out.
  - split; [intros [= <-]; constructor|by intros ->%Forall2_nil_inv_l].
  - rewrite traverse_cons. split.
    + destruct (f x) as [y|] eqn:Hx; [|done]. simpl.
      destruct (traverse f items) as [ys|] eqn:Hys; [|done]. simpl.
      intros [= <-]. constructor; [done|]. by apply IH.
    + intros (y & ys & Hx & Hys & ->)%Forall2_cons_inv_l.
      rewrite Hx. simpl. apply IH in Hys. by rewrite Hys.
Qed.

(** An exception of the map is the exception of one element. *)
Lemma traverse_Throw {A B : Type} (f : A → result B) (items : list A) (e : error) :
  traverse f items = Throw e → ∃ x, x ∈ items ∧ f x = Throw e.
Proof.
  induction items as [|x items IH]; [done|]. rewrite traverse_cons.
  destruct (f x) as [y|e'] eqn:Hx; simpl.
  - destruct (traverse f items) as [ys|e'] eqn:Hys; simpl; [done|].
    intros [= ->]. destruct IH as (x' & Hin & Hx'); [done|].
    exists x'. split; [by right|done].
  - intros [= ->]. exists x. split; [by left|done].
Qed.

(* ===================================================================== *)
(** ** The signed text of the OAuth callback                              *)
(* ===================================================================== *)

Lemma Object_keys_spec (o : gmap string Js.value) (k : string) :
  k ∈ Object_keys o ↔ is_Some (o !! k).
Proof.
  unfold Object_keys. rewrite list_elem_of_fmap. split.
  - intros [[k' v] [-> Hin]]. apply elem_of_map_to_list in Hin. by exists v.
  - intros [v Hv]. exists (k, v). split; [done|]. by apply elem_of_map_to_list.
Qed.

Lemma sort_Permutation (keys : list string) : sort keys ≡ₚ keys.
Proof. apply merge_sort_Permutation. Qed.

Lemma sort_StronglySorted (keys : list string) : StronglySorted String.le (sort keys).
Proof. apply StronglySorted_merge_sort; apply _. Qed.

Lemma param_delete_ne (query : gmap string Js.value) (k k' : string) :
  k ≠ k' → param (delete k query) k' = param query k'.
Proof. intros H. unfold param. by rewrite lookup_delete_ne. Qed.

(** The text is built from one [key=value] pair per parameter other than
    [hmac], in ascending key order, joined with [&]. *)
Lemma queryString_spec (query : gmap string Js.value) :
  ∃ keys : list string,
    (∀ k, k ∈ keys ↔ k ≠ "hmac" ∧ is_Some (query !! k))
    ∧ NoDup keys
    ∧ StronglySorted String.le keys
    ∧ queryString query
      = (pairs ← traverse (fun k => text ← Js.toString (param query k);
                                    Ok (k ++ "=" ++ text)) keys;
         Ok (Js.join "&" pairs)).
Proof.
  exists (sort (Object_keys (delete "hmac" query))).
  assert (∀ k, k ∈ sort (Object_keys (delete "hmac" query))
               ↔ k ≠ "hmac" ∧ is_Some (query !! k)) as Hmem.
  { intros k. rewrite sort_Permutation, Object_keys_spec.
    destruct (decide (k = "hmac")) as [->|Hne].
    - rewrite lookup_delete_eq. split; [by intros [? [=]]|by intros [[] _]].
    - rewrite lookup_delete_ne by done. tauto. }
  split; [exact Hmem|]. split; [|split].
  - rewrite sort_Permutation. apply NoDup_fst_map_to_list.
  - apply sort_StronglySorted.
  - unfold queryString. f_equal. apply traverse_ext_in. intros k Hin.
    apply Hmem in Hin as [Hne _]. by rewrite param_delete_ne.
Qed.

(** When the text can be built, every parameter other than [hmac] has a
    text, and the signed text is those texts, each after its key. *)
Lemma queryString_Ok (query : gmap string Js.value) (text : string) :
  queryString query = Ok text →
  ∃ (keys texts : list string),
    (∀ k, k ∈ keys ↔ k ≠ "hmac" ∧ is_Some (query !! k))
    ∧ NoDup keys
    ∧ StronglySorted String.le keys
    ∧ Forall2 (fun k t => Js.toString (param query k) = Ok t) keys texts
    ∧ text = Js.join "&" (zip_with (fun k t => k ++ "=" ++ t) keys texts).
Proof.
  destruct (queryString_spec query) as (keys & Hmem & Hnd & Hsorted & ->).
  destruct (traverse _ keys) as [pairs|] eqn:Hpairs; [|done]. simpl.
  intros [= <-]. apply traverse_Ok in Hpairs.
  assert (∃ texts, Forall2 (fun k t => Js.toString (param query k) = Ok t) keys texts
                   ∧ pairs = zip_with (fun k t => k ++ "=" ++ t) keys texts)
    as (texts & Htexts & ->).
  { clear Hmem Hnd Hsorted. induction Hpairs as [|k pair keys pairs Hk _ IH].
    - exists []. split; [constructor|done].
    - destruct IH as (texts & Htexts & ->).
      destruct (Js.toString (param query k)) as [t|] eqn:Ht; [|done].
      simpl in Hk. injection Hk as <-.
      exists (t :: texts). split; [by constructor|done]. }
  by exists keys, texts.
Qed.

(** When the text cannot be built, some parameter other than [hmac] has
    no text. *)
Lemma queryString_Throw (query : gmap string Js.value) (e : error) :
  queryString query = Throw e →
  ∃ k v, k ≠ "hmac" ∧ query !! k = Some v ∧ Js.toString v = Throw e.
Proof.
  destruct (queryString_spec query) as (keys & Hmem & _ & _ & ->).
  destruct (traverse _ keys) as [pairs|e'] eqn:Hpairs; [done|]. simpl.
  intros [= ->]. apply traverse_Throw in Hpairs as (k & Hin & Hk).
  apply Hmem in Hin as [Hne [v Hv]]. exists k, v. split; [done|]. split; [done|].
  unfold param in Hk. rewrite Hv in Hk. simpl in Hk.
  by destruct (Js.toString v).
Qed.

(** A query whose text can be built has a text for its shop. *)
Lemma queryString_shop (query : gmap string Js.value) (text : string) :
  queryString query = Ok text → ∃ shop, Js.toString (param query "shop") = Ok shop.
Proof.
  intros Htext. destruct (Js.toString (param query "shop")) as [shop|e] eqn:Hshop;
    [by exists shop|].
  destruct (queryString_spec query) as (keys & Hmem & _ & _ & Heq).
  rewrite Heq in Htext.
  destruct (traverse _ keys) as [pairs|] eqn:Hpairs; [|done].
  apply traverse_Ok in Hpairs.
  unfold param in Hshop. destruct (query !! "shop") as [v|] eqn:Hv; [|done].
  assert ("shop" ∈ keys) as Hin by (apply Hmem; split; [discriminate|by exists v]).
  apply list_elem_of_lookup in Hin as [i Hi].
  destruct (Forall2_lookup_l _ _ _ _ _ Hpairs Hi) as (pair & _ & Hpair).
  unfold param in Hpair. rewrite Hv in Hpair. simpl in Hpair, Hshop.
  by rewrite Hshop in Hpair.
Qed.

(** Signing a query leaves the signed text as it was. *)
Lemma queryString_insert_hmac (query : gmap string Js.value) (v : Js.value) :
  query !! "hmac" = None → queryString (<["hmac" := v]> query) = queryString query.
Proof.
  intros H. unfold queryString.
  by rewrite delete_insert_eq, (delete_id query "hmac").
Qed.

(* ===================================================================== *)
(** ** GET /api/auth/callback                                             *)
(* ===================================================================== *)

Lemma param_ne (query : gmap string Js.value) (k : string) (v : Js.value) :
  v ≠ Js.VUndefined → query !! k ≠ Some v → param query k ≠ v.
Proof.
  intros Hv H. unfold param. destruct (query !! k) as [v'|]; simpl; congruence.
Qed.

Lemma param_Some (query : gmap string Js.value) (k : string) (v : Js.value) :
  query !! k = Some v → param query k = v.
Proof. intros H. unfold param. by rewrite H. Qed.

Section Callback.

Variable hmac_sha256 : string → string → list Z.
Variables SHOPIFY_API_KEY SHOPIFY_API_SECRET APP_URL : string.

Abbreviation callback' := (callback hmac_sha256 SHOPIFY_API_KEY SHOPIFY_API_SECRET APP_URL).
Abbreviation auth' := (auth SHOPIFY_API_KEY APP_URL).
Abbreviation token_request' := (token_request SHOPIFY_API_KEY SHOPIFY_API_SECRET).

(** A [shop] without a text: the lookup of the pending state throws. *)
Lemma callback_shop_throws query exchange random uuid now w e :
  Js.toString (param query "shop") = Throw e →
  callback' query exchange random uuid now w = (Rejected e, w, []).
Proof. intros H. unfold callback. by rewrite H. Qed.

Lemma callback_no_pending query exchange random uuid now w shop :
  Js.toString (param query "shop") = Ok shop →
  temporaryStates w !! state_key shop = None →
  callback' query exchange random uuid now w
  = (Responded (send 403 "Invalid state parameter"), w, []).
Proof. intros Hshop H. unfold callback, state_key in *. by rewrite Hshop, H. Qed.

Lemma callback_state_differs query exchange random uuid now w shop saved :
  Js.toString (param query "shop") = Ok shop →
  temporaryStates w !! state_key shop = Some saved →
  param query "state" ≠ Js.VStr (state saved) →
  callback' query exchange random uuid now w
  = (Responded (send 403 "Invalid state parameter"), w, []).
Proof.
  intros Hshop H Hne. unfold callback, state_key in *.
  by rewrite Hshop, H, strict_eq_false.
Qed.

(** Past the state check with a parameter without a text: the build of
    the signed text throws. *)
Lemma callback_text_throws query exchange random uuid now w shop saved e :
  Js.toString (param query "shop") = Ok shop →
  temporaryStates w !! state_key shop = Some saved →
  param query "state" = Js.VStr (state saved) →
  queryString query = Throw e →
  callback' query exchange random uuid now w = (Rejected e, w, []).
Proof.
  intros Hshop H Hst Htext. unfold callback, state_key in *.
  rewrite Hshop, H, Hst. simpl. rewrite String.eqb_refl. simpl. by rewrite Htext.
Qed.

Lemma callback_hmac_differs query exchange random uuid now w shop saved text :
  Js.toString (param query "shop") = Ok shop →
  temporaryStates w !! state_key shop = Some saved →
  param query "state" = Js.VStr (state saved) →
  queryString query = Ok text →
  param query "hmac" ≠ Js.VStr (Digest.hex (hmac_sha256 SHOPIFY_API_SECRET text)) →
  callback' query exchange random uuid now w
  = (Responded (send 403 "HMAC validation failed"), w, []).
Proof.
  intros Hshop H Hst Htext Hne. unfold callback, state_key in *.
  rewrite Hshop, H, Hst. simpl. rewrite String.eqb_refl. simpl.
  by rewrite Htext, strict_eq_false.
Qed.

(** Past both checks with a failed token request: the entry is gone,
    the store untouched, one request went upstream. *)
Lemma callback_exchange_failed query random uuid now w shop saved text :
  Js.toString (param query "shop") = Ok shop →
  temporaryStates w !! state_key shop = Some saved →
  param query "state" = Js.VStr (state saved) →
  queryString query = Ok text →
  param query "hmac" = Js.VStr (Digest.hex (hmac_sha256 SHOPIFY_API_SECRET text)) →
  callback' query None random uuid now w
  = (Responded (send 500 "Error during authentication"),
     World (delete (state_key shop) (temporaryStates w)) (db w),
     [token_request' shop query]).
Proof.
  intros Hshop H Hst Htext Hh. unfold callback, state_key in *.
  rewrite Hshop, H, Hst. simpl. rewrite String.eqb_refl. simpl.
  rewrite Htext, Hh. simpl. by rewrite String.eqb_refl.
Qed.

(** Whatever the token request yields, a callback past both checks
    leaves the map without the entry. *)
Lemma callback_consumes_state query exchange random uuid now w shop saved text :
  Js.toString (param query "shop") = Ok shop →
  temporaryStates w !! state_key shop = Some saved →
  param query "state" = Js.VStr (state saved) →
  queryString query = Ok text →
  param query "hmac" = Js.VStr (Digest.hex (hmac_sha256 SHOPIFY_API_SECRET text)) →
  temporaryStates (callback' query exchange random uuid now w).1.2
  = delete (state_key shop) (temporaryStates w).
Proof.
  intros Hshop H Hst Htext Hh. unfold callback, state_key in *.
  rewrite Hshop, H, Hst. simpl. rewrite String.eqb_refl. simpl.
  rewrite Htext, Hh. simpl. rewrite String.eqb_refl. simpl.
  destruct exchange as [data|]; [|done].
  destruct (Js.prop data "access_token"), (Js.prop data "scope"); try done.
  destruct (saveShopSession _ _ _ _ _); [|done].
  by destruct (createExtensionKey _ _ _ _ _ _) as [[[? ?] ?]|].
Qed.

(** X27. The HMAC check of the callback.  For every callback request
    whose parameters all have a text, the handler recomputes HMAC-SHA256, keyed
    with the shared secret, over the parameters other than [hmac], written
    as [key=value] pairs in ascending key order and joined with [&], takes
    the digest in hex, and whenever that text is not the supplied [hmac]
    parameter it answers 403 and changes nothing: the pending states and
    the store are as before and no request went upstream. *)
Theorem callback_rejects_hmac_mismatch query exchange random uuid now w text :
  queryString query = Ok text →
  ∃ (keys texts : list string),
    (∀ k, k ∈ keys ↔ k ≠ "hmac" ∧ is_Some (query !! k))
    ∧ NoDup keys
    ∧ StronglySorted String.le keys
    ∧ Forall2 (fun k t => Js.toString (param query k) = Ok t) keys texts
    ∧ text = Js.join "&" (zip_with (fun k t => k ++ "=" ++ t) keys texts)
    ∧ (query !! "hmac"
         ≠ Some (Js.VStr (Digest.hex (hmac_sha256 SHOPIFY_API_SECRET text))) →
       ∃ reason,
         callback' query exchange random uuid now w
         = (Responded (send 403 reason), w, [])).
Proof.
  intros Htext.
  destruct (queryString_Ok query text Htext) as (keys & texts & Hmem & Hnd & Hsorted & Hall & Heq).
  destruct (queryString_shop query text Htext) as [shop Hshop].
  exists keys, texts. repeat (split; [done|]).
  intros Hne.
  destruct (temporaryStates w !! state_key shop) as [saved|] eqn:Hsaved.
  - destruct (strict_eq (state saved) (param query "state")) eqn:Hstate.
    + apply strict_eq_spec in Hstate.
      exists "HMAC validation failed".
      eapply callback_hmac_differs; [done..|].
      by apply param_ne.
    + exists "Invalid state parameter".
      eapply callback_state_differs; [done..|].
      intros Heq'. apply strict_eq_spec in Heq'. congruence.
  - exists "Invalid state parameter". by eapply callback_no_pending.
Qed.

(** X28. The state check of the callback.  For every callback request
    whose [shop] has a text, if no pending state is stored under
    ["state_" + shop], or the stored state is not exactly the supplied
    [state] parameter, the handler answers 403 with the state message
    whatever the [hmac] parameter, the other parameters and the HMAC
    function are, sends nothing upstream, and leaves the pending states and
    the store as they were. *)
Theorem callback_rejects_invalid_state query exchange random uuid now w shop :
  Js.toString (param query "shop") = Ok shop →
  (temporaryStates w !! ("state_" ++ shop) = None
   ∨ ∃ saved,
       temporaryStates w !! ("state_" ++ shop) = Some saved
       ∧ query !! "state" ≠ Some (Js.VStr (state saved))) →
  callback' query exchange random uuid now w
  = (Responded (send 403 "Invalid state parameter"), w, []).
Proof.
  intros Hshop [Hnone|(saved & Hsaved & Hne)].
  - by eapply callback_no_pending.
  - eapply callback_state_differs; [done..|]. by apply param_ne.
Qed.

(** X29. A parameter without a text is not caught.  [/api/auth] throws on a
    [shop] that is present but has no text; the callback throws on such a
    [shop] at the lookup of the pending state and, past the state check,
    on any such parameter other than [hmac] at the build of the signed text.
    In each case the handler has answered nothing and nothing has changed:
    no pending state is added or consumed, the store is as before and no
    request went upstream. *)
Theorem coercion_failure_is_uncaught query random uuid now w e :
  (Js.truthy (param query "shop") = true →
   Js.toString (param query "shop") = Throw e →
   auth' query random now w = (Rejected e, w))
  ∧ (Js.toString (param query "shop") = Throw e →
     ∀ exchange, callback' query exchange random uuid now w = (Rejected e, w, []))
  ∧ (∀ shop saved k v,
       Js.toString (param query "shop") = Ok shop →
       temporaryStates w !! ("state_" ++ shop) = Some saved →
       query !! "state" = Some (Js.VStr (state saved)) →
       k ≠ "hmac" → query !! k = Some v → (∃ e', Js.toString v = Throw e') →
       ∀ exchange, ∃ e',
         callback' query exchange random uuid now w = (Rejected e', w, [])).
Proof.
  split; [|split].
  - intros Htruthy Hshop. unfold auth. by rewrite Htruthy, Hshop.
  - intros Hshop exchange. by apply callback_shop_throws.
  - intros shop saved k v Hshop Hsaved Hstate%param_Some Hk Hv [e' He'] exchange.
    destruct (queryString query) as [text|e''] eqn:Htext.
    + destruct (queryString_Ok query text Htext) as (keys & texts & Hmem & _ & _ & Hall & _).
      assert (k ∈ keys) as Hin by (apply Hmem; split; [done|by exists v]).
      apply list_elem_of_lookup in Hin as [i Hi].
      destruct (Forall2_lookup_l _ _ _ _ _ Hall Hi) as (t & _ & Ht).
      unfold param in Ht. rewrite Hv in Ht. simpl in Ht. congruence.
    + exists e''. by eapply callback_text_throws.
Qed.

(** C10. The pending state is deleted once the state and HMAC checks
    have passed and before the token request: whatever that request
    yields, the entry is gone afterwards.  When the request fails the
    handler answers 500 with the entry consumed and the store untouched,
    and the identical callback sent again is rejected with 403, whatever
    the token request would yield this time. *)
Theorem callback_failed_exchange_consumes_state query random uuid now w saved shop text :
  Js.toString (param query "shop") = Ok shop →
  temporaryStates w !! ("state_" ++ shop) = Some saved →
  query !! "state" = Some (Js.VStr (state saved)) →
  queryString query = Ok text →
  query !! "hmac"
    = Some (Js.VStr (Digest.hex (hmac_sha256 SHOPIFY_API_SECRET text))) →
  let w' := World (delete ("state_" ++ shop) (temporaryStates w)) (db w) in
  (∀ exchange,
     temporaryStates (callback' query exchange random uuid now w).1.2 = temporaryStates w')
  ∧ callback' query None random uuid now w
    = (Responded (send 500 "Error during authentication"), w', [token_request' shop query])
  ∧ temporaryStates w' !! ("state_" ++ shop) = None
  ∧ ∀ exchange' random' uuid' now',
      callback' query exchange' random' uuid' now' w'
      = (Responded (send 403 "Invalid state parameter"), w', []).
Proof.
  intros Hshop Hsaved Hstate%param_Some Htext Hhmac%param_Some w'.
  split; [|split; [|split]].
  - intros exchange. by eapply callback_consumes_state.
  - by eapply callback_exchange_failed.
  - apply lookup_delete_eq.
  - intros. eapply callback_no_pending; [done|]. apply lookup_delete_eq.
Qed.

End Callback.

(** C1 (the code at the failing input).  The callback of the pending
    install of [foo], with the issued state, a forged [hmac] and one more
    parameter [junk[toString]=1]: the state check passes, the build of the
    signed text throws outside the [try], and the handler ends in an
    uncaught exception instead of answering 403.  Nothing has changed. *)
Theorem callback_forged_hmac_unanswered :
  temporaryStates Run.awaiting !! "state_foo.myshopify.com" = Some (Pending "5ca1ab1e" 1000)
  ∧ Run.forged !! "state" = Some (Js.VStr "5ca1ab1e")
  ∧ Run.forged !! "hmac" = Some (Js.VStr "00")
  ∧ queryString Run.forged = Throw (TypeError "Cannot convert object to primitive value")
  ∧ ∀ exchange random uuid now,
      callback Sha256.hmac_sha256 Run.API_KEY Run.SECRET Run.URL
        Run.forged exchange random uuid now Run.awaiting
      = (Rejected (TypeError "Cannot convert object to primitive value"), Run.awaiting, []).
Proof.
  split; [vm_compute; reflexivity|]. split; [vm_compute; reflexivity|].
  split; [vm_compute; reflexivity|]. split; [vm_compute; reflexivity|].
  intros. eapply callback_text_throws; vm_compute; reflexivity.
Qed.

(** C5 (the code at the failing input).  A callback whose [shop] is
    [shop[toString]=1]: whatever is pending, the template literal that
    names the pending state throws outside the [try], and the handler ends
    in an uncaught exception instead of answering 403. *)
Theorem callback_unprintable_shop_unanswered :
  ∀ exchange random uuid now w,
    callback Sha256.hmac_sha256 Run.API_KEY Run.SECRET Run.URL
      Run.shopless exchange random uuid now w
    = (Rejected (TypeError "Cannot convert object to primitive value"), w, []).
Proof. intros. apply callback_shop_throws. vm_compute. reflexivity. Qed.

(** The pending install's callback with a forged [hmac]. *)
Lemma callback_rejects_hmac_mismatch_witness :
  ∃ reason,
    callback Sha256.hmac_sha256 Run.API_KEY Run.SECRET Run.URL
      (<["hmac" := Js.VStr "00"]> Run.params) None "9e" "id-3" 2000 Run.awaiting
    = (Responded (send 403 reason), Run.awaiting, []).
Proof.
  destruct (callback_rejects_hmac_mismatch Sha256.hmac_sha256 Run.API_KEY Run.SECRET
              Run.URL (<["hmac" := Js.VStr "00"]> Run.params) None "9e" "id-3" 2000
              Run.awaiting Run.signed_text) as (keys & texts & _ & _ & _ & _ & _ & Hreject).
  - vm_compute. reflexivity.
  - apply Hreject. vm_compute. discriminate.
Defined.

(** A callback whose [state] was not the one issued: the pending entry
    for the shop holds another value. *)
Lemma callback_rejects_invalid_state_witness :
  callback Sha256.hmac_sha256 Run.API_KEY Run.SECRET Run.URL
    (<["state" := Js.VStr "f0r9ed"]> Run.signed) None "9e" "id-3" 2000 Run.awaiting
  = (Responded (send 403 "Invalid state parameter"), Run.awaiting, []).
Proof.
  apply (callback_rejects_invalid_state Sha256.hmac_sha256 Run.API_KEY Run.SECRET Run.URL
           _ _ _ _ _ _ Run.foo).
  - vm_compute. reflexivity.
  - right. exists (Pending "5ca1ab1e" 1000). split.
    + vm_compute. reflexivity.
    + vm_compute. discriminate.
Defined.

(** The signed callback for the pending install, with the platform's
    token endpoint failing: 500 once, 403 on the retry. *)
Lemma callback_failed_exchange_consumes_state_witness :
  ∃ w',
    callback Sha256.hmac_sha256 Run.API_KEY Run.SECRET Run.URL
      Run.signed None "9e" "id-3" 2000 Run.awaiting
    = (Responded (send 500 "Error during authentication"), w',
       [token_request Run.API_KEY Run.SECRET Run.foo Run.signed])
    ∧ temporaryStates w' !! "state_foo.myshopify.com" = None
    ∧ callback Sha256.hmac_sha256 Run.API_KEY Run.SECRET Run.URL
        Run.signed None "9e" "id-3" 2000 w'
      = (Responded (send 403 "Invalid state parameter"), w', []).
Proof.
  pose proof (callback_failed_exchange_consumes_state Sha256.hmac_sha256
                Run.API_KEY Run.SECRET Run.URL Run.signed "9e" "id-3" 2000 Run.awaiting
                (Pending "5ca1ab1e" 1000) Run.foo Run.signed_text) as H.
  destruct H as (_ & Hfail & Hgone & Hretry).
  - vm_compute. reflexivity.
  - vm_compute. reflexivity.
  - vm_compute. reflexivity.
  - vm_compute. reflexivity.
  - vm_compute. reflexivity.
  - eexists. split; [exact Hfail|]. split; [exact Hgone|].
    apply (Hretry None "9e" "id-3" 2000%Z).
Defined.

(* ===================================================================== *)
(** ** The two middlewares                                                *)
(* ===================================================================== *)

Lemma denied_unauthorized (message : string) : denied (Deny (unauthorized message)).
Proof. by eexists. Qed.

#[local] Hint Resolve denied_unauthorized : core.

Lemma getShopSession_Some (shop : string) (d : database) (r : Shop.row) :
  getShopSession shop d = Some r ↔ shops d !! shop = Some r ∧ Shop.isActive r = true.
Proof.
  unfold getShopSession. destruct (shops d !! shop) as [s|]; [|by split; [|intros []]].
  destruct (Shop.isActive s) eqn:E.
  - split; [by intros [= ->]|by intros [[= ->] _]].
  - split; [done|]. intros [[= ->] ?]. congruence.
Qed.

Lemma getShopSession_None (shop : string) (d : database) :
  getShopSession shop d = None ↔
  shops d !! shop = None ∨ ∃ r, shops d !! shop = Some r ∧ Shop.isActive r = false.
Proof.
  unfold getShopSession. destruct (shops d !! shop) as [s|]; [|by split; [left|]].
  destruct (Shop.isActive s) eqn:E.
  - split; [done|]. intros [|(r & [= <-] & ?)]; congruence.
  - split; [|done]. intros _. right. by exists s.
Qed.

Lemma getShopSession_inactive (shop : string) (d : database) :
  ¬ active_shop d shop → getShopSession shop d = None.
Proof.
  intros H. destruct (getShopSession shop d) as [r|] eqn:E; [|done].
  apply getShopSession_Some in E. destruct H. by exists r.
Qed.

(** [validateExtensionKey] returns a shop exactly for an active key of an
    active shop, and then stamps that key and nothing else. *)
Lemma validateExtensionKey_Some (accessKey : string) (now : Z) (d : database)
    (key : ExtensionKey.row) (s : Shop.row) :
  extension_keys d !! accessKey = Some key →
  ExtensionKey.isActive key = true →
  shops d !! ExtensionKey.shop key = Some s →
  Shop.isActive s = true →
  validateExtensionKey accessKey now d
  = (Some (ExtensionKey.shop key, Shop.accessToken s),
     Database (shops d) (<[accessKey := touch_key now key]> (extension_keys d))
              (sender_configs d)).
Proof. intros Hk Ha Hs Hsa. unfold validateExtensionKey. by rewrite Hk, Ha, Hs, Hsa. Qed.

Lemma validateExtensionKey_None (accessKey : string) (now : Z) (d : database) :
  (extension_keys d !! accessKey = None
   ∨ ∃ key, extension_keys d !! accessKey = Some key
            ∧ (ExtensionKey.isActive key = false
               ∨ getShopSession (ExtensionKey.shop key) d = None)) →
  validateExtensionKey accessKey now d = (None, d).
Proof.
  unfold validateExtensionKey, getShopSession.
  intros [->|(key & -> & [->|H])]; [done..|].
  destruct (ExtensionKey.isActive key); [|done].
  destruct (shops d !! ExtensionKey.shop key) as [s|]; [|done].
  by destruct (Shop.isActive s).
Qed.

(** C6. The extension middleware answers 401, leaving the store as it
    was, whenever the bearer token is absent, lacks the [sk_] prefix, is
    not a stored key, is a revoked key, or belongs to a shop that is not
    active; a key that was valid is refused once it has been revoked and
    once its shop has been deactivated.  On an active key of an active
    shop it sets the key's last-used time to the time of the request and
    passes the shop and its access token on. *)
Theorem verifyExtensionKey_gate (authorization : option string) (now : Z) (d : database) :
  ((authorization = None ∨ ∃ h, authorization = Some h ∧ ¬ ∃ k, h = "Bearer " ++ k) →
   ∃ g, verifyExtensionKey authorization now d = (g, d) ∧ denied g)
  ∧ ∀ k : string, authorization = Some ("Bearer " ++ k) →
      ((¬ ∃ rest, k = "sk_" ++ rest) →
       ∃ g, verifyExtensionKey authorization now d = (g, d) ∧ denied g)
      ∧ (extension_keys d !! k = None →
         ∃ g, verifyExtensionKey authorization now d = (g, d) ∧ denied g)
      ∧ (∀ key, extension_keys d !! k = Some key →
           ExtensionKey.isActive key = false
           ∨ ¬ active_shop d (ExtensionKey.shop key) →
           ∃ g, verifyExtensionKey authorization now d = (g, d) ∧ denied g)
      ∧ (∀ key now', extension_keys d !! k = Some key →
           let d' := revokeExtensionKey k (ExtensionKey.shop key) d in
           ∃ g, verifyExtensionKey authorization now' d' = (g, d') ∧ denied g)
      ∧ (∀ key gone now', extension_keys d !! k = Some key →
           let d' := deleteShopSession (Some (ExtensionKey.shop key)) gone d in
           ∃ g, verifyExtensionKey authorization now' d' = (g, d') ∧ denied g)
      ∧ (∀ rest key s, k = "sk_" ++ rest →
           extension_keys d !! k = Some key →
           ExtensionKey.isActive key = true →
           shops d !! ExtensionKey.shop key = Some s →
           Shop.isActive s = true →
           verifyExtensionKey authorization now d
           = (Next (ExtensionKey.shop key) (Shop.accessToken s) "extension_key",
              Database (shops d) (<[k := touch_key now key]> (extension_keys d))
                       (sender_configs d))
           ∧ ExtensionKey.lastUsedAt (touch_key now key) = Some now).
Proof.
  assert (∀ k t d0,
    validateExtensionKey k t d0 = (None, d0) →
    ∃ g, verifyExtensionKey (Some ("Bearer " ++ k)) t d0 = (g, d0) ∧ denied g) as Hnone.
  { intros k t d0 H. unfold verifyExtensionKey. rewrite bearer_token.
    destruct (Js.startsWith k "sk_"); simpl; [rewrite H|]; eauto. }
  split.
  - intros H%bearer_None. unfold verifyExtensionKey. rewrite H. eauto.
  - intros k ->. repeat split.
    + intros Hn. unfold verifyExtensionKey. rewrite bearer_token.
      destruct (Js.startsWith k "sk_") eqn:E; [|simpl; eauto].
      apply startsWith_spec in E. by destruct Hn.
    + intros Hk. apply Hnone, validateExtensionKey_None. by left.
    + intros key Hk H. apply Hnone, validateExtensionKey_None. right. exists key.
      split; [done|]. destruct H as [H|H]; [by left|right].
      by apply getShopSession_inactive.
    + intros key now' Hk d'. apply Hnone, validateExtensionKey_None. right.
      exists (deactivate_key key). split; [|by left].
      subst d'. unfold revokeExtensionKey. simpl.
      by rewrite lookup_alter_eq, Hk; simpl; rewrite String.eqb_refl.
    + intros key gone now' Hk d'. apply Hnone, validateExtensionKey_None. right.
      exists (deactivate_key key). split; [|by left].
      subst d'. unfold deleteShopSession. simpl.
      by rewrite lookup_fmap, Hk; simpl; rewrite String.eqb_refl.
    + unfold verifyExtensionKey. rewrite bearer_token.
      replace (Js.startsWith k "sk_") with true
        by (symmetry; apply startsWith_spec; eauto).
      simpl. by erewrite validateExtensionKey_Some.
Qed.

(** Shop [foo]'s key passes and is stamped; once revoked it is refused. *)
Lemma verifyExtensionKey_gate_witness :
  verifyExtensionKey (Some "Bearer sk_00ff") 50 Run.store
  = (Next Run.foo "shpat_foo" "extension_key",
     Database (shops Run.store)
       (<[Run.foo_key := ExtensionKey.Row "id-1" Run.foo (Some "Access Key Inicial")
                           (Some 50%Z) true 10]> (extension_keys Run.store))
       (sender_configs Run.store))
  ∧ ∃ g, verifyExtensionKey (Some "Bearer sk_00ff") 60
           (revokeExtensionKey Run.foo_key Run.foo Run.store)
         = (g, revokeExtensionKey Run.foo_key Run.foo Run.store)
         ∧ denied g.
Proof.
  destruct (verifyExtensionKey_gate (Some "Bearer sk_00ff") 50 Run.store) as [_ H].
  destruct (H Run.foo_key eq_refl) as (_ & _ & _ & Hrevoked & _ & Hpass).
  split.
  - apply (Hpass "00ff"
             (ExtensionKey.Row "id-1" Run.foo (Some "Access Key Inicial") None true 10)
             (Shop.Row "shpat_foo" (Some SCOPES) 10 None true));
      vm_compute; reflexivity.
  - apply (Hrevoked
             (ExtensionKey.Row "id-1" Run.foo (Some "Access Key Inicial") None true 10)
             60%Z).
    vm_compute. reflexivity.
Defined.

Section SessionToken.

Variable jwt_decode : string → result Js.value.

Abbreviation verifySessionToken' := (verifySessionToken jwt_decode).
Abbreviation delete_extension_key' := (delete_extension_key jwt_decode).

(** What the middleware does with a decoded string [dest]. *)
Lemma verifySessionToken_dest (k : string) (d : database) (payload : Js.value)
    (dest : string) :
  jwt_decode k = Ok payload →
  Js.prop payload "dest" = Some (Js.VStr dest) →
  dest ≠ "" →
  verifySessionToken' (Some ("Bearer " ++ k)) d
  = match getShopSession (Js.replace dest "https://" "") d with
    | Some shopData =>
        Next (Js.replace dest "https://" "") (Shop.accessToken shopData) "session_token"
    | None => Deny (unauthorized "Shop not installed")
    end.
Proof.
  intros Hdec Hdest Hne. unfold verifySessionToken.
  rewrite bearer_token, Hdec.
  assert (Js.truthy payload = true) as ->.
  { destruct payload; simpl in Hdest; try discriminate; try done.
    all: by injection Hdest. }
  rewrite Hdest. simpl.
  assert (String.eqb dest "" = false) as -> by by apply String.eqb_neq.
  simpl. destruct (getShopSession _ d) as [shopData|] eqn:Hs; [|done].
  apply getShopSession_Some in Hs as [_ ->]. done.
Qed.

(** A middleware that passed never touched the store and found an active
    shop. *)
Lemma verifySessionToken_Next (authorization : option string) (d : database)
    (shop token method : string) :
  verifySessionToken' authorization d = Next shop token method →
  ∃ s, shops d !! shop = Some s ∧ Shop.isActive s = true ∧ token = Shop.accessToken s.
Proof.
  unfold verifySessionToken.
  destruct (bearer authorization); [|done].
  destruct (jwt_decode _) as [payload|]; [|done].
  destruct (negb (Js.truthy payload)); [done|].
  destruct (negb (Js.truthy _)); [done|].
  destruct (default _ _); try done.
  destruct (getShopSession _ d) as [shopData|] eqn:Hs; [|done].
  apply getShopSession_Some in Hs as [Hs Ha]. rewrite Ha. simpl.
  intros [= <- <- <-]. eauto.
Qed.


(** C8. A revoke request authenticated as shop [B] deactivates the named
    key only when the key is stored with owner [B]: when it belongs to
    another shop (or is not stored) the store comes out exactly as it went
    in, and in every case the shops, the sender configs and every other
    key are untouched. *)
Theorem revoke_is_scoped_to_shop (authorization : option string) (accessKey : string)
    (d : database) (B token method : string) :
  verifySessionToken' authorization d = Next B token method →
  ∃ r d',
    delete_extension_key' authorization accessKey d = (r, d')
    ∧ status r = 200%Z
    ∧ (∀ key, extension_keys d !! accessKey = Some key →
         ExtensionKey.shop key ≠ B → d' = d)
    ∧ (extension_keys d !! accessKey = None → d' = d)
    ∧ (∀ key, extension_keys d !! accessKey = Some key →
         ExtensionKey.shop key = B →
         extension_keys d' !! accessKey = Some (deactivate_key key))
    ∧ (∀ k, k ≠ accessKey → extension_keys d' !! k = extension_keys d !! k)
    ∧ shops d' = shops d
    ∧ sender_configs d' = sender_configs d.
Proof.
  intros Hauth. unfold delete_extension_key. rewrite Hauth.
  eexists _, _. split; [reflexivity|]. split; [reflexivity|].
  unfold revokeExtensionKey. simpl. repeat split.
  - intros key Hk Hne. destruct d as [sh ks cf]. simpl in *. f_equal.
    apply alter_id. intros key' Hk'. rewrite Hk in Hk'. injection Hk' as <-.
    by rewrite (proj2 (String.eqb_neq _ _) Hne).
  - intros Hk. destruct d as [sh ks cf]. simpl in *. f_equal.
    apply alter_id. intros key' Hk'. congruence.
  - intros key Hk <-. by rewrite lookup_alter_eq, Hk; simpl; rewrite String.eqb_refl.
  - intros k Hne. by rewrite lookup_alter_ne.
Qed.

End SessionToken.


(** Shop [bar]'s admin names the key of shop [foo]: nothing changes. *)
Lemma revoke_is_scoped_to_shop_witness :
  ∃ r, delete_extension_key Run.jwt_decode (Some "Bearer t.bar.sig") Run.foo_key Run.store
       = (r, Run.store)
       ∧ status r = 200%Z.
Proof.
  destruct (revoke_is_scoped_to_shop Run.jwt_decode (Some "Bearer t.bar.sig")
              Run.foo_key Run.store Run.bar "shpat_bar" "session_token")
    as (r & d' & Heq & Hstatus & Hother & _).
  - vm_compute. reflexivity.
  - exists r. split; [|exact Hstatus].
    rewrite Heq. f_equal.
    apply (Hother (ExtensionKey.Row "id-1" Run.foo (Some "Access Key Inicial") None true 10)).
    + vm_compute. reflexivity.
    + vm_compute. discriminate.
Defined.

(* ===================================================================== *)
(** ** Sender config                                                      *)
(* ===================================================================== *)

(** Membership in, and absence from, a list of literals. *)
Ltac absent_literal :=
  let H := fresh in
  intros H; repeat (apply elem_of_cons in H as [H|H]; [discriminate H|]);
  by apply elem_of_nil in H.
Ltac among_literals :=
  repeat (first [by apply list_elem_of_here | apply list_elem_of_further]).

Lemma verifyExtensionKey_Next (authorization : option string) (now : Z) (d d' : database)
    (shop token method : string) :
  verifyExtensionKey authorization now d = (Next shop token method, d') →
  ∃ k key s,
    authorization = Some ("Bearer " ++ k)
    ∧ Js.startsWith k "sk_" = true
    ∧ extension_keys d !! k = Some key
    ∧ ExtensionKey.isActive key = true
    ∧ ExtensionKey.shop key = shop
    ∧ shops d !! shop = Some s
    ∧ Shop.isActive s = true
    ∧ Shop.accessToken s = token
    ∧ method = "extension_key"
    ∧ d' = Database (shops d) (<[k := touch_key now key]> (extension_keys d))
                    (sender_configs d).
Proof.
  unfold verifyExtensionKey.
  destruct (bearer authorization) as [k|] eqn:Hb; [|done].
  apply bearer_Some in Hb as ->.
  destruct (Js.startsWith k "sk_") eqn:Hsk; [|done]. simpl.
  unfold validateExtensionKey.
  destruct (extension_keys d !! k) as [key|] eqn:Hk; [|done].
  destruct (ExtensionKey.isActive key) eqn:Ha; [|done].
  destruct (shops d !! ExtensionKey.shop key) as [s|] eqn:Hs; [|done].
  destruct (Shop.isActive s) eqn:Hsa; [|done].
  intros [= <- <- <- <-]. by exists k, key, s.
Qed.

(** A key that passed passes again after its own stamp and after any
    change to the sender configs. *)
Lemma verifyExtensionKey_again (authorization : option string) (now now' : Z)
    (d d1 : database) (shop token method : string)
    (configs : gmap string SenderConfig.row) :
  verifyExtensionKey authorization now d = (Next shop token method, d1) →
  ∃ keys',
    verifyExtensionKey authorization now' (Database (shops d1) (extension_keys d1) configs)
    = (Next shop token method, Database (shops d) keys' configs).
Proof.
  intros (k & key & s & -> & Hsk & Hk & Ha & Hshop & Hs & Hsa & Htok & -> & ->)
    %verifyExtensionKey_Next.
  unfold verifyExtensionKey. rewrite bearer_token, Hsk. simpl.
  rewrite (validateExtensionKey_Some k now' _ (touch_key now key) s).
  - simpl. rewrite Hshop, Htok. by eexists.
  - simpl. apply lookup_insert_eq.
  - done.
  - simpl. by rewrite Hshop.
  - done.
Qed.

Lemma assoc_app_other (props : list (string * Js.value)) (k k' : string) (v : Js.value) :
  k ≠ k' → Js.assoc (props ++ [(k, v)])%list k' = Js.assoc props k'.
Proof.
  intros Hne. induction props as [|[k0 v0] props IH]; simpl.
  - by rewrite (proj2 (String.eqb_neq _ _) Hne).
  - by destruct (String.eqb k0 k').
Qed.

Lemma assoc_app_absent (props : list (string * Js.value)) (k : string) (v : Js.value) :
  k ∉ props.*1 → Js.assoc (props ++ [(k, v)])%list k = v.
Proof.
  induction props as [|[k0 v0] props IH]; simpl; intros Hn.
  - by rewrite String.eqb_refl.
  - apply not_elem_of_cons in Hn as [Hne Hn].
    rewrite (proj2 (String.eqb_neq _ _)) by done. auto.
Qed.

Lemma nullable_column_storable (column : string) (v : Js.value) (current : option string) :
  storable v →
  ∃ c, nullable_column column v current = Ok c
       ∧ ((∀ s, v = Js.VStr s → c = Some s) ∧ (v = Js.VNull → c = None))
       ∧ (v = Js.VUndefined → c = current).
Proof.
  destruct v; simpl; try done; intros _; eexists; (split; [reflexivity|]);
    repeat split; congruence.
Qed.

(** Reading a column of the projection back. *)
Lemma projection_fields (row : SenderConfig.row) :
  (sender_projection row).*1 = sender_fields.
Proof. reflexivity. Qed.

(** A body without a [shop] of its own, all of whose whitelisted fields
    are storable, is written to the caller's row, and every field given as
    a string is what the projection of that row shows. *)
Lemma saveSenderConfig_own_row (shop : string) (props : list (string * Js.value))
    (d : database) :
  "shop" ∉ props.*1 →
  is_Some (shops d !! shop) →
  (∀ f, f ∈ sender_fields → storable (Js.assoc props f)) →
  ∃ row,
    saveSenderConfig shop (Js.VObj props) d
    = Ok (Database (shops d) (extension_keys d) (<[shop := row]> (sender_configs d)))
    ∧ ∀ f, f ∈ sender_fields →
           (∀ s, Js.assoc props f = Js.VStr s →
                 Js.assoc (sender_projection row) f = Js.VStr s)
           ∧ (Js.assoc props f = Js.VNull →
              Js.assoc (sender_projection row) f = Js.VNull).
Proof.
  intros Hshop [srow Hsrow] Hstor. unfold saveSenderConfig. simpl Js.spread.
  rewrite assoc_app_absent by done. simpl.
  set (old := default SenderConfig.defaults (sender_configs d !! shop)).
  repeat match goal with
  | |- context [nullable_column ?c (Js.assoc (props ++ _)%list ?f) ?cur] =>
      let x := fresh "c" in
      let Hx := fresh "Hc" in
      rewrite (assoc_app_other props "shop" f) by discriminate;
      destruct (nullable_column_storable c (Js.assoc props f) cur)
        as (x & -> & Hx & _);
      [apply Hstor; unfold sender_fields; among_literals|]; simpl
  end.
  rewrite Hsrow. eexists. split; [reflexivity|].
  intros f Hf. unfold sender_fields in Hf.
  repeat (apply elem_of_cons in Hf as [->|Hf]);
    [..|by apply elem_of_nil in Hf]; simpl;
    match goal with
    | H : (∀ s, Js.assoc props ?f = Js.VStr s → ?c = Some s)
          ∧ (Js.assoc props ?f = Js.VNull → ?c = None)
      |- (∀ s, Js.assoc props ?f = _ → _) ∧ _ =>
        destruct H as [Hstr Hnull]; split;
        [intros s Hfs; by rewrite (Hstr s Hfs)|intros Hfn; by rewrite (Hnull Hfn)]
    end.
Qed.

(** C7 (amended). For a shop authenticated by its extension key,
    GET /api/sender-config answers 404 while no config is stored for the
    shop.  After a POST /api/sender-config whose body has no [shop]
    property of its own and only storable fields, it answers with exactly
    the ten whitelisted fields, in the handler's order and nothing else,
    and every field the body gave as a string (or as null) reads back as
    written. *)
Theorem sender_config_roundtrip (authorization : option string) (now : Z)
    (d d1 : database) (shop token method : string) :
  verifyExtensionKey authorization now d = (Next shop token method, d1) →
  (sender_configs d !! shop = None →
   ∃ r, get_sender_config authorization now d = (r, d1) ∧ status r = 404%Z)
  ∧ ∀ (props : list (string * Js.value)) (now' : Z),
      "shop" ∉ props.*1 →
      (∀ f, f ∈ sender_fields → storable (Js.assoc props f)) →
      ∃ r d2 d3 fields,
        post_sender_config authorization (Js.VObj props) now d = (r, d2)
        ∧ status r = 200%Z
        ∧ get_sender_config authorization now' d2 = (json 200 (config_body fields), d3)
        ∧ fields.*1 = sender_fields
        ∧ length fields = 10
        ∧ ∀ f, f ∈ sender_fields →
               (∀ s, Js.assoc props f = Js.VStr s → Js.assoc fields f = Js.VStr s)
               ∧ (Js.assoc props f = Js.VNull → Js.assoc fields f = Js.VNull).
Proof.
  intros Hauth.
  pose proof Hauth as (k & key & s & _ & _ & _ & _ & _ & Hs & _ & _ & _ & Hd1)
    %verifyExtensionKey_Next.
  split.
  - intros Hnone. unfold get_sender_config, getSenderConfig. rewrite Hauth.
    subst d1. simpl. rewrite Hnone. by eexists.
  - intros props now' Hshop Hstor.
    destruct (saveSenderConfig_own_row shop props d1) as (row & Hsave & Hread);
      [done|by subst d1; simpl; rewrite Hs|done|].
    destruct (verifyExtensionKey_again authorization now now' d d1 shop token method
                (<[shop := row]> (sender_configs d1)) Hauth) as (keys' & Hagain).
    eexists _, _, _, (sender_projection row).
    split; [|split; [|split; [|split; [|split]]]].
    + unfold post_sender_config. rewrite Hauth, Hsave. reflexivity.
    + reflexivity.
    + unfold get_sender_config, getSenderConfig. rewrite Hagain. simpl.
      rewrite lookup_insert_eq. reflexivity.
    + apply projection_fields.
    + reflexivity.
    + exact Hread.
Qed.

(** Shop [foo]'s key, first with nothing stored, then writing and reading. *)
Lemma sender_config_roundtrip_witness :
  (∃ r d1, get_sender_config (Some "Bearer sk_00ff") 50 Run.store = (r, d1)
           ∧ status r = 404%Z)
  ∧ ∃ r d2 d3 fields,
      post_sender_config (Some "Bearer sk_00ff") Run.sender_body 50 Run.store = (r, d2)
      ∧ status r = 200%Z
      ∧ get_sender_config (Some "Bearer sk_00ff") 60 d2 = (json 200 (config_body fields), d3)
      ∧ Js.assoc fields "senderPostalCode" = Js.VStr "40302".
Proof.
  destruct (sender_config_roundtrip (Some "Bearer sk_00ff") 50 Run.store
              (validateExtensionKey Run.foo_key 50 Run.store).2
              Run.foo "shpat_foo" "extension_key") as [H404 Hround].
  - vm_compute. reflexivity.
  - split.
    + destruct H404 as (r & Hget & Hstatus); [vm_compute; reflexivity|]. eauto.
    + destruct (Hround (Js.spread Run.sender_body) 60%Z)
        as (r & d2 & d3 & fields & Hpost & Hstatus & Hget & _ & _ & Hread).
      * vm_compute. absent_literal.
      * intros f Hf. unfold sender_fields in Hf.
        repeat (apply elem_of_cons in Hf as [->|Hf]); [..|by apply elem_of_nil in Hf];
          exact I.
      * exists r, d2, d3, fields. repeat (split; [done|]).
        apply (Hread "senderPostalCode"); [unfold sender_fields; among_literals|].
        reflexivity.
Defined.

(** C7 as written fails: the projection has ten fields, not six (the
    postal code and the address are among those returned); and a body
    carrying a [shop] of its own is written to that shop's row, so the
    caller's own config is still missing afterwards. *)
Lemma sender_config_six_fields_counterexample :
  (∃ d3 fields,
     get_sender_config (Some "Bearer sk_00ff") 60
       (post_sender_config (Some "Bearer sk_00ff") Run.sender_body 50 Run.store).2
     = (json 200 (config_body fields), d3)
     ∧ length fields = 10
     ∧ length fields ≠ 6
     ∧ Js.assoc fields "senderDirection" = Js.VStr "Calle 8")
  ∧ status (post_sender_config (Some "Bearer sk_00ff") Run.foreign_body 50 Run.store).1
    = 200%Z
  ∧ status
      (get_sender_config (Some "Bearer sk_00ff") 60
         (post_sender_config (Some "Bearer sk_00ff") Run.foreign_body 50 Run.store).2).1
    = 404%Z
  ∧ SenderConfig.senderName
      <$> sender_configs
            (post_sender_config (Some "Bearer sk_00ff") Run.foreign_body 50 Run.store).2
          !! Run.bar
    = Some (Some "Eve").
Proof.
  split; [|split; [|split]].
  - eexists _, _. split; [vm_compute; reflexivity|].
    split; [reflexivity|]. split; [discriminate|reflexivity].
  - vm_compute. reflexivity.
  - vm_compute. reflexivity.
  - vm_compute. reflexivity.
Qed.

(* ===================================================================== *)
(** ** Webhooks                                                           *)
(* ===================================================================== *)

Section Webhooks.

Variable hmac_sha256 : string → string → list Z.
Variable JSON_parse : string → result Js.value.
Variable SHOPIFY_API_SECRET : string.

Abbreviation webhook_app_uninstalled' :=
  (webhook_app_uninstalled hmac_sha256 SHOPIFY_API_SECRET).
Abbreviation webhook_customers_redact' :=
  (webhook_customers_redact hmac_sha256 JSON_parse SHOPIFY_API_SECRET).

(** What the uninstall handler accepts is the digest of
    [JSON.stringify(req.body)]. *)
Lemma webhook_app_uninstalled_accepts hmac shop body now d :
  hmac = Some (Digest.base64 (hmac_sha256 SHOPIFY_API_SECRET (JSON_stringify body))) →
  webhook_app_uninstalled' hmac shop body now d
  = (send 200 "OK", deleteShopSession shop now d).
Proof.
  intros ->. unfold webhook_app_uninstalled.
  by rewrite bool_decide_eq_true_2.
Qed.

Lemma webhook_app_uninstalled_rejects hmac shop body now d :
  hmac ≠ Some (Digest.base64 (hmac_sha256 SHOPIFY_API_SECRET (JSON_stringify body))) →
  webhook_app_uninstalled' hmac shop body now d
  = (send 403 "HMAC validation failed", d).
Proof.
  intros H. unfold webhook_app_uninstalled.
  by rewrite bool_decide_eq_false_2.
Qed.

(** [deleteShopSession] deactivates the shop and every key it owns, and
    nothing else. *)
Lemma deleteShopSession_shop shop now d s :
  shops d !! shop = Some s →
  shops (deleteShopSession (Some shop) now d) !! shop
  = Some (Shop.Row (Shop.accessToken s) (Shop.scope s) (Shop.installedAt s)
            (Some now) false).
Proof. intros H. simpl. by rewrite lookup_alter_eq, H. Qed.

Lemma deleteShopSession_keys shop now d k key :
  extension_keys d !! k = Some key →
  extension_keys (deleteShopSession (Some shop) now d) !! k
  = Some (if String.eqb (ExtensionKey.shop key) shop then deactivate_key key else key).
Proof. intros H. simpl. by rewrite lookup_fmap, H. Qed.

(** The redact handler never answers 200 and never changes the store:
    past the HMAC check every path ends in an exception nobody catches. *)
Lemma webhook_customers_redact_never_ok hmac body d :
  match webhook_customers_redact' hmac body d with
  | (Responded r, d') => r = send 401 "Unauthorized" ∧ d' = d
  | (Rejected _, d') => d' = d
  end.
Proof.
  unfold webhook_customers_redact, deleteShopData.
  destruct (verifyShopifyWebhook _ _ _ _) as [[|]|]; try done.
  destruct (JSON_parse _) as [webhook|]; [|done].
  by destruct (Js.prop webhook "shop_domain").
Qed.

Lemma webhook_customers_redact_verified hmac bytes d :
  hmac = Some (Digest.base64 (hmac_sha256 SHOPIFY_API_SECRET bytes)) →
  ∃ e, webhook_customers_redact' hmac (Buffer bytes) d = (Rejected e, d).
Proof.
  intros ->. unfold webhook_customers_redact, deleteShopData. simpl.
  rewrite bool_decide_eq_true_2 by done.
  destruct (JSON_parse _) as [webhook|]; [|by eexists].
  destruct (Js.prop webhook "shop_domain"); by eexists.
Qed.

End Webhooks.

(** C2 (the code at the failing input). An uninstall delivery for the
    active shop [foo], signed by the platform over the raw body: the
    sibling check [verifyShopifyWebhook] accepts the header, the uninstall
    handler digests [JSON.stringify] of the Buffer instead, answers 403 and
    leaves the shop and its key active. *)
Theorem uninstall_webhook_refuses_platform_signature :
  verifyShopifyWebhook Sha256.hmac_sha256 Run.SECRET
    (Buffer Run.payload) (Some Run.payload_hmac) = Ok true
  ∧ webhook_app_uninstalled Sha256.hmac_sha256 Run.SECRET
      (Some Run.payload_hmac) (Some Run.foo) (Buffer Run.payload) 5000 Run.store
    = (send 403 "HMAC validation failed", Run.store)
  ∧ Shop.isActive <$> shops Run.store !! Run.foo = Some true
  ∧ ExtensionKey.isActive <$> extension_keys Run.store !! Run.foo_key = Some true.
Proof. vm_compute. repeat split; reflexivity. Qed.

(** C3 (the code at the failing input). A redact delivery for shop
    [foo] with a valid signature, whatever [JSON.parse] makes of the body:
    the handler ends in an uncaught exception, sends no answer and deletes
    nothing. *)
Theorem customers_redact_throws (JSON_parse : string → result Js.value) :
  verifyShopifyWebhook Sha256.hmac_sha256 Run.SECRET
    (Buffer Run.payload) (Some Run.payload_hmac) = Ok true
  ∧ ∃ e, webhook_customers_redact Sha256.hmac_sha256 JSON_parse Run.SECRET
           (Some Run.payload_hmac) (Buffer Run.payload) Run.store
         = (Rejected e, Run.store).
Proof.
  split; [vm_compute; reflexivity|].
  by apply webhook_customers_redact_verified.
Qed.

(* ===================================================================== *)
(** ** Pending states over time                                           *)
(* ===================================================================== *)

Section Expiry.

Variable hmac_sha256 : string → string → list Z.
Variables SHOPIFY_API_KEY SHOPIFY_API_SECRET APP_URL : string.

Abbreviation callback' := (callback hmac_sha256 SHOPIFY_API_KEY SHOPIFY_API_SECRET APP_URL).
Abbreviation auth' := (auth SHOPIFY_API_KEY APP_URL).
Abbreviation step' := (step hmac_sha256 SHOPIFY_API_KEY SHOPIFY_API_SECRET APP_URL).
Abbreviation reachable' := (reachable hmac_sha256 SHOPIFY_API_KEY SHOPIFY_API_SECRET APP_URL).

(** The callback commutes with any change of the timestamps. *)
Lemma callback_retime age query exchange random uuid now w :
  callback' query exchange random uuid now (retime age w)
  = let '(r, w1, calls) := callback' query exchange random uuid now w in
    (r, retime age w1, calls).
Proof.
  unfold callback, retime. simpl.
  destruct (Js.toString (param query "shop")) as [shop|]; [|done].
  rewrite lookup_fmap.
  destruct (temporaryStates w !! _) as [saved|]; simpl; [|done].
  destruct (negb (strict_eq (state saved) _)); [done|].
  destruct (queryString query) as [text|]; [|done].
  destruct (negb (strict_eq _ _)); [done|].
  rewrite <- fmap_delete.
  destruct exchange as [data|]; [|done].
  destruct (Js.prop data "access_token"), (Js.prop data "scope"); try done.
  destruct (saveShopSession _ _ _ _ _); [|done].
  by destruct (createExtensionKey _ _ _ _ _ _) as [[[? ?] ?]|].
Qed.

(** The callback adds no entry and changes none. *)
Lemma callback_keeps_entries query exchange random uuid now w k e :
  temporaryStates (callback' query exchange random uuid now w).1.2 !! k = Some e →
  temporaryStates w !! k = Some e.
Proof.
  unfold callback.
  destruct (Js.toString (param query "shop")) as [shop|]; [|done].
  destruct (temporaryStates w !! _) as [saved|]; simpl; [|done].
  destruct (negb (strict_eq (state saved) _)); [done|].
  destruct (queryString query) as [text|]; [|done].
  destruct (negb (strict_eq _ _)); [done|].
  assert (delete ("state_" ++ shop) (temporaryStates w) !! k = Some e →
          temporaryStates w !! k = Some e) as Hdel.
  { rewrite lookup_delete_Some. tauto. }
  destruct exchange as [data|]; [|done].
  destruct (Js.prop data "access_token"), (Js.prop data "scope"); try done.
  destruct (saveShopSession _ _ _ _ _); [|done].
  by destruct (createExtensionKey _ _ _ _ _ _) as [[[? ?] ?]|].
Qed.

(** [/api/auth] adds at most the entry stamped with the time of the request. *)
Lemma auth_entries query random now w k e :
  temporaryStates (auth' query random now w).2 !! k = Some e →
  temporaryStates w !! k = Some e ∨ timestamp e = now.
Proof.
  unfold auth.
  destruct (negb (Js.truthy _)); [by left|].
  destruct (Js.toString (param query "shop")) as [shop|]; [|by left].
  destruct (negb (shopRegex_test _)); [by left|]. simpl.
  rewrite lookup_insert_Some. intros [[_ <-]|[_ H]]; [by right|by left].
Qed.

(** The sweep keeps exactly the entries at most 300000 ms old. *)
Lemma sweep_lookup now states k e :
  sweep now states !! k = Some e ↔
  states !! k = Some e ∧ (now - timestamp e ≤ 300000)%Z.
Proof.
  unfold sweep. rewrite map_lookup_filter_Some. simpl. split; intros [? ?]; split; try done; lia.
Qed.

Lemma step_timely p q : step' p q → timely p → timely q.
Proof.
  intros Hstep [Hclock Hentries].
  destruct Hstep as [p|p query random now Hnow|p query exchange random uuid now Hnow
                    |p d' now Hnow]; split; simpl; try lia.
  - intros k e [He Hage]%sweep_lookup. destruct (Hentries k e He). lia.
  - intros k e [He| ->]%auth_entries; [destruct (Hentries k e He)|]; lia.
  - intros k e He%callback_keeps_entries. destruct (Hentries k e He). lia.
  - intros k e He. destruct (Hentries k e He). lia.
Qed.

Lemma reachable_timely p : reachable' p → timely p.
Proof.
  intros [d Hrun]. revert p Hrun. apply rtc_ind_r.
  - split; simpl; [lia|]. intros k e. by rewrite lookup_empty.
  - intros p1 p2 _ Hstep IH. by eapply step_timely.
Qed.

(** An install that goes through. *)
Lemma callback_installs query data accessToken scope random uuid now w shop saved text
    d1 d2 k row :
  Js.toString (param query "shop") = Ok shop →
  temporaryStates w !! state_key shop = Some saved →
  param query "state" = Js.VStr (state saved) →
  queryString query = Ok text →
  param query "hmac" = Js.VStr (Digest.hex (hmac_sha256 SHOPIFY_API_SECRET text)) →
  Js.prop data "access_token" = Some accessToken →
  Js.prop data "scope" = Some scope →
  saveShopSession (param query "shop") accessToken scope now (db w) = Ok d1 →
  createExtensionKey shop (Some "Access Key Inicial") random uuid now d1 = Ok (k, row, d2) →
  callback' query (Some data) random uuid now w
  = (Responded (redirect ("https://" ++ shop ++ "/admin/apps/" ++ SHOPIFY_API_KEY)),
     World (delete (state_key shop) (temporaryStates w)) d2,
     token_request SHOPIFY_API_KEY SHOPIFY_API_SECRET shop query
       :: registerWebhooks APP_URL shop).
Proof.
  intros Hshop H Hst Htext Hh Htok Hscope Hsave Hkey. unfold callback, state_key in *.
  rewrite Hshop, H, Hst. simpl. rewrite String.eqb_refl. simpl.
  rewrite Htext, Hh. simpl.
  rewrite String.eqb_refl. simpl. by rewrite Htok, Hscope, Hsave, Hkey.
Qed.

(** C9. Whether the callback accepts a pending state never depends on
    the entry's timestamp (the handler commutes with any change of the
    timestamps).  A pending state older than 300000 ms that the sweep has
    not yet removed is reachable, and the callback honours it: an entry
    created 1 ms after boot survives the sweep at 300000 and completes an
    install at 500000.  Expiry being left to the sweep, an entry is
    honoured up to 600000 ms after its creation, and no later. *)
Theorem stale_pending_state_is_accepted :
  (∀ age query exchange random uuid now w,
     callback' query exchange random uuid now (retime age w)
     = let '(r, w1, calls) := callback' query exchange random uuid now w in
       (r, retime age w1, calls))
  ∧ (∃ p query now shop saved r w1 calls,
       reachable' p
       ∧ (clock p ≤ now ≤ next_sweep p)%Z
       ∧ Js.toString (param query "shop") = Ok shop
       ∧ temporaryStates (memory p) !! ("state_" ++ shop) = Some saved
       ∧ (now - timestamp saved > 300000)%Z
       ∧ callback' query (Some Run.token_data) "9e" "id-3" now (memory p)
         = (Responded r, w1, calls)
       ∧ status r = 302%Z
       ∧ Shop.isActive <$> shops (db w1) !! Run.foo = Some true)
  ∧ (∀ p, reachable' p →
       ∀ k e now, temporaryStates (memory p) !! k = Some e →
                  (now ≤ next_sweep p)%Z → (now - timestamp e ≤ 600000)%Z).
Proof.
  split; [|split].
  - intros. apply callback_retime.
  - set (d0 := Database ∅ ∅ ∅).
    set (p1 := Process 1 300000
                 (auth' {[ "shop" := Js.VStr Run.foo ]} "5ca1ab1e" 1 (memory (boot d0))).2).
    set (p2 := Process (next_sweep p1) (next_sweep p1 + 300000)
                 (World (sweep (next_sweep p1) (temporaryStates (memory p1)))
                        (db (memory p1)))).
    set (query := <["hmac" := Js.VStr (Digest.hex (hmac_sha256 SHOPIFY_API_SECRET
                                                     Run.signed_text))]> Run.params).
    assert (temporaryStates (memory p2) !! state_key Run.foo = Some (Pending "5ca1ab1e" 1))
      as Hsaved by (vm_compute; reflexivity).
    assert (queryString query = Ok Run.signed_text) as Htext.
    { unfold query. rewrite queryString_insert_hmac by (vm_compute; reflexivity).
      vm_compute. reflexivity. }
    eexists p2, query, 500000%Z, Run.foo, (Pending "5ca1ab1e" 1), _, _, _.
    split; [|split; [|split; [|split; [|split; [|split; [|split]]]]]].
    + exists d0. apply (rtc_l _ _ p1).
      { apply (step_auth _ _ _ _ (boot d0)). simpl. lia. }
      apply (rtc_l _ _ p2); [apply step_sweep|apply rtc_refl].
    + simpl. lia.
    + reflexivity.
    + exact Hsaved.
    + simpl. lia.
    + eapply (callback_installs query Run.token_data);
        [reflexivity|exact Hsaved| |exact Htext|..].
      * vm_compute. reflexivity.
      * unfold query, param. by rewrite lookup_insert_eq.
      * reflexivity.
      * reflexivity.
      * vm_compute. reflexivity.
      * vm_compute. reflexivity.
    + reflexivity.
    + vm_compute. reflexivity.
  - intros p Hp k e now He Hnow.
    destruct (reachable_timely p Hp) as [_ Hentries].
    destruct (Hentries k e He). lia.
Qed.

End Expiry.

(** The spec's example: the first install of [foo.myshopify.com].  The
    callback arrives with the issued state and the platform's signature;
    the shop is stored active, one extension key with the [sk_] prefix is
    issued for it, and the browser is sent to the admin page. *)
Example install_foo :
  let w := World {[ "state_foo.myshopify.com" := Pending "5ca1ab1e" 1000 ]}
                 (Database ∅ ∅ ∅) in
  callback Sha256.hmac_sha256 Run.API_KEY Run.SECRET Run.URL
    Run.signed (Some Run.token_data) "9e" "id-3" 2000 w
  = (Responded (redirect "https://foo.myshopify.com/admin/apps/0f3a9c"),
     World ∅
       (Database
          {[ Run.foo := Shop.Row "shpat_new" (Some SCOPES) 2000 None true ]}
          {[ "sk_9e" := ExtensionKey.Row "id-3" Run.foo (Some "Access Key Inicial")
                          None true 2000 ]}
          ∅),
     token_request Run.API_KEY Run.SECRET Run.foo Run.signed
       :: registerWebhooks Run.URL Run.foo).
Proof. vm_compute. reflexivity. Qed.

(* ===================================================================== *)
(** ** GET /api/auth                                                      *)
(* ===================================================================== *)

Lemma append_assoc (a b c : string) : (a ++ b) ++ c = a ++ (b ++ c).
Proof.
  induction a as [|x a IH]; [done|].
  change ((String x a ++ b) ++ c) with (String x ((a ++ b) ++ c)).
  change (String x a ++ (b ++ c)) with (String x (a ++ (b ++ c))).
  by rewrite IH.
Qed.

(** The shop pattern after its first character. *)
Lemma label_rest_spec (s : string) :
  label_rest s = true ↔
  ∃ rest, s = rest ++ ".myshopify.com"
          ∧ Forall (fun c => alnum c || Ascii.eqb c "-" = true) (list_ascii_of_string rest).
Proof.
  split.
  - induction s as [|c s IH]; [done|]. cbn [label_rest].
    destruct (alnum c || Ascii.eqb c "-") eqn:Hc.
    + intros (rest & -> & Hrest)%IH. exists (String c rest). split; [done|].
      simpl. by constructor.
    + intros ->%String.eqb_eq. exists "". split; [done|]. constructor.
  - intros (rest & -> & Hrest). induction rest as [|c rest IH]; [done|].
    simpl in Hrest. inversion Hrest as [|? ? Hc Hrest']; subst.
    change (String c rest ++ ".myshopify.com")
      with (String c (rest ++ ".myshopify.com")).
    cbn [label_rest]. rewrite Hc. auto.
Qed.

(** X1. The shop test accepts exactly the texts made of one letter or
    digit, then any number of letters, digits and hyphens, then
    [.myshopify.com], with nothing before or after. *)
Theorem shopRegex_test_spec (s : string) :
  shopRegex_test s = true ↔
  ∃ c rest,
    s = String c rest ++ ".myshopify.com"
    ∧ alnum c = true
    ∧ Forall (fun x => alnum x || Ascii.eqb x "-" = true) (list_ascii_of_string rest).
Proof.
  unfold shopRegex_test. split.
  - destruct s as [|c s]; [done|].
    intros [Hc (rest & -> & Hrest)%label_rest_spec]%andb_true_iff.
    by exists c, rest.
  - intros (c & rest & -> & Hc & Hrest).
    change (String c rest ++ ".myshopify.com")
      with (String c (rest ++ ".myshopify.com")).
    cbv beta iota. rewrite Hc. cbn [andb]. apply label_rest_spec. by exists rest.
Qed.

Section Auth.

Variable hmac_sha256 : string → string → list Z.
Variables SHOPIFY_API_KEY SHOPIFY_API_SECRET APP_URL : string.

Abbreviation auth' := (auth SHOPIFY_API_KEY APP_URL).
Abbreviation callback' := (callback hmac_sha256 SHOPIFY_API_KEY SHOPIFY_API_SECRET APP_URL).

(** X2. Without a [shop] parameter (or with a falsy one), or with one
    whose text fails the shop test, /api/auth answers 400 and records no
    pending state. *)
Theorem auth_rejects_bad_shop query random now w :
  Js.truthy (param query "shop") = false
  ∨ (∃ s, Js.toString (param query "shop") = Ok s ∧ shopRegex_test s = false) →
  ∃ text, auth' query random now w = (Responded (send 400 text), w).
Proof.
  unfold auth. intros [H|(s & Hs & H)].
  - rewrite H. simpl. by eexists.
  - destruct (Js.truthy _); simpl; [rewrite Hs, H|]; by eexists.
Qed.

Lemma shopRegex_test_truthy s : shopRegex_test s = true → Js.truthy (Js.VStr s) = true.
Proof. by destruct s. Qed.

Lemma auth_accepts query random now w s :
  query !! "shop" = Some (Js.VStr s) →
  shopRegex_test s = true →
  auth' query random now w
  = (Responded
       (redirect ("https://" ++ s ++ "/admin/oauth/authorize?"
                  ++ "client_id=" ++ SHOPIFY_API_KEY ++ "&"
                  ++ "scope=" ++ SCOPES ++ "&"
                  ++ "redirect_uri=" ++ (APP_URL ++ "/api/auth/callback") ++ "&"
                  ++ "state=" ++ random)),
     World (<["state_" ++ s := Pending random now]> (temporaryStates w)) (db w)).
Proof.
  intros Hshop Hre. unfold auth. rewrite (param_Some _ _ _ Hshop).
  rewrite (shopRegex_test_truthy s Hre). simpl. by rewrite Hre.
Qed.

(** X3. For a shop that passes the test, /api/auth redirects to that
    shop's authorization page with the drawn state as the last parameter,
    and that same state, stamped with the time of the request, is what is
    pending under ["state_" + shop]; no other pending state and nothing in
    the store changes. *)
Theorem auth_issues_state query random now w s :
  query !! "shop" = Some (Js.VStr s) →
  shopRegex_test s = true →
  ∃ url w',
    auth' query random now w = (Responded (redirect url), w')
    ∧ (∃ before, url = "https://" ++ s ++ "/admin/oauth/authorize?" ++ before
                       ++ "state=" ++ random)
    ∧ temporaryStates w' !! ("state_" ++ s) = Some (Pending random now)
    ∧ (∀ k, k ≠ "state_" ++ s → temporaryStates w' !! k = temporaryStates w !! k)
    ∧ db w' = db w.
Proof.
  intros Hshop Hre. eexists _, _. split; [by apply auth_accepts|].
  split; [|split; [|split]].
  - exists ("client_id=" ++ SHOPIFY_API_KEY ++ "&" ++ "scope=" ++ SCOPES ++ "&"
            ++ "redirect_uri=" ++ (APP_URL ++ "/api/auth/callback") ++ "&").
    by rewrite !append_assoc.
  - simpl. apply lookup_insert_eq.
  - intros k Hk. simpl. by rewrite lookup_insert_ne.
  - reflexivity.
Qed.

(** X4. Starting the install again for the same shop replaces the
    pending state: the callback that carries the earlier state is then
    rejected with 403, whatever its signature. *)
Theorem auth_again_invalidates_earlier_state
    query1 query2 random1 random2 now1 now2 w s callback_query exchange random uuid now :
  query1 !! "shop" = Some (Js.VStr s) →
  query2 !! "shop" = Some (Js.VStr s) →
  shopRegex_test s = true →
  random1 ≠ random2 →
  callback_query !! "shop" = Some (Js.VStr s) →
  callback_query !! "state" = Some (Js.VStr random1) →
  let w2 := (auth' query2 random2 now2 (auth' query1 random1 now1 w).2).2 in
  temporaryStates w2 !! ("state_" ++ s) = Some (Pending random2 now2)
  ∧ callback' callback_query exchange random uuid now w2
    = (Responded (send 403 "Invalid state parameter"), w2, []).
Proof.
  intros H1 H2 Hre Hne Hshop Hstate w2. subst w2.
  rewrite (auth_accepts query1 random1 now1 w s H1 Hre). simpl.
  rewrite (auth_accepts query2 random2 now2 _ s H2 Hre). simpl.
  split; [apply lookup_insert_eq|].
  eapply (callback_state_differs _ _ _ _ _ _ _ _ _ _ s).
  - by rewrite (param_Some _ _ _ Hshop).
  - unfold state_key. simpl. apply lookup_insert_eq.
  - rewrite (param_Some _ _ _ Hstate). simpl. congruence.
Qed.

End Auth.

(** A domain outside [myshopify.com] is turned away. *)
Lemma auth_rejects_bad_shop_witness :
  ∃ text,
    auth Run.API_KEY Run.URL {[ "shop" := Js.VStr "foo.example.com" ]} "5ca1ab1e" 1000
      Sample.idle
    = (Responded (send 400 text), Sample.idle).
Proof.
  apply (auth_rejects_bad_shop Run.API_KEY Run.URL). right.
  exists "foo.example.com". split; vm_compute; reflexivity.
Defined.

(** Starting the install of [foo]. *)
Lemma auth_issues_state_witness :
  ∃ url w',
    auth Run.API_KEY Run.URL Sample.start "5ca1ab1e" 1000 Sample.idle
    = (Responded (redirect url), w')
    ∧ temporaryStates w' !! "state_foo.myshopify.com" = Some (Pending "5ca1ab1e" 1000).
Proof.
  destruct (auth_issues_state Run.API_KEY Run.URL Sample.start "5ca1ab1e" 1000 Sample.idle
              Run.foo) as (url & w' & Hrun & _ & Hstate & _).
  - vm_compute. reflexivity.
  - vm_compute. reflexivity.
  - exists url, w'. split; [exact Hrun|exact Hstate].
Defined.

(** The callback with the first state, after the install was started
    twice. *)
Lemma auth_again_invalidates_earlier_state_witness :
  callback Sha256.hmac_sha256 Run.API_KEY Run.SECRET Run.URL
    Run.signed (Some Run.token_data) "9e" "id-3" 2000 Sample.restarted
  = (Responded (send 403 "Invalid state parameter"), Sample.restarted, []).
Proof.
  pose proof (auth_again_invalidates_earlier_state Sha256.hmac_sha256
                Run.API_KEY Run.SECRET Run.URL Sample.start Sample.start
                "5ca1ab1e" "d00d" 1000 1500 Sample.idle Run.foo
                Run.signed (Some Run.token_data) "9e" "id-3" 2000) as H.
  cbv zeta in H. apply H.
  - vm_compute. reflexivity.
  - vm_compute. reflexivity.
  - vm_compute. reflexivity.
  - discriminate.
  - vm_compute. reflexivity.
  - vm_compute. reflexivity.
Defined.

(* ===================================================================== *)
(** ** The install flow, end to end                                       *)
(* ===================================================================== *)

(** No stored key has this [id]. *)
Lemma id_taken_false (uuid : string) (d : database) :
  id_taken uuid d = false ↔
  ∀ k key, extension_keys d !! k = Some key → ExtensionKey.id key ≠ uuid.
Proof.
  unfold id_taken. rewrite bool_decide_eq_false, map_Exists_lookup. split.
  - intros H k key Hk Hid. apply H. by exists k, key.
  - intros H (k & key & Hk & Hid). by apply (H k key).
Qed.

Section Install.

Variable hmac_sha256 : string → string → list Z.
Variables SHOPIFY_API_KEY SHOPIFY_API_SECRET APP_URL : string.

Abbreviation auth' := (auth SHOPIFY_API_KEY APP_URL).
Abbreviation callback' := (callback hmac_sha256 SHOPIFY_API_KEY SHOPIFY_API_SECRET APP_URL).

Lemma sk_prefix (random : string) : Js.startsWith ("sk_" ++ random) "sk_" = true.
Proof. apply startsWith_spec. by exists random. Qed.

(** X5. The whole install: after /api/auth for a shop that passes the
    test, the callback that echoes the issued state, whose parameters all
    have a text, that carries the hex HMAC of the signed text and gets a
    token from the platform, redirects to the shop's admin page, stores
    the shop active with that token, issues the extension key
    [sk_ + random] for it (the key text and the drawn id being in use by no
    stored key), and consumes the pending state; the new key then passes
    the extension middleware for that shop and token. *)
Theorem install_end_to_end auth_query query text data token granted state_drawn random uuid
    issued now w s :
  auth_query !! "shop" = Some (Js.VStr s) →
  shopRegex_test s = true →
  query !! "shop" = Some (Js.VStr s) →
  query !! "state" = Some (Js.VStr state_drawn) →
  queryString query = Ok text →
  query !! "hmac" = Some (Js.VStr (Digest.hex (hmac_sha256 SHOPIFY_API_SECRET text))) →
  Js.prop data "access_token" = Some (Js.VStr token) →
  Js.prop data "scope" = Some (Js.VStr granted) →
  extension_keys (db w) !! ("sk_" ++ random) = None →
  (∀ k key, extension_keys (db w) !! k = Some key → ExtensionKey.id key ≠ uuid) →
  ∃ w2 calls,
    callback' query (Some data) random uuid now (auth' auth_query state_drawn issued w).2
    = (Responded (redirect ("https://" ++ s ++ "/admin/apps/" ++ SHOPIFY_API_KEY)),
       w2, calls)
    ∧ shops (db w2) !! s = Some (Shop.Row token (Some granted) now None true)
    ∧ extension_keys (db w2) !! ("sk_" ++ random)
      = Some (ExtensionKey.Row uuid s (Some "Access Key Inicial") None true now)
    ∧ temporaryStates w2 !! ("state_" ++ s) = None
    ∧ ∀ later, ∃ d3,
        verifyExtensionKey (Some ("Bearer " ++ "sk_" ++ random)) later (db w2)
        = (Next s token "extension_key", d3).
Proof.
  intros Hauth Hre Hshop Hstate Htext Hhmac Htoken Hscope Hfresh Hid.
  rewrite (auth_accepts SHOPIFY_API_KEY APP_URL auth_query state_drawn issued w s Hauth Hre).
  simpl.
  set (w1 := World (<["state_" ++ s := Pending state_drawn issued]> (temporaryStates w))
                   (db w)).
  set (shop_row := Shop.Row token (Some granted) now None true).
  set (key_row := ExtensionKey.Row uuid s (Some "Access Key Inicial") None true now).
  set (d1 := Database (<[s := shop_row]> (shops (db w))) (extension_keys (db w))
                      (sender_configs (db w))).
  set (d2 := Database (shops d1) (<["sk_" ++ random := key_row]> (extension_keys d1))
                      (sender_configs d1)).
  assert (callback' query (Some data) random uuid now w1
          = (Responded (redirect ("https://" ++ s ++ "/admin/apps/" ++ SHOPIFY_API_KEY)),
             World (delete (state_key s) (temporaryStates w1)) d2,
             token_request SHOPIFY_API_KEY SHOPIFY_API_SECRET s query
               :: registerWebhooks APP_URL s)) as Hrun.
  { eapply (callback_installs _ _ _ _ query data (Js.VStr token) (Js.VStr granted)
              random uuid now w1 s (Pending state_drawn issued) text d1 d2
              ("sk_" ++ random) key_row).
    - by rewrite (param_Some _ _ _ Hshop).
    - unfold state_key. simpl. apply lookup_insert_eq.
    - by rewrite (param_Some _ _ _ Hstate).
    - done.
    - by rewrite (param_Some _ _ _ Hhmac).
    - done.
    - done.
    - by rewrite (param_Some _ _ _ Hshop).
    - unfold createExtensionKey, getShopSession. simpl.
      rewrite lookup_insert_eq. simpl.
      rewrite (proj2 (id_taken_false uuid d1) Hid).
      unfold generateAccessKey. by rewrite Hfresh. }
  eexists _, _. split; [exact Hrun|]. simpl.
  split; [apply lookup_insert_eq|]. split; [apply lookup_insert_eq|].
  split; [apply lookup_delete_eq|].
  intros later. eexists. unfold verifyExtensionKey.
  rewrite bearer_token. rewrite (sk_prefix random). simpl.
  rewrite (validateExtensionKey_Some ("sk_" ++ random) later d2 key_row shop_row);
    [reflexivity|apply lookup_insert_eq|done|apply lookup_insert_eq|done].
Qed.

(** X6. When the platform's token answer carries no [access_token], the
    callback that passed both checks answers 500 and stores nothing: no
    shop, no key; the pending state is consumed all the same. *)
Theorem callback_without_token_stores_nothing query text data scope random uuid now w
    shop saved :
  Js.toString (param query "shop") = Ok shop →
  temporaryStates w !! ("state_" ++ shop) = Some saved →
  query !! "state" = Some (Js.VStr (state saved)) →
  queryString query = Ok text →
  query !! "hmac" = Some (Js.VStr (Digest.hex (hmac_sha256 SHOPIFY_API_SECRET text))) →
  Js.prop data "access_token" = Some Js.VUndefined
  ∨ Js.prop data "access_token" = Some Js.VNull →
  Js.prop data "scope" = Some scope →
  ∃ calls,
    callback' query (Some data) random uuid now w
    = (Responded (send 500 "Error during authentication"),
       World (delete ("state_" ++ shop) (temporaryStates w)) (db w),
       calls).
Proof.
  intros Hshop Hsaved Hstate%param_Some Htext Hhmac%param_Some Htoken Hscope.
  unfold callback. rewrite Hshop, Hsaved, Hstate. simpl. rewrite String.eqb_refl. simpl.
  rewrite Htext, Hhmac. simpl. rewrite String.eqb_refl. simpl. rewrite Hscope.
  unfold saveShopSession.
  destruct Htoken as [-> | ->];
    destruct (required_column "shop" (param query "shop")); simpl; by eexists.
Qed.

(** X7. The install is not atomic: when the drawn key text is already
    stored, the callback has saved the shop as active before the key
    insert fails, answers 500, and leaves the shop installed without a new
    key and with the pending state consumed. *)
Theorem callback_key_collision_keeps_shop query text data token granted random uuid now w
    saved s taken :
  temporaryStates w !! ("state_" ++ s) = Some saved →
  query !! "shop" = Some (Js.VStr s) →
  query !! "state" = Some (Js.VStr (state saved)) →
  queryString query = Ok text →
  query !! "hmac" = Some (Js.VStr (Digest.hex (hmac_sha256 SHOPIFY_API_SECRET text))) →
  Js.prop data "access_token" = Some (Js.VStr token) →
  Js.prop data "scope" = Some (Js.VStr granted) →
  extension_keys (db w) !! ("sk_" ++ random) = Some taken →
  ∃ w' calls,
    callback' query (Some data) random uuid now w
    = (Responded (send 500 "Error during authentication"), w', calls)
    ∧ shops (db w') !! s = Some (Shop.Row token (Some granted) now None true)
    ∧ extension_keys (db w') = extension_keys (db w)
    ∧ temporaryStates w' !! ("state_" ++ s) = None.
Proof.
  intros Hsaved Hshop%param_Some Hstate%param_Some Htext Hhmac%param_Some Htoken Hscope
    Htaken.
  unfold callback. rewrite Hshop. simpl. rewrite Hsaved, Hstate. simpl.
  rewrite String.eqb_refl. simpl. rewrite Htext, Hhmac. simpl.
  rewrite String.eqb_refl. simpl.
  rewrite Htoken, Hscope. simpl.
  unfold createExtensionKey, getShopSession. simpl. rewrite lookup_insert_eq. simpl.
  unfold generateAccessKey. rewrite Htaken.
  destruct (id_taken uuid _);
    (eexists _, _; split; [reflexivity|]; simpl;
     split; [apply lookup_insert_eq|]; split; [done|apply lookup_delete_eq]).
Qed.

(** X8. Once the sweep has run at a time more than 300000 ms after a
    pending state was issued, the callback for it is rejected with 403,
    even with the right state and signature. *)
Theorem swept_state_is_rejected query exchange random uuid now swept_at w shop saved :
  Js.toString (param query "shop") = Ok shop →
  temporaryStates w !! ("state_" ++ shop) = Some saved →
  (swept_at - timestamp saved > 300000)%Z →
  let w' := World (sweep swept_at (temporaryStates w)) (db w) in
  callback' query exchange random uuid now w'
  = (Responded (send 403 "Invalid state parameter"), w', []).
Proof.
  intros Hshop Hsaved Hold w'. eapply callback_no_pending; [done|].
  unfold state_key. subst w'. simpl.
  destruct (sweep swept_at (temporaryStates w) !! _) as [e|] eqn:He; [|done].
  apply sweep_lookup in He as [He Hage]. rewrite Hsaved in He. injection He as <-. lia.
Qed.

End Install.

(** The install of [foo] on a store that does not know the drawn key. *)
Lemma install_end_to_end_witness :
  ∃ w2 calls,
    callback Sha256.hmac_sha256 Run.API_KEY Run.SECRET Run.URL
      Run.signed (Some Run.token_data) "9e" "id-3" 2000
      (auth Run.API_KEY Run.URL Sample.start "5ca1ab1e" 1000 Sample.idle).2
    = (Responded (redirect "https://foo.myshopify.com/admin/apps/0f3a9c"), w2, calls)
    ∧ shops (db w2) !! Run.foo = Some (Shop.Row "shpat_new" (Some SCOPES) 2000 None true)
    ∧ ∃ d3, verifyExtensionKey (Some "Bearer sk_9e") 3000 (db w2)
            = (Next Run.foo "shpat_new" "extension_key", d3).
Proof.
  destruct (install_end_to_end Sha256.hmac_sha256 Run.API_KEY Run.SECRET Run.URL
              Sample.start Run.signed Run.signed_text Run.token_data "shpat_new" SCOPES
              "5ca1ab1e" "9e" "id-3" 1000 2000 Sample.idle Run.foo)
    as (w2 & calls & Hrun & Hshop & _ & _ & Hkey).
  - vm_compute. reflexivity.
  - vm_compute. reflexivity.
  - vm_compute. reflexivity.
  - vm_compute. reflexivity.
  - vm_compute. reflexivity.
  - vm_compute. reflexivity.
  - vm_compute. reflexivity.
  - vm_compute. reflexivity.
  - vm_compute. reflexivity.
  - apply id_taken_false. vm_compute. reflexivity.
  - exists w2, calls. split; [exact Hrun|]. split; [exact Hshop|]. exact (Hkey 3000%Z).
Defined.

(** The signed callback answered by the platform with an error object. *)
Lemma callback_without_token_stores_nothing_witness :
  ∃ calls,
    callback Sha256.hmac_sha256 Run.API_KEY Run.SECRET Run.URL
      Run.signed (Some Sample.no_token) "9e" "id-3" 2000 Run.awaiting
    = (Responded (send 500 "Error during authentication"), Sample.idle, calls).
Proof.
  destruct (callback_without_token_stores_nothing Sha256.hmac_sha256
              Run.API_KEY Run.SECRET Run.URL Run.signed Run.signed_text Sample.no_token
              Js.VUndefined "9e" "id-3" 2000 Run.awaiting Run.foo (Pending "5ca1ab1e" 1000))
    as [calls Hrun].
  - vm_compute. reflexivity.
  - vm_compute. reflexivity.
  - vm_compute. reflexivity.
  - vm_compute. reflexivity.
  - vm_compute. reflexivity.
  - left. reflexivity.
  - reflexivity.
  - exists calls. rewrite Hrun. vm_compute. reflexivity.
Defined.

(** The signed callback when the drawn key is the one [foo] already has. *)
Lemma callback_key_collision_keeps_shop_witness :
  ∃ w' calls,
    callback Sha256.hmac_sha256 Run.API_KEY Run.SECRET Run.URL
      Run.signed (Some Run.token_data) "00ff" "id-3" 2000 Run.awaiting
    = (Responded (send 500 "Error during authentication"), w', calls)
    ∧ shops (db w') !! Run.foo = Some (Shop.Row "shpat_new" (Some SCOPES) 2000 None true)
    ∧ extension_keys (db w') = extension_keys Run.store.
Proof.
  destruct (callback_key_collision_keeps_shop Sha256.hmac_sha256
              Run.API_KEY Run.SECRET Run.URL Run.signed Run.signed_text Run.token_data
              "shpat_new" SCOPES
              "00ff" "id-3" 2000 Run.awaiting (Pending "5ca1ab1e" 1000) Run.foo
              (ExtensionKey.Row "id-1" Run.foo (Some "Access Key Inicial") None true 10))
    as (w' & calls & Hrun & Hshop & Hkeys & _).
  - vm_compute. reflexivity.
  - vm_compute. reflexivity.
  - vm_compute. reflexivity.
  - vm_compute. reflexivity.
  - vm_compute. reflexivity.
  - vm_compute. reflexivity.
  - vm_compute. reflexivity.
  - vm_compute. reflexivity.
  - exists w', calls. split; [exact Hrun|]. split; [exact Hshop|exact Hkeys].
Defined.

(** The state issued at 1000, swept at 400000. *)
Lemma swept_state_is_rejected_witness :
  callback Sha256.hmac_sha256 Run.API_KEY Run.SECRET Run.URL
    Run.signed (Some Run.token_data) "9e" "id-3" 400001
    (World (sweep 400000 (temporaryStates Run.awaiting)) Run.store)
  = (Responded (send 403 "Invalid state parameter"),
     World (sweep 400000 (temporaryStates Run.awaiting)) Run.store, []).
Proof.
  pose proof (swept_state_is_rejected Sha256.hmac_sha256 Run.API_KEY Run.SECRET Run.URL
                Run.signed (Some Run.token_data) "9e" "id-3" 400001 400000 Run.awaiting
                Run.foo (Pending "5ca1ab1e" 1000)) as H.
  cbv zeta in H. apply H.
  - vm_compute. reflexivity.
  - vm_compute. reflexivity.
  - vm_compute. reflexivity.
Defined.

(** X9. The sweep only removes entries, keeps every entry at most
    300000 ms old, and a later sweep subsumes an earlier one. *)
Theorem sweep_composes (earlier later : Z) (states : gmap string pending) :
  (earlier ≤ later)%Z →
  sweep later (sweep earlier states) = sweep later states
  ∧ sweep later states ⊆ states
  ∧ ∀ k e, states !! k = Some e → (later - timestamp e ≤ 300000)%Z →
           sweep later states !! k = Some e.
Proof.
  intros Hle. split; [|split].
  - apply map_eq. intros k. apply option_eq. intros e.
    rewrite !sweep_lookup. split; [tauto|].
    intros [He Hage]. repeat split; try done. lia.
  - apply map_filter_subseteq.
  - intros k e He Hage. by apply sweep_lookup.
Qed.

Lemma sweep_composes_witness :
  sweep 600000 (sweep 300000 (temporaryStates Run.awaiting))
  = sweep 600000 (temporaryStates Run.awaiting).
Proof.
  destruct (sweep_composes 300000 600000 (temporaryStates Run.awaiting)) as [H _].
  - lia.
  - exact H.
Defined.

(* ===================================================================== *)
(** ** The store: uninstall, reinstall, counting                          *)
(* ===================================================================== *)

Lemma alter_as_insert {A} (f : A → A) (m : gmap string A) (k : string) (x : A) :
  m !! k = Some x → alter f k m = <[k := f x]> m.
Proof.
  intros H. apply map_eq. intros j. destruct (decide (k = j)) as [<-|Hne].
  - by rewrite lookup_alter_eq, lookup_insert_eq, H.
  - by rewrite lookup_alter_ne, lookup_insert_ne.
Qed.

(** X10. Uninstalling a shop touches that shop's row and that shop's
    keys only: every other shop, every key of another shop and every
    sender config (the uninstalled shop's own included) stay as they were,
    and for a domain with no row and no keys the store is unchanged. *)
Theorem deleteShopSession_frame (s : string) (now : Z) (d : database) :
  let d' := deleteShopSession (Some s) now d in
  (∀ other, other ≠ s → shops d' !! other = shops d !! other)
  ∧ (∀ k key, extension_keys d !! k = Some key → ExtensionKey.shop key ≠ s →
              extension_keys d' !! k = Some key)
  ∧ (∀ k, extension_keys d !! k = None → extension_keys d' !! k = None)
  ∧ sender_configs d' = sender_configs d
  ∧ (shops d !! s = None →
     (∀ k key, extension_keys d !! k = Some key → ExtensionKey.shop key ≠ s) →
     d' = d).
Proof.
  simpl. split; [|split; [|split; [|split]]].
  - intros other Hne. by rewrite lookup_alter_ne.
  - intros k key Hk Hne. rewrite lookup_fmap, Hk. simpl.
    by rewrite (proj2 (String.eqb_neq _ _) Hne).
  - intros k Hk. by rewrite lookup_fmap, Hk.
  - done.
  - intros Hs Hkeys. destruct d as [sh ks cf]. simpl in *. f_equal.
    + apply alter_id. intros x Hx. congruence.
    + apply map_eq. intros k. rewrite lookup_fmap.
      destruct (ks !! k) as [key|] eqn:Hk; [|done]. simpl.
      by rewrite (proj2 (String.eqb_neq _ _) (Hkeys k key Hk)).
Qed.

(** X11. Reinstalling does not revive extension keys: after an
    uninstall followed by a new install of the same shop, the shop is
    active again with the new token, and every key the shop had before is
    still refused by the extension middleware. *)
Theorem reinstall_keeps_keys_revoked (s token granted k : string) (key : ExtensionKey.row)
    (gone back later : Z) (d : database) :
  extension_keys d !! k = Some key →
  ExtensionKey.shop key = s →
  ∃ d2,
    saveShopSession (Js.VStr s) (Js.VStr token) (Js.VStr granted) back
      (deleteShopSession (Some s) gone d) = Ok d2
    ∧ getShopSession s d2 = Some (Shop.Row token (Some granted) back None true)
    ∧ ∃ g, verifyExtensionKey (Some ("Bearer " ++ k)) later d2 = (g, d2) ∧ denied g.
Proof.
  intros Hk Hshop. eexists. split; [reflexivity|]. split.
  - unfold getShopSession. simpl. by rewrite lookup_insert_eq.
  - unfold verifyExtensionKey. rewrite bearer_token.
    destruct (Js.startsWith k "sk_"); simpl; [|eauto using denied_unauthorized].
    rewrite validateExtensionKey_None; [eauto using denied_unauthorized|].
    right. exists (deactivate_key key). split; [|by left]. simpl.
    rewrite lookup_fmap, Hk. simpl. by rewrite Hshop, String.eqb_refl.
Qed.

(** [foo] uninstalled at 600 and installed again at 700: its old key is
    refused at 800. *)
Lemma reinstall_keeps_keys_revoked_witness :
  ∃ d2,
    saveShopSession (Js.VStr Run.foo) (Js.VStr "shpat_new") (Js.VStr SCOPES) 700
      (deleteShopSession (Some Run.foo) 600 Run.store) = Ok d2
    ∧ ∃ g, verifyExtensionKey (Some "Bearer sk_00ff") 800 d2 = (g, d2) ∧ denied g.
Proof.
  destruct (reinstall_keeps_keys_revoked Run.foo "shpat_new" SCOPES Run.foo_key
              (ExtensionKey.Row "id-1" Run.foo (Some "Access Key Inicial") None true 10)
              600 700 800 Run.store) as (d2 & Hsave & _ & Hdenied).
  - vm_compute. reflexivity.
  - reflexivity.
  - exists d2. split; [exact Hsave|exact Hdenied].
Defined.

Lemma active_filter_lookup (m : gmap string Shop.row) (s : string) :
  filter (fun kr : string * Shop.row => Shop.isActive kr.2 = true) m !! s
  = match m !! s with
    | Some r => if Shop.isActive r then Some r else None
    | None => None
    end.
Proof.
  apply option_eq. intros r. rewrite map_lookup_filter_Some. simpl.
  destruct (m !! s) as [r'|]; [|by split; [intros [? _]|]].
  destruct (Shop.isActive r') eqn:E.
  - split; [by intros [? _]|]. intros [= <-]. by split.
  - split; [|done]. intros [[= <-] ?]. congruence.
Qed.

(** X12. The number of active shops (what /api/health reports) goes
    down by exactly one when an active shop is uninstalled and is
    unchanged when the domain was not active; an install raises it by one
    for a shop that was not active and leaves it alone for one that was. *)
Theorem active_shops_count_tracks (s : string) (now : Z) (d : database) :
  (match getShopSession s d with
   | Some _ => getActiveShopsCount (deleteShopSession (Some s) now d) + 1
               = getActiveShopsCount d
   | None => getActiveShopsCount (deleteShopSession (Some s) now d)
             = getActiveShopsCount d
   end)
  ∧ ∀ token granted d',
      saveShopSession (Js.VStr s) (Js.VStr token) granted now d = Ok d' →
      getActiveShopsCount d'
      = match getShopSession s d with
        | Some _ => getActiveShopsCount d
        | None => getActiveShopsCount d + 1
        end.
Proof.
  unfold getActiveShopsCount, getShopSession.
  pose proof (active_filter_lookup (shops d) s) as Hlook.
  split.
  - simpl. destruct (shops d !! s) as [r|] eqn:Hs.
    + rewrite (alter_as_insert _ _ _ _ Hs).
      rewrite map_filter_insert_False by (simpl; discriminate).
      rewrite map_filter_delete, map_size_delete, Hlook.
      destruct (Shop.isActive r) eqn:Ha; [|done].
      assert (size (filter (fun kr : string * Shop.row => Shop.isActive kr.2 = true)
                           (shops d)) ≠ 0) as Hpos.
      { intros Hz%map_size_empty_inv. rewrite Hz, lookup_empty in Hlook. done. }
      simpl. lia.
    + by rewrite alter_id by congruence.
  - intros token granted d'. unfold saveShopSession. simpl.
    destruct (nullable_column "scope" _ None) as [scope'|]; [|done]. simpl.
    intros [= <-]. simpl.
    rewrite map_filter_insert_True by done.
    rewrite map_size_insert, Hlook.
    destruct (shops d !! s) as [r|]; [|simpl; lia].
    destruct (Shop.isActive r); simpl; lia.
Qed.

(** X13. The extension middleware writes nothing but last-used stamps:
    whatever the request, shops and sender configs are untouched, no key
    appears or disappears, and every key keeps its id, owner, name, active
    flag and creation time. *)
Theorem verifyExtensionKey_frame (authorization : option string) (now : Z) (d : database) :
  let d' := (verifyExtensionKey authorization now d).2 in
  shops d' = shops d
  ∧ sender_configs d' = sender_configs d
  ∧ ∀ k, match extension_keys d !! k, extension_keys d' !! k with
         | Some key, Some key' =>
             ExtensionKey.id key' = ExtensionKey.id key
             ∧ ExtensionKey.shop key' = ExtensionKey.shop key
             ∧ ExtensionKey.name key' = ExtensionKey.name key
             ∧ ExtensionKey.isActive key' = ExtensionKey.isActive key
             ∧ ExtensionKey.createdAt key' = ExtensionKey.createdAt key
         | None, None => True
         | _, _ => False
         end.
Proof.
  assert (∀ k, match extension_keys d !! k, extension_keys d !! k with
               | Some key, Some key' =>
                   ExtensionKey.id key' = ExtensionKey.id key
                   ∧ ExtensionKey.shop key' = ExtensionKey.shop key
                   ∧ ExtensionKey.name key' = ExtensionKey.name key
                   ∧ ExtensionKey.isActive key' = ExtensionKey.isActive key
                   ∧ ExtensionKey.createdAt key' = ExtensionKey.createdAt key
               | None, None => True
               | _, _ => False
               end) as Hsame by (intros k; by destruct (extension_keys d !! k)).
  unfold verifyExtensionKey.
  destruct (bearer authorization) as [accessKey|]; [|done].
  destruct (Js.startsWith accessKey "sk_"); [|done]. simpl.
  unfold validateExtensionKey.
  destruct (extension_keys d !! accessKey) as [key|] eqn:Hk; [|done].
  destruct (ExtensionKey.isActive key); [|done].
  destruct (shops d !! ExtensionKey.shop key) as [s|]; [|done].
  destruct (Shop.isActive s); [|done]. simpl.
  repeat split. intros k. destruct (decide (accessKey = k)) as [<-|Hne].
  - by rewrite lookup_insert_eq, Hk.
  - rewrite lookup_insert_ne by done. apply Hsame.
Qed.

(* ===================================================================== *)
(** ** Extension key management                                           *)
(* ===================================================================== *)

#[export] Instance newer_first_trans : Transitive newer_first.
Proof. intros a b c. unfold newer_first. lia. Qed.

#[export] Instance newer_first_total : Total newer_first.
Proof. intros a b. unfold newer_first. lia. Qed.

Lemma getShopExtensionKeys_elem (shop : string) (d : database) (k : string)
    (key : ExtensionKey.row) :
  (k, key) ∈ getShopExtensionKeys shop d ↔
  extension_keys d !! k = Some key
  ∧ ExtensionKey.shop key = shop
  ∧ ExtensionKey.isActive key = true.
Proof.
  unfold getShopExtensionKeys.
  rewrite merge_sort_Permutation, list_elem_of_filter, elem_of_map_to_list. simpl. tauto.
Qed.

Lemma getShopExtensionKeys_NoDup (shop : string) (d : database) :
  NoDup (getShopExtensionKeys shop d).*1.
Proof.
  unfold getShopExtensionKeys. rewrite merge_sort_Permutation.
  eapply sublist_NoDup; [apply (NoDup_fst_map_to_list (extension_keys d))|].
  apply fmap_sublist, sublist_filter.
Qed.

Section KeyManagement.

Variable jwt_decode : string → result Js.value.
Variable toISOString : Z → string.

Abbreviation verifySessionToken' := (verifySessionToken jwt_decode).
Abbreviation get_extension_keys' := (get_extension_keys jwt_decode toISOString).
Abbreviation post_extension_key' := (post_extension_key jwt_decode toISOString).
Abbreviation delete_extension_key' := (delete_extension_key jwt_decode).

(** X14. For an authenticated shop, GET /api/app/extension-keys lists
    exactly the active keys stored for that shop, each once, newest first;
    a revoked key or a key of another shop never appears. *)
Theorem get_extension_keys_lists (authorization : option string) (d : database)
    (shop token method : string) :
  verifySessionToken' authorization d = Next shop token method →
  ∃ rows,
    get_extension_keys' authorization d
    = json 200 (Js.VObj [("success", Js.VBool true);
                         ("keys", Js.VArr (map (listed_key toISOString) rows))])
    ∧ (∀ k key, (k, key) ∈ rows ↔
                extension_keys d !! k = Some key
                ∧ ExtensionKey.shop key = shop
                ∧ ExtensionKey.isActive key = true)
    ∧ NoDup rows.*1
    ∧ StronglySorted
        (fun a b => (ExtensionKey.createdAt b.2 ≤ ExtensionKey.createdAt a.2)%Z) rows.
Proof.
  intros Hauth. exists (getShopExtensionKeys shop d).
  split; [|split; [|split]].
  - unfold get_extension_keys. by rewrite Hauth.
  - apply getShopExtensionKeys_elem.
  - apply getShopExtensionKeys_NoDup.
  - apply (StronglySorted_merge_sort newer_first).
Qed.

(** X15. For an authenticated shop and a name that is text or missing,
    POST /api/app/extension-keys answers 200 with the new key and stores it
    as an active key [sk_ + random] owned by that shop, provided no stored
    key has that key text or the drawn id.  The name is
    'Nuevo Access Key' when the body gives none or an empty one, and the
    given text otherwise.  Every other key and the shops are untouched, and
    the new key passes the extension middleware at once, for the same shop
    and token. *)
Theorem post_extension_key_issues_valid_key (authorization : option string)
    (props : list (string * Js.value)) (random uuid : string) (now : Z) (d : database)
    (shop token method : string) :
  verifySessionToken' authorization d = Next shop token method →
  (Js.assoc props "name" = Js.VUndefined ∨ ∃ text, Js.assoc props "name" = Js.VStr text) →
  extension_keys d !! ("sk_" ++ random) = None →
  (∀ k key, extension_keys d !! k = Some key → ExtensionKey.id key ≠ uuid) →
  ∃ d' name,
    post_extension_key' authorization (Js.VObj props) random uuid now d
    = (json 200
         (Js.VObj [("success", Js.VBool true);
                   ("key", Js.VObj
                      [("id", Js.VStr uuid);
                       ("accessKey", Js.VStr ("sk_" ++ random));
                       ("name", Js.VStr name);
                       ("createdAt", date toISOString now)])]),
       d')
    ∧ extension_keys d' !! ("sk_" ++ random)
      = Some (ExtensionKey.Row uuid shop (Some name) None true now)
    ∧ (Js.assoc props "name" = Js.VUndefined → name = "Nuevo Access Key")
    ∧ (Js.assoc props "name" = Js.VStr "" → name = "Nuevo Access Key")
    ∧ (∀ text, Js.assoc props "name" = Js.VStr text → text ≠ "" → name = text)
    ∧ (∀ k, k ≠ "sk_" ++ random → extension_keys d' !! k = extension_keys d !! k)
    ∧ shops d' = shops d
    ∧ ∀ later, ∃ d3,
        verifyExtensionKey (Some ("Bearer " ++ "sk_" ++ random)) later d'
        = (Next shop token "extension_key", d3).
Proof.
  intros Hauth Hname Hfresh Hid.
  destruct (verifySessionToken_Next jwt_decode authorization d shop token method Hauth)
    as (s & Hs & Hactive & ->).
  assert (∃ name, string_column "name" (or_else (Js.assoc props "name")
                                                (Js.VStr "Nuevo Access Key"))
                  = Ok (Cell (Some name))
                  ∧ (Js.assoc props "name" = Js.VUndefined → name = "Nuevo Access Key")
                  ∧ (Js.assoc props "name" = Js.VStr "" → name = "Nuevo Access Key")
                  ∧ (∀ text, Js.assoc props "name" = Js.VStr text → text ≠ "" →
                             name = text)) as (name & Hcol & Hdefault & Hempty & Hgiven).
  { destruct Hname as [->|[text ->]].
    - exists "Nuevo Access Key". split; [done|]. split; [done|]. split; [done|].
      by intros ? [=].
    - unfold or_else. simpl. destruct (String.eqb text "") eqn:E; simpl.
      + apply String.eqb_eq in E as ->. exists "Nuevo Access Key".
        split; [done|]. split; [done|]. split; [done|]. by intros ? [= <-] ?.
      + exists text. split; [done|]. split; [done|]. split.
        * intros [= ->]. by rewrite String.eqb_refl in E.
        * by intros ? [= <-] ?. }
  exists (Database (shops d)
            (<["sk_" ++ random := ExtensionKey.Row uuid shop (Some name) None true now]>
               (extension_keys d))
            (sender_configs d)),
         name.
  split; [|split; [|split; [|split; [|split; [|split; [|split]]]]]].
  - unfold post_extension_key. rewrite Hauth. simpl Js.prop. cbv beta iota.
    rewrite Hcol. unfold createExtensionKey, getShopSession, generateAccessKey.
    by rewrite Hs, Hactive, (proj2 (id_taken_false uuid d) Hid), Hfresh.
  - simpl. apply lookup_insert_eq.
  - done.
  - done.
  - done.
  - intros k Hk. simpl. by rewrite lookup_insert_ne.
  - done.
  - intros later. eexists. unfold verifyExtensionKey.
    rewrite bearer_token, (sk_prefix random). simpl.
    rewrite (validateExtensionKey_Some ("sk_" ++ random) later _
               (ExtensionKey.Row uuid shop (Some name) None true now) s);
      [reflexivity|apply lookup_insert_eq|done|done|done].
Qed.

(** X16. When the drawn key text is already stored, for whatever shop,
    POST /api/app/extension-keys changes nothing, whoever asks and whatever
    the body: it answers 401 or 500, and the stored key keeps its owner. *)
Theorem post_extension_key_collision (authorization : option string) (body : Js.value)
    (random uuid : string) (now : Z) (d : database) (taken : ExtensionKey.row) :
  extension_keys d !! ("sk_" ++ random) = Some taken →
  ∃ r, post_extension_key' authorization body random uuid now d = (r, d)
       ∧ (status r = 401%Z ∨ status r = 500%Z).
Proof.
  intros Htaken. unfold post_extension_key.
  destruct (verifySessionToken' authorization d) as [r|shop token method] eqn:Hauth.
  - exists r. split; [done|]. left.
    revert Hauth. unfold verifySessionToken.
    repeat (match goal with
            | |- context [match ?x with _ => _ end] => destruct x
            end; try discriminate; try (intros [= <-]; reflexivity)).
  - assert (∃ r, (failure 500 "Error creando access key", d) = (r, d)
                 ∧ (status r = 401%Z ∨ status r = 500%Z)) as Hfailed
      by (eexists; split; [reflexivity|by right]).
    destruct (Js.prop body "name") as [name|]; [|exact Hfailed].
    destruct (string_column "name" _) as [[|name']|]; try exact Hfailed.
    unfold createExtensionKey, generateAccessKey. rewrite Htaken.
    destruct (getShopSession shop d); [|exact Hfailed].
    destruct (id_taken uuid d); exact Hfailed.
Qed.

(** X17. Revoking one of the authenticated shop's keys takes exactly
    that key out of the shop's list: the listing afterwards holds the same
    rows as before except the revoked one. *)
Theorem revoke_removes_from_list (authorization : option string) (accessKey : string)
    (d : database) (shop token method : string) :
  verifySessionToken' authorization d = Next shop token method →
  let d' := (delete_extension_key' authorization accessKey d).2 in
  verifySessionToken' authorization d' = Next shop token method
  ∧ ∀ k key, (k, key) ∈ getShopExtensionKeys shop d' ↔
             k ≠ accessKey ∧ (k, key) ∈ getShopExtensionKeys shop d.
Proof.
  intros Hauth. unfold delete_extension_key. rewrite Hauth. simpl. split.
  - revert Hauth. unfold verifySessionToken, getShopSession. by simpl.
  - intros k key. rewrite !getShopExtensionKeys_elem. simpl.
    destruct (decide (k = accessKey)) as [->|Hne].
    + rewrite lookup_alter_eq. split; [|tauto].
      destruct (extension_keys d !! accessKey) as [key0|]; simpl; [|by intros [? _]].
      destruct (String.eqb (ExtensionKey.shop key0) shop) eqn:E.
      * intros [[= <-] [_ Hactive]]. done.
      * intros [[= <-] [Hshop _]]. apply String.eqb_neq in E. done.
    + rewrite lookup_alter_ne by done. tauto.
Qed.

End KeyManagement.

(** The listing for [foo]. *)
Lemma get_extension_keys_lists_witness :
  ∃ rows,
    get_extension_keys Run.jwt_decode Sample.iso (Some "Bearer t.foo.sig") Run.store
    = json 200 (Js.VObj [("success", Js.VBool true);
                         ("keys", Js.VArr (map (listed_key Sample.iso) rows))])
    ∧ NoDup rows.*1.
Proof.
  destruct (get_extension_keys_lists Run.jwt_decode Sample.iso (Some "Bearer t.foo.sig")
              Run.store Run.foo "shpat_foo" "session_token")
    as (rows & Hrun & _ & Hnodup & _).
  - vm_compute. reflexivity.
  - exists rows. split; [exact Hrun|exact Hnodup].
Defined.

(** [foo] asks for a key named [Caja]. *)
Lemma post_extension_key_issues_valid_key_witness :
  ∃ r d',
    post_extension_key Run.jwt_decode Sample.iso (Some "Bearer t.foo.sig")
      (Js.VObj [("name", Js.VStr "Caja")]) "9e" "id-3" 50 Run.store = (r, d')
    ∧ status r = 200%Z
    ∧ extension_keys d' !! "sk_9e"
      = Some (ExtensionKey.Row "id-3" Run.foo (Some "Caja") None true 50)
    ∧ ∃ d3, verifyExtensionKey (Some "Bearer sk_9e") 60 d'
            = (Next Run.foo "shpat_foo" "extension_key", d3).
Proof.
  destruct (post_extension_key_issues_valid_key Run.jwt_decode Sample.iso
              (Some "Bearer t.foo.sig") [("name", Js.VStr "Caja")] "9e" "id-3" 50
              Run.store Run.foo "shpat_foo" "session_token")
    as (d' & name & Hrun & Hkey & _ & _ & Hname & _ & _ & Hpass).
  - vm_compute. reflexivity.
  - right. by exists "Caja".
  - vm_compute. reflexivity.
  - apply id_taken_false. vm_compute. reflexivity.
  - eexists _, d'. split; [exact Hrun|]. split; [reflexivity|]. split.
    + rewrite (Hname "Caja") in Hkey; [exact Hkey|reflexivity|discriminate].
    + exact (Hpass 60%Z).
Defined.

(** [bar] draws the key text [foo] already holds. *)
Lemma post_extension_key_collision_witness :
  ∃ r,
    post_extension_key Run.jwt_decode Sample.iso (Some "Bearer t.bar.sig")
      (Js.VObj [("name", Js.VStr "Caja")]) "00ff" "id-3" 50 Run.store = (r, Run.store)
    ∧ (status r = 401%Z ∨ status r = 500%Z).
Proof.
  apply (post_extension_key_collision Run.jwt_decode Sample.iso (Some "Bearer t.bar.sig")
           (Js.VObj [("name", Js.VStr "Caja")]) "00ff" "id-3" 50 Run.store
           (ExtensionKey.Row "id-1" Run.foo (Some "Access Key Inicial") None true 10)).
  vm_compute. reflexivity.
Defined.

(** [foo] revokes its only key: it stays authenticated and the key is no
    longer listed. *)
Lemma revoke_removes_from_list_witness :
  verifySessionToken Run.jwt_decode (Some "Bearer t.foo.sig")
    (delete_extension_key Run.jwt_decode (Some "Bearer t.foo.sig") Run.foo_key Run.store).2
  = Next Run.foo "shpat_foo" "session_token"
  ∧ ∀ k key,
      (k, key) ∈ getShopExtensionKeys Run.foo
                   (delete_extension_key Run.jwt_decode (Some "Bearer t.foo.sig")
                      Run.foo_key Run.store).2 ↔
      k ≠ Run.foo_key ∧ (k, key) ∈ getShopExtensionKeys Run.foo Run.store.
Proof.
  pose proof (revoke_removes_from_list Run.jwt_decode (Some "Bearer t.foo.sig")
                Run.foo_key Run.store Run.foo "shpat_foo" "session_token") as H.
  cbv zeta in H. apply H. vm_compute. reflexivity.
Defined.

(* ===================================================================== *)
(** ** Sender config: whose row is written, and when nothing is           *)
(* ===================================================================== *)

Lemma assoc_app_found (props rest : list (string * Js.value)) (k : string) (v : Js.value) :
  Js.assoc props k = v → v ≠ Js.VUndefined → Js.assoc (props ++ rest)%list k = v.
Proof.
  induction props as [|[k0 v0] props IH]; simpl; [congruence|].
  destruct (String.eqb k0 k); auto.
Qed.

Lemma nullable_column_refused (column : string) (v : Js.value) (current : option string) :
  ¬ storable v → ∃ e, nullable_column column v current = Throw e.
Proof. destruct v; simpl; intros H; try (by destruct H); by eexists. Qed.

(** The row a body is written to is the one its own [shop] names. *)
Lemma saveSenderConfig_named_row (shop target : string) (props : list (string * Js.value))
    (d : database) :
  Js.assoc props "shop" = Js.VStr target →
  is_Some (shops d !! target) →
  (∀ f, f ∈ sender_fields → storable (Js.assoc props f)) →
  ∃ row,
    saveSenderConfig shop (Js.VObj props) d
    = Ok (Database (shops d) (extension_keys d) (<[target := row]> (sender_configs d)))
    ∧ ∀ f s, f ∈ sender_fields → Js.assoc props f = Js.VStr s →
             Js.assoc (sender_projection row) f = Js.VStr s.
Proof.
  intros Hshop [srow Hsrow] Hstor. unfold saveSenderConfig. simpl Js.spread.
  rewrite (assoc_app_found props _ "shop" (Js.VStr target)) by done. simpl.
  set (old := default SenderConfig.defaults (sender_configs d !! target)).
  repeat match goal with
  | |- context [nullable_column ?c (Js.assoc (props ++ _)%list ?f) ?cur] =>
      let x := fresh "c" in
      let Hx := fresh "Hc" in
      rewrite (assoc_app_other props "shop" f) by discriminate;
      destruct (nullable_column_storable c (Js.assoc props f) cur)
        as (x & -> & [Hx _] & _);
      [apply Hstor; unfold sender_fields; among_literals|]; simpl
  end.
  rewrite Hsrow. eexists. split; [reflexivity|].
  intros f s Hf Hfs. unfold sender_fields in Hf.
  repeat (apply elem_of_cons in Hf as [->|Hf]);
    [..|by apply elem_of_nil in Hf]; simpl;
    match goal with
    | H : ∀ s, Js.assoc props ?f = Js.VStr s → ?c = Some s, Hfs : Js.assoc props ?f = _
      |- cell ?c = _ => by rewrite (H s Hfs)
    end.
Qed.

(** X18. POST /api/sender-config writes the row of the shop named in
    the body when the body has a [shop] of its own: authenticated with shop
    A's key, a body naming an installed shop B is stored as B's sender
    config, readable there field by field, and A's own config is what it
    was. *)
Theorem sender_config_written_to_named_shop (authorization : option string) (now : Z)
    (d d1 : database) (A B token method : string) (props : list (string * Js.value)) :
  verifyExtensionKey authorization now d = (Next A token method, d1) →
  Js.assoc props "shop" = Js.VStr B →
  A ≠ B →
  is_Some (shops d !! B) →
  (∀ f, f ∈ sender_fields → storable (Js.assoc props f)) →
  ∃ r d2 row,
    post_sender_config authorization (Js.VObj props) now d = (r, d2)
    ∧ status r = 200%Z
    ∧ sender_configs d2 !! B = Some row
    ∧ (∀ f s, f ∈ sender_fields → Js.assoc props f = Js.VStr s →
              Js.assoc (sender_projection row) f = Js.VStr s)
    ∧ sender_configs d2 !! A = sender_configs d !! A.
Proof.
  intros Hauth Hshop Hne HB Hstor.
  pose proof Hauth as (k & key & s & _ & _ & _ & _ & _ & _ & _ & _ & _ & Hd1)
    %verifyExtensionKey_Next.
  destruct (saveSenderConfig_named_row A B props d1 Hshop) as (row & Hsave & Hread);
    [by subst d1|done|].
  eexists _, _, row. split; [|split; [|split; [|split]]].
  - unfold post_sender_config. rewrite Hauth, Hsave. reflexivity.
  - reflexivity.
  - simpl. apply lookup_insert_eq.
  - exact Hread.
  - simpl. rewrite lookup_insert_ne by done. by subst d1.
Qed.

(** With [foo]'s key, a body naming [bar] lands in [bar]'s row. *)
Lemma sender_config_written_to_named_shop_witness :
  ∃ r d2 row,
    post_sender_config (Some "Bearer sk_00ff") Run.foreign_body 50 Run.store = (r, d2)
    ∧ status r = 200%Z
    ∧ sender_configs d2 !! Run.bar = Some row
    ∧ Js.assoc (sender_projection row) "senderName" = Js.VStr "Eve"
    ∧ sender_configs d2 !! Run.foo = None.
Proof.
  destruct (sender_config_written_to_named_shop (Some "Bearer sk_00ff") 50 Run.store
              Sample.stamped Run.foo Run.bar "shpat_foo" "extension_key"
              (Js.spread Run.foreign_body))
    as (r & d2 & row & Hrun & Hstatus & Hrow & Hread & Hown).
  - vm_compute. reflexivity.
  - reflexivity.
  - discriminate.
  - by eexists.
  - intros f Hf. unfold sender_fields in Hf.
    repeat (apply elem_of_cons in Hf as [->|Hf]); [..|by apply elem_of_nil in Hf];
      exact I.
  - exists r, d2, row. split; [exact Hrun|]. split; [exact Hstatus|].
    split; [exact Hrow|]. split; [|exact Hown].
    apply Hread; [unfold sender_fields; among_literals|reflexivity].
Defined.

(** X19. A body in which a whitelisted field is an array or an object
    is refused as a whole, whether or not it names a shop of its own:
    POST /api/sender-config answers 500 and no sender config is written,
    not even for the valid fields. *)
Theorem sender_config_rejects_structured_field (authorization : option string) (now : Z)
    (d d1 : database) (shop token method : string) (props : list (string * Js.value))
    (f : string) :
  verifyExtensionKey authorization now d = (Next shop token method, d1) →
  f ∈ sender_fields →
  ¬ storable (Js.assoc props f) →
  ∃ r d2,
    post_sender_config authorization (Js.VObj props) now d = (r, d2)
    ∧ status r = 500%Z
    ∧ sender_configs d2 = sender_configs d.
Proof.
  intros Hauth Hf Hbad.
  pose proof Hauth as (k & key & s & _ & _ & _ & _ & _ & _ & _ & _ & _ & Hd1)
    %verifyExtensionKey_Next.
  assert (∃ e, saveSenderConfig shop (Js.VObj props) d1 = Throw e) as [e Hsave].
  { unfold saveSenderConfig. simpl Js.spread.
    destruct (required_column "shop" _) as [target|]; simpl; [|by eexists].
    set (old := default SenderConfig.defaults (sender_configs d1 !! target)).
    unfold sender_fields in Hf.
    repeat (apply elem_of_cons in Hf as [->|Hf]); [..|by apply elem_of_nil in Hf];
      match goal with
      | |- context [nullable_column ?c (Js.assoc (props ++ ?l)%list ?g) ?cur] =>
          lazymatch type of Hbad with
          | ¬ storable (Js.assoc props g) =>
              let e' := fresh "e" in
              let He := fresh "He" in
              rewrite (assoc_app_other props "shop" g) by discriminate;
              destruct (nullable_column_refused c (Js.assoc props g) cur Hbad)
                as [e' He];
              rewrite He
          end
      end;
      repeat lazymatch goal with
      | |- ∃ e, Throw _ = Throw e => by eexists
      | |- ∃ e, mbind _ (Throw _) = Throw e => by eexists
      | |- ∃ e, mbind _ ?m = Throw e => destruct m; simpl; [|by eexists]
      end. }
  eexists _, _. split; [|split].
  - unfold post_sender_config. rewrite Hauth, Hsave. reflexivity.
  - reflexivity.
  - by subst d1.
Qed.

(** A sender name sent as an array. *)
Lemma sender_config_rejects_structured_field_witness :
  ∃ r d2,
    post_sender_config (Some "Bearer sk_00ff")
      (Js.VObj [("senderId", Js.VStr "155800"); ("senderName", Js.VArr [])]) 50 Run.store
    = (r, d2)
    ∧ status r = 500%Z
    ∧ sender_configs d2 = sender_configs Run.store.
Proof.
  apply (sender_config_rejects_structured_field (Some "Bearer sk_00ff") 50 Run.store
           Sample.stamped Run.foo "shpat_foo" "extension_key"
           [("senderId", Js.VStr "155800"); ("senderName", Js.VArr [])] "senderName").
  - vm_compute. reflexivity.
  - unfold sender_fields. among_literals.
  - intros H. exact H.
Defined.

(** X20. POST /api/sender-config is a partial update.  For a body
    without a [shop] of its own and with storable fields, every whitelisted
    field the body leaves out keeps the value stored before; when the shop
    had no config yet, it takes the model's default. *)
Theorem sender_config_keeps_omitted_fields (authorization : option string) (now : Z)
    (d d1 : database) (shop token method : string) (props : list (string * Js.value)) :
  verifyExtensionKey authorization now d = (Next shop token method, d1) →
  "shop" ∉ props.*1 →
  (∀ f, f ∈ sender_fields → storable (Js.assoc props f)) →
  ∃ r d2 row,
    post_sender_config authorization (Js.VObj props) now d = (r, d2)
    ∧ status r = 200%Z
    ∧ getSenderConfig shop d2 = Some row
    ∧ ∀ f, f ∈ sender_fields → Js.assoc props f = Js.VUndefined →
           Js.assoc (sender_projection row) f
           = Js.assoc (sender_projection
                         (default SenderConfig.defaults (getSenderConfig shop d))) f.
Proof.
  intros Hauth Hshop Hstor.
  pose proof Hauth as (k & key & s & _ & _ & _ & _ & _ & Hs & _ & _ & _ & Hd1)
    %verifyExtensionKey_Next.
  assert (∃ row,
            saveSenderConfig shop (Js.VObj props) d1
            = Ok (Database (shops d1) (extension_keys d1)
                    (<[shop := row]> (sender_configs d1)))
            ∧ ∀ f, f ∈ sender_fields → Js.assoc props f = Js.VUndefined →
                   Js.assoc (sender_projection row) f
                   = Js.assoc (sender_projection
                                 (default SenderConfig.defaults (sender_configs d1 !! shop))) f)
    as (row & Hsave & Hkeep).
  { unfold saveSenderConfig. simpl Js.spread.
    rewrite assoc_app_absent by done. simpl.
    set (old := default SenderConfig.defaults (sender_configs d1 !! shop)).
    repeat match goal with
    | |- context [nullable_column ?c (Js.assoc (props ++ _)%list ?f) ?cur] =>
        let x := fresh "c" in
        let Hx := fresh "Hc" in
        rewrite (assoc_app_other props "shop" f) by discriminate;
        destruct (nullable_column_storable c (Js.assoc props f) cur)
          as (x & -> & _ & Hx);
        [apply Hstor; unfold sender_fields; among_literals|]; simpl
    end.
    assert (is_Some (shops d1 !! shop)) as [srow ->] by (subst d1; simpl; eauto).
    eexists. split; [reflexivity|].
    intros f Hf Hundef. unfold sender_fields in Hf.
    repeat (apply elem_of_cons in Hf as [->|Hf]); [..|by apply elem_of_nil in Hf]; simpl;
      match goal with
      | H : Js.assoc props ?f = Js.VUndefined → ?c = _ |- cell ?c = _ =>
          by rewrite (H Hundef)
      end. }
  eexists _, _, row. split; [|split; [|split]].
  - unfold post_sender_config. rewrite Hauth, Hsave. reflexivity.
  - reflexivity.
  - unfold getSenderConfig. simpl. apply lookup_insert_eq.
  - intros f Hf Hundef. rewrite (Hkeep f Hf Hundef). unfold getSenderConfig.
    by subst d1.
Qed.

(** After a full config, a body with only a new name keeps the postal
    code; on a store without a config the province takes its default. *)
Lemma sender_config_keeps_omitted_fields_witness :
  (∃ r d2 row,
     post_sender_config (Some "Bearer sk_00ff") (Js.VObj [("senderName", Js.VStr "Eva")])
       60 Sample.configured = (r, d2)
     ∧ getSenderConfig Run.foo d2 = Some row
     ∧ Js.assoc (sender_projection row) "senderPostalCode" = Js.VStr "40302")
  ∧ ∃ r d2 row,
      post_sender_config (Some "Bearer sk_00ff") (Js.VObj [("senderName", Js.VStr "Eva")])
        60 Run.store = (r, d2)
      ∧ getSenderConfig Run.foo d2 = Some row
      ∧ Js.assoc (sender_projection row) "provinciaSender" = Js.VStr "1".
Proof.
  assert (∀ f, f ∈ sender_fields →
               storable (Js.assoc [("senderName", Js.VStr "Eva")] f)) as Hstor.
  { intros f Hf. unfold sender_fields in Hf.
    repeat (apply elem_of_cons in Hf as [->|Hf]); [..|by apply elem_of_nil in Hf];
      exact I. }
  split.
  - destruct (sender_config_keeps_omitted_fields (Some "Bearer sk_00ff") 60
                Sample.configured (validateExtensionKey Run.foo_key 60 Sample.configured).2
                Run.foo "shpat_foo" "extension_key" [("senderName", Js.VStr "Eva")])
      as (r & d2 & row & Hrun & _ & Hrow & Hkeep).
    + vm_compute. reflexivity.
    + simpl. absent_literal.
    + exact Hstor.
    + exists r, d2, row. split; [exact Hrun|]. split; [exact Hrow|].
      rewrite Hkeep; [vm_compute; reflexivity|unfold sender_fields; among_literals|].
      reflexivity.
  - destruct (sender_config_keeps_omitted_fields (Some "Bearer sk_00ff") 60
                Run.store (validateExtensionKey Run.foo_key 60 Run.store).2
                Run.foo "shpat_foo" "extension_key" [("senderName", Js.VStr "Eva")])
      as (r & d2 & row & Hrun & _ & Hrow & Hkeep).
    + vm_compute. reflexivity.
    + simpl. absent_literal.
    + exact Hstor.
    + exists r, d2, row. split; [exact Hrun|]. split; [exact Hrow|].
      rewrite Hkeep; [vm_compute; reflexivity|unfold sender_fields; among_literals|].
      reflexivity.
Defined.

(* ===================================================================== *)
(** ** The signed text again                                              *)
(* ===================================================================== *)

Lemma sort_unique (keys sorted : list string) :
  keys ≡ₚ sorted → StronglySorted String.le sorted → sort keys = sorted.
Proof.
  intros Hperm Hsorted.
  apply (StronglySorted_unique String.le); [apply sort_StronglySorted|done|].
  by rewrite sort_Permutation.
Qed.

(** X21. The signed text does not tell a value that contains [&k=v]
    from a separate parameter [k]: a query with the single parameter
    [a = x&b=y] and the query with [a = x] and [b = y] have the same text,
    [a=x&b=y], hence the same expected HMAC under every key. *)
Theorem queryString_is_ambiguous (hmac_sha256 : string → string → list Z)
    (secret a b x y : string) :
  a ≠ "hmac" → b ≠ "hmac" → a ≠ b → String.le a b →
  queryString {[ a := Js.VStr (x ++ "&" ++ b ++ "=" ++ y) ]}
  = queryString {[ a := Js.VStr x; b := Js.VStr y ]}
  ∧ queryString {[ a := Js.VStr x; b := Js.VStr y ]}
    = Ok (a ++ "=" ++ x ++ "&" ++ b ++ "=" ++ y)
  ∧ expected_hmac hmac_sha256 secret {[ a := Js.VStr (x ++ "&" ++ b ++ "=" ++ y) ]}
    = expected_hmac hmac_sha256 secret {[ a := Js.VStr x; b := Js.VStr y ]}
  ∧ expected_hmac hmac_sha256 secret {[ a := Js.VStr x; b := Js.VStr y ]}
    = Ok (Digest.hex (hmac_sha256 secret (a ++ "=" ++ x ++ "&" ++ b ++ "=" ++ y))).
Proof.
  intros Ha Hb Hab Hle.
  assert (queryString {[ a := Js.VStr x; b := Js.VStr y ]}
          = Ok (a ++ "=" ++ x ++ "&" ++ b ++ "=" ++ y)) as Htwo.
  { unfold queryString.
    rewrite !delete_id
      by (rewrite ?lookup_insert_ne, ?lookup_singleton_ne by done; done).
    rewrite (sort_unique _ [a; b]).
    2:{ unfold Object_keys.
        rewrite map_to_list_insert by (by rewrite lookup_singleton_ne).
        by rewrite map_to_list_singleton. }
    2:{ repeat constructor; done. }
    unfold param. simpl.
    rewrite lookup_insert_eq, lookup_insert_ne by done.
    rewrite lookup_singleton_eq. simpl.
    by rewrite !append_assoc. }
  assert (queryString {[ a := Js.VStr (x ++ "&" ++ b ++ "=" ++ y) ]}
          = Ok (a ++ "=" ++ x ++ "&" ++ b ++ "=" ++ y)) as Hone.
  { unfold queryString.
    rewrite !delete_id by (rewrite ?lookup_singleton_ne by done; done).
    rewrite (sort_unique _ [a]).
    2:{ unfold Object_keys. by rewrite map_to_list_singleton. }
    2:{ repeat constructor. }
    unfold param. simpl. rewrite lookup_singleton_eq. simpl. reflexivity. }
  split; [by rewrite Hone, Htwo|]. split; [exact Htwo|].
  unfold expected_hmac. by rewrite Hone, Htwo.
Qed.

(** One parameter [code] that swallows the shop, against two parameters. *)
Lemma queryString_is_ambiguous_witness :
  queryString {[ "code" := Js.VStr "c0de&shop=foo.myshopify.com" ]}
  = queryString {[ "code" := Js.VStr "c0de"; "shop" := Js.VStr "foo.myshopify.com" ]}.
Proof.
  destruct (queryString_is_ambiguous Sha256.hmac_sha256 Run.SECRET "code" "shop" "c0de"
              "foo.myshopify.com") as [H _].
  - discriminate.
  - discriminate.
  - discriminate.
  - vm_compute. exact I.
  - exact H.
Defined.

(* ===================================================================== *)
(** ** The order proxy                                                    *)
(* ===================================================================== *)

Lemma traverse_length {A B : Type} (f : A → result B) (items : list A) (out : list B) :
  traverse f items = Ok out → length out = length items.
Proof. intros H%traverse_Ok. symmetry. by eapply Forall2_length. Qed.

Lemma traverse_all {A B : Type} (f : A → result B) (items : list A) :
  (∀ x, x ∈ items → ∃ y, f x = Ok y) → ∃ out, traverse f items = Ok out.
Proof.
  induction items as [|x items IH]; intros Hall; [by eexists|].
  rewrite traverse_cons.
  destruct (Hall x) as [y ->]; [left|]. simpl.
  destruct IH as [ys ->]; [|by eexists].
  intros x' Hx'. apply Hall. by right.
Qed.

Lemma traverse_one_throws {A B : Type} (f : A → result B) (items : list A) (x : A) :
  x ∈ items → (∃ e, f x = Throw e) → ∃ e, traverse f items = Throw e.
Proof.
  intros Hin [e He]. induction items as [|x' items IH]; [by apply elem_of_nil in Hin|].
  rewrite traverse_cons. apply elem_of_cons in Hin as [<-|Hin].
  - rewrite He. by eexists.
  - destruct (f x'); simpl; [|by eexists].
    destruct (IH Hin) as [e' ->]. by eexists.
Qed.

(** An order whose [line_items] is not an array cannot be reshaped. *)
Lemma reshape_order_needs_line_items (order : Js.value) :
  (∀ items, Js.prop order "line_items" ≠ Some (Js.VArr items)) →
  ∃ e, reshape_order order = Throw e.
Proof.
  intros Hitems. unfold reshape_order, get.
  destruct (Js.prop order "id"); simpl; [|by eexists].
  destruct (Js.prop order "order_number"); simpl; [|by eexists].
  destruct (Js.prop order "name"); simpl; [|by eexists].
  destruct (Js.prop order "created_at"); simpl; [|by eexists].
  destruct (Js.prop order "total_price"); simpl; [|by eexists].
  destruct (Js.prop order "currency"); simpl; [|by eexists].
  destruct (Js.prop order "note"); simpl; [|by eexists].
  destruct (Js.prop order "note_attributes"); simpl; [|by eexists].
  destruct (Js.prop order "customer") as [customer|]; simpl; [|by eexists].
  destruct (reshape_customer customer) as [c|]; simpl; [|by eexists].
  destruct (Js.prop order "shipping_address"); simpl; [|by eexists].
  destruct (Js.prop order "line_items") as [line_items|]; simpl; [|by eexists].
  destruct line_items; simpl; try (by eexists).
  by destruct (Hitems items).
Qed.

(** An order whose customer has a first name without a text cannot be
    reshaped. *)
Lemma reshape_order_needs_printable_name (order customer first_name : Js.value) :
  Js.prop order "customer" = Some customer →
  Js.truthy customer = true →
  Js.prop customer "first_name" = Some first_name →
  Js.truthy first_name = true →
  (∃ e, Js.toString first_name = Throw e) →
  ∃ e, reshape_order order = Throw e.
Proof.
  intros Hcustomer Htruthy Hfirst Hname [e He]. unfold reshape_order, get.
  destruct (Js.prop order "id"); simpl; [|by eexists].
  destruct (Js.prop order "order_number"); simpl; [|by eexists].
  destruct (Js.prop order "name"); simpl; [|by eexists].
  destruct (Js.prop order "created_at"); simpl; [|by eexists].
  destruct (Js.prop order "total_price"); simpl; [|by eexists].
  destruct (Js.prop order "currency"); simpl; [|by eexists].
  destruct (Js.prop order "note"); simpl; [|by eexists].
  destruct (Js.prop order "note_attributes"); simpl; [|by eexists].
  rewrite Hcustomer. simpl. unfold reshape_customer, get, or_else.
  rewrite Htruthy, Hfirst. simpl. rewrite Hname, He. by eexists.
Qed.

Section Proxy.

Variable message_of : error → string.

Abbreviation orders_pending' := (orders_pending message_of).
Abbreviation update_tracking' := (update_tracking message_of).

(** The request of the order listing for a shop. *)
Lemma orders_pending_Replied authorization now data d shop token method d1 :
  verifyExtensionKey authorization now d = (Next shop token method, d1) →
  orders_pending' authorization now (Replied data) d
  = (match reshape_orders data with
     | Ok orders =>
         json 200 (Js.VObj [("success", Js.VBool true);
                            ("shop", Js.VStr shop);
                            ("count", Js.VNum (Js.decimal (length orders)));
                            ("orders", Js.VArr orders)])
     | Throw e =>
         json 500 (Js.VObj [("success", Js.VBool false);
                            ("error", Js.VStr "Error al obtener pedidos");
                            ("details", details Js.VUndefined (message_of e))])
     end,
     d1,
     [AxiosGet ("https://" ++ shop ++ "/admin/api/2024-01/orders.json")
        [("status", Js.VStr "any"); ("financial_status", Js.VStr "paid");
         ("fulfillment_status", Js.VStr "unfulfilled"); ("limit", Js.VNum "50")]
        token]).
Proof.
  intros Hauth. unfold orders_pending. rewrite Hauth.
  by destruct (reshape_orders data).
Qed.

(** X22. The order listing is all or nothing.  For a key that passes
    the middleware and an upstream answer whose [orders] is an array: when
    every order can be reshaped the answer is 200 with one reshaped order
    per upstream order and [count] their number; when reshaping a single
    order throws, the whole listing is answered 500.  An order without a
    [line_items] array is such an order, and so is one whose customer's
    first name has no text. *)
Theorem orders_pending_all_or_nothing authorization now data orders d shop token method d1 :
  verifyExtensionKey authorization now d = (Next shop token method, d1) →
  Js.prop data "orders" = Some (Js.VArr orders) →
  ((∀ o, o ∈ orders → ∃ r, reshape_order o = Ok r) →
   ∃ out,
     (orders_pending' authorization now (Replied data) d).1.1
     = json 200 (Js.VObj [("success", Js.VBool true);
                          ("shop", Js.VStr shop);
                          ("count", Js.VNum (Js.decimal (length orders)));
                          ("orders", Js.VArr out)])
     ∧ Forall2 (fun o r => reshape_order o = Ok r) orders out)
  ∧ ((∃ o e, o ∈ orders ∧ reshape_order o = Throw e) →
     status (orders_pending' authorization now (Replied data) d).1.1 = 500%Z)
  ∧ ((∃ o, o ∈ orders ∧ ∀ items, Js.prop o "line_items" ≠ Some (Js.VArr items)) →
     status (orders_pending' authorization now (Replied data) d).1.1 = 500%Z)
  ∧ ((∃ o customer first_name e,
        o ∈ orders
        ∧ Js.prop o "customer" = Some customer ∧ Js.truthy customer = true
        ∧ Js.prop customer "first_name" = Some first_name ∧ Js.truthy first_name = true
        ∧ Js.toString first_name = Throw e) →
     status (orders_pending' authorization now (Replied data) d).1.1 = 500%Z).
Proof.
  intros Hauth Horders.
  rewrite (orders_pending_Replied _ _ _ _ _ _ _ _ Hauth). simpl.
  unfold reshape_orders, get. rewrite Horders. simpl.
  assert (∀ o, o ∈ orders → (∃ e, reshape_order o = Throw e) →
               status match traverse reshape_order orders with
                      | Ok orders0 =>
                          json 200 (Js.VObj [("success", Js.VBool true);
                                             ("shop", Js.VStr shop);
                                             ("count", Js.VNum (Js.decimal (length orders0)));
                                             ("orders", Js.VArr orders0)])
                      | Throw e =>
                          json 500 (Js.VObj [("success", Js.VBool false);
                                             ("error", Js.VStr "Error al obtener pedidos");
                                             ("details",
                                              details Js.VUndefined (message_of e))])
                      end = 500%Z) as Hthrows.
  { intros o Hin Ho.
    by destruct (traverse_one_throws reshape_order orders o Hin Ho) as [e ->]. }
  split; [|split; [|split]].
  - intros Hall. destruct (traverse_all reshape_order orders Hall) as [out Hout].
    rewrite Hout. exists out. split.
    + by rewrite (traverse_length _ _ _ Hout).
    + by apply traverse_Ok.
  - intros (o & e & Hin & Ho). apply (Hthrows o Hin). by exists e.
  - intros (o & Hin & Hitems). apply (Hthrows o Hin).
    by apply reshape_order_needs_line_items.
  - intros (o & customer & first_name & e & Hin & Hc & Htc & Hf & Htf & He).
    apply (Hthrows o Hin).
    eapply reshape_order_needs_printable_name; eauto.
Qed.

(** X23. The proxy calls the platform only for the shop that owns the
    presented key, with that shop's stored token: a refused request sends
    nothing upstream, an admitted one sends exactly one listing request to
    the owner's domain, whatever the platform then answers; the store is
    only stamped by the middleware. *)
Theorem orders_pending_calls_owner authorization now upstream d :
  match verifyExtensionKey authorization now d with
  | (Deny r, d1) =>
      orders_pending' authorization now upstream d = (r, d1, [])
  | (Next shop token _, d1) =>
      (orders_pending' authorization now upstream d).1.2 = d1
      ∧ (orders_pending' authorization now upstream d).2
        = [AxiosGet ("https://" ++ shop ++ "/admin/api/2024-01/orders.json")
             [("status", Js.VStr "any"); ("financial_status", Js.VStr "paid");
              ("fulfillment_status", Js.VStr "unfulfilled"); ("limit", Js.VNum "50")]
             token]
      ∧ ∃ key s k,
          authorization = Some ("Bearer " ++ k)
          ∧ extension_keys d !! k = Some key
          ∧ ExtensionKey.shop key = shop
          ∧ shops d !! shop = Some s
          ∧ Shop.accessToken s = token
  end.
Proof.
  destruct (verifyExtensionKey authorization now d) as [[r|shop token method] d1] eqn:Hauth.
  - unfold orders_pending. by rewrite Hauth.
  - unfold orders_pending. rewrite Hauth.
    split; [|split].
    + destruct upstream as [data|data message]; [|done].
      by destruct (reshape_orders data).
    + destruct upstream as [data|data message]; [|done].
      by destruct (reshape_orders data).
    + apply verifyExtensionKey_Next in Hauth
        as (k & key & s & -> & _ & Hk & _ & Hshop & Hs & _ & Htok & _).
      by exists key, s, k.
Qed.

(** X24. A location field of a reshaped order is the value of the first
    note attribute with that name: attributes before it with other names
    are skipped, whatever follows it is never looked at, and without any
    attribute of that name (or without attributes at all) the field is
    undefined. *)
Theorem note_value_first_match (name : string) (before after : list Js.value)
    (a v : Js.value) :
  (∀ x, x ∈ before → ∃ n, Js.prop x "name" = Some n ∧ n ≠ Js.VStr name) →
  (Js.prop a "name" = Some (Js.VStr name) → Js.prop a "value" = Some v →
   note_value (Js.VArr (before ++ a :: after)) name = Ok v)
  ∧ note_value (Js.VArr before) name = Ok Js.VUndefined
  ∧ note_value Js.VNull name = Ok Js.VUndefined
  ∧ note_value Js.VUndefined name = Ok Js.VUndefined.
Proof.
  intros Hbefore.
  assert (∀ rest, find_named name (before ++ rest) = find_named name rest) as Hskip.
  { intros rest. induction before as [|x before IH]; [done|]. simpl.
    destruct (Hbefore x) as (n & Hn & Hne); [left|].
    unfold get. rewrite Hn. simpl. rewrite strict_eq_false by done.
    apply IH. intros x' Hx'. apply Hbefore. by right. }
  split; [|split; [|done]].
  - intros Hname Hvalue. unfold note_value. rewrite Hskip. simpl.
    unfold get. rewrite Hname. simpl. rewrite String.eqb_refl. simpl.
    rewrite Hvalue. by destruct a.
  - unfold note_value. rewrite <- (app_nil_r before), Hskip. reflexivity.
Qed.

(** X25. POST /api/orders/update-tracking, for a key that passes the
    middleware and an object body.  Without a truthy [order_id] and
    [tracking_number] it answers 400 and sends nothing upstream.  With
    both, an [order_id] that has no text (an object with its own
    [toString]) is answered 500, again with nothing sent.  Otherwise it
    sends one fulfillment request for that order to the owner's domain
    with the owner's token, customer notification on, and the carrier from
    the body, and answers 200 or 500; the default carrier is used only
    when [tracking_company] is absent, so an explicit null goes upstream as
    null. *)
Theorem update_tracking_validates authorization props now upstream d shop token method d1 :
  verifyExtensionKey authorization now d = (Next shop token method, d1) →
  let order_id := Js.assoc props "order_id" in
  let tracking_number := Js.assoc props "tracking_number" in
  let company := Js.assoc props "tracking_company" in
  (Js.truthy order_id = false ∨ Js.truthy tracking_number = false →
   ∃ r, update_tracking' authorization (Js.VObj props) now upstream d = (r, d1, [])
        ∧ status r = 400%Z)
  ∧ (Js.truthy order_id = true → Js.truthy tracking_number = true →
     (∀ e, Js.toString order_id = Throw e →
        ∃ r, update_tracking' authorization (Js.VObj props) now upstream d = (r, d1, [])
             ∧ status r = 500%Z)
     ∧ ∀ id, Js.toString order_id = Ok id →
         ∃ r carrier,
           update_tracking' authorization (Js.VObj props) now upstream d
           = (r, d1,
              [AxiosPostAs ("https://" ++ shop ++ "/admin/api/2024-01/orders/"
                            ++ id ++ "/fulfillments.json")
                 (Js.VObj [("fulfillment",
                            Js.VObj [("location_id", Js.VNull);
                                     ("tracking_number", tracking_number);
                                     ("tracking_company", carrier);
                                     ("notify_customer", Js.VBool true)])])
                 token])
           ∧ (status r = 200%Z ∨ status r = 500%Z)
           ∧ (company = Js.VUndefined → carrier = Js.VStr "Correos de Costa Rica")
           ∧ (company ≠ Js.VUndefined → carrier = company)).
Proof.
  intros Hauth order_id tracking_number company.
  unfold update_tracking, get. rewrite Hauth. simpl Js.prop.
  fold order_id tracking_number company.
  generalize order_id tracking_number company. clear order_id tracking_number company.
  intros order_id tracking_number company. cbv beta iota zeta. split.
  - intros Hfalsy.
    assert (negb (Js.truthy order_id) || negb (Js.truthy tracking_number) = true) as ->
      by (destruct Hfalsy as [-> | ->]; [done|by rewrite orb_true_r]).
    by eexists.
  - intros -> ->. simpl. split.
    + intros e ->. by eexists.
    + intros id ->.
      exists (match upstream with
              | Refused data message =>
                  json 500 (Js.VObj [("success", Js.VBool false);
                                     ("error", Js.VStr "Error al actualizar tracking");
                                     ("details", details data message)])
              | Replied data =>
                  match get data "fulfillment" with
                  | Ok fulfillment =>
                      json 200
                        (Js.VObj [("success", Js.VBool true);
                                  ("message", Js.VStr "Tracking actualizado exitosamente");
                                  ("fulfillment", fulfillment)])
                  | Throw e =>
                      json 500
                        (Js.VObj [("success", Js.VBool false);
                                  ("error", Js.VStr "Error al actualizar tracking");
                                  ("details", details Js.VUndefined (message_of e))])
                  end
              end),
             (match company with
              | Js.VUndefined => Js.VStr "Correos de Costa Rica"
              | _ => company
              end).
      split; [|split; [|split]].
      * destruct upstream as [data|data message]; [|done].
        unfold get. by destruct (Js.prop data "fulfillment").
      * destruct upstream as [data|data message]; [|by right].
        unfold get. destruct (Js.prop data "fulfillment"); [by left|by right].
      * by intros ->.
      * intros Hne. by destruct company.
Qed.

End Proxy.

(** A listing of one well-formed order is answered 200 with count 1; the
    same listing with an order that has no line items, or with an order
    whose customer's first name has no text, fails as a whole. *)
Lemma orders_pending_all_or_nothing_witness :
  (∃ out,
     (orders_pending Sample.message (Some "Bearer sk_00ff") 50
        (Replied (Js.VObj [("orders", Js.VArr [Sample.order])])) Run.store).1.1
     = json 200 (Js.VObj [("success", Js.VBool true);
                          ("shop", Js.VStr Run.foo);
                          ("count", Js.VNum "1");
                          ("orders", Js.VArr out)]))
  ∧ status (orders_pending Sample.message (Some "Bearer sk_00ff") 50
              (Replied (Js.VObj [("orders", Js.VArr [Sample.order; Sample.broken_order])]))
              Run.store).1.1 = 500%Z
  ∧ status (orders_pending Sample.message (Some "Bearer sk_00ff") 50
              (Replied (Js.VObj [("orders", Js.VArr [Sample.order; Sample.nameless_order])]))
              Run.store).1.1 = 500%Z.
Proof.
  split; [|split].
  - destruct (orders_pending_all_or_nothing Sample.message (Some "Bearer sk_00ff") 50
                (Js.VObj [("orders", Js.VArr [Sample.order])]) [Sample.order]
                Run.store Run.foo "shpat_foo" "extension_key" Sample.stamped) as [Hall _].
    + vm_compute. reflexivity.
    + reflexivity.
    + destruct Hall as (out & Hrun & _).
      * intros o Ho. apply list_elem_of_singleton in Ho as ->.
        eexists. vm_compute. reflexivity.
      * exists out. exact Hrun.
  - destruct (orders_pending_all_or_nothing Sample.message (Some "Bearer sk_00ff") 50
                (Js.VObj [("orders", Js.VArr [Sample.order; Sample.broken_order])])
                [Sample.order; Sample.broken_order]
                Run.store Run.foo "shpat_foo" "extension_key" Sample.stamped)
      as (_ & _ & Hone & _).
    + vm_compute. reflexivity.
    + reflexivity.
    + apply Hone. exists Sample.broken_order. split; [among_literals|].
      intros items. discriminate.
  - destruct (orders_pending_all_or_nothing Sample.message (Some "Bearer sk_00ff") 50
                (Js.VObj [("orders", Js.VArr [Sample.order; Sample.nameless_order])])
                [Sample.order; Sample.nameless_order]
                Run.store Run.foo "shpat_foo" "extension_key" Sample.stamped)
      as (_ & _ & _ & Hname).
    + vm_compute. reflexivity.
    + reflexivity.
    + apply Hname. eexists Sample.nameless_order, _, Run.unprintable, _.
      split; [among_literals|]. repeat split; reflexivity.
Defined.

(** Of two [province_id] attributes the first is the one reported. *)
Lemma note_value_first_match_witness :
  note_value Sample.attributes "province_id" = Ok (Js.VStr "4").
Proof.
  destruct (note_value_first_match "province_id"
              [Js.VObj [("name", Js.VStr "county_id"); ("value", Js.VStr "3")]]
              [Js.VObj [("name", Js.VStr "province_id"); ("value", Js.VStr "9")]]
              (Js.VObj [("name", Js.VStr "province_id"); ("value", Js.VStr "4")])
              (Js.VStr "4")) as [H _].
  - intros x Hx. apply list_elem_of_singleton in Hx as ->.
    eexists. split; [reflexivity|discriminate].
  - apply H; reflexivity.
Defined.

(** A tracking update without a number is refused before any request; one
    with the carrier set to null sends null upstream; one whose order id
    has no text is answered 500 with nothing sent. *)
Lemma update_tracking_validates_witness :
  (∃ r,
     update_tracking Sample.message (Some "Bearer sk_00ff")
       (Js.VObj [("order_id", Js.VNum "5001")]) 50 (Replied Js.VNull) Run.store
     = (r, Sample.stamped, [])
     ∧ status r = 400%Z)
  ∧ (∃ r,
       update_tracking Sample.message (Some "Bearer sk_00ff") (Js.VObj Sample.tracking) 50
         (Replied (Js.VObj [("fulfillment", Js.VObj [("id", Js.VNum "7")])])) Run.store
       = (r, Sample.stamped,
          [AxiosPostAs
             "https://foo.myshopify.com/admin/api/2024-01/orders/5001/fulfillments.json"
             (Js.VObj [("fulfillment",
                        Js.VObj [("location_id", Js.VNull);
                                 ("tracking_number", Js.VStr "CR123");
                                 ("tracking_company", Js.VNull);
                                 ("notify_customer", Js.VBool true)])])
             "shpat_foo"]))
  ∧ ∃ r,
      update_tracking Sample.message (Some "Bearer sk_00ff")
        (Js.VObj [("order_id", Run.unprintable); ("tracking_number", Js.VStr "CR123")])
        50 (Replied Js.VNull) Run.store
      = (r, Sample.stamped, [])
      ∧ status r = 500%Z.
Proof.
  split; [|split].
  - pose proof (update_tracking_validates Sample.message (Some "Bearer sk_00ff")
                  [("order_id", Js.VNum "5001")] 50 (Replied Js.VNull) Run.store
                  Run.foo "shpat_foo" "extension_key" Sample.stamped) as H.
    cbv zeta in H. destruct H as [H400 _].
    + vm_compute. reflexivity.
    + apply H400. right. reflexivity.
  - pose proof (update_tracking_validates Sample.message (Some "Bearer sk_00ff")
                  Sample.tracking 50
                  (Replied (Js.VObj [("fulfillment", Js.VObj [("id", Js.VNum "7")])]))
                  Run.store Run.foo "shpat_foo" "extension_key" Sample.stamped) as H.
    cbv zeta in H. destruct H as [_ Hsend].
    + vm_compute. reflexivity.
    + destruct Hsend as [_ Hsend]; [reflexivity..|].
      destruct (Hsend "5001") as (r & carrier & Hrun & _ & _ & Hcarrier); [reflexivity|].
      exists r. rewrite Hrun, (Hcarrier ltac:(discriminate)). reflexivity.
  - pose proof (update_tracking_validates Sample.message (Some "Bearer sk_00ff")
                  [("order_id", Run.unprintable); ("tracking_number", Js.VStr "CR123")]
                  50 (Replied Js.VNull) Run.store
                  Run.foo "shpat_foo" "extension_key" Sample.stamped) as H.
    cbv zeta in H. destruct H as [_ Hthrow].
    + vm_compute. reflexivity.
    + destruct Hthrow as [Hthrow _]; [reflexivity..|].
      eapply Hthrow. reflexivity.
Defined.

(* ===================================================================== *)
(** ** Webhook deliveries the body parsers did not read                   *)
(* ===================================================================== *)

Section Deliveries.

Variable hmac_sha256 : string → string → list Z.
Variable JSON_parse : string → result Js.value.
Variable SHOPIFY_API_SECRET : string.

Abbreviation webhook_probe' := (webhook_probe hmac_sha256 SHOPIFY_API_SECRET).
Abbreviation webhook_logged' := (webhook_logged hmac_sha256 JSON_parse SHOPIFY_API_SECRET).


End Deliveries.
